(** * Brand-reputation multi-agent system: decision core

    A shallow embedding of the decision, alerting, routing and bookkeeping
    code of the backend agents (backend/app/agents), with the properties
    the design document states about them.

    Conventions of the embedding.
    - A Python [float] is a rational ([Q], compared with [==]). The
      sentiment rules of the alert manager, whose branches hang on the
      last bit of a mean or a difference, compute with the rounding of
      binary64 ([Py.fl]); everywhere else the arithmetic is exact and
      the statements are about exact arithmetic.
    - [list(set(l))] is [elements] of a [gset]: no duplicates, and an
      order nothing is known about.
    - A Python [str] is a [string] of one-byte characters; [str.lower]
      is the ASCII lowering and [len] the number of characters.
    - A Python [dict] read with [.get(key, default)] is a record whose
      fields are [option]s, or a [gmap] where the keys are computed.
    - Code that can raise returns in the monad [M] of section [Alerts]
      or in [result]; mutation of [self] is explicit state passing, and
      a state change made before an exception is kept, as in Python. *)

From Stdlib Require Import String Ascii List ZArith QArith Qminmax Qabs.
From Stdlib Require Import Lqa Lia Bool DecimalString Sorted Permutation.
From stdpp Require Import base option list gmap strings.

Local Open Scope string_scope.
Local Open Scope Q_scope.

(* ------------------------------------------------------------------ *)
(** * Python primitives *)

Module Py.

(** [c.lower()] on one ASCII character. *)
Definition lower_ascii (c : ascii) : ascii :=
  let n := nat_of_ascii c in
  if ((65 <=? n) && (n <=? 90))%nat then ascii_of_nat (n + 32) else c.

(** [s.lower()]. *)
Fixpoint lower (s : string) : string :=
  match s with
  | EmptyString => EmptyString
  | String c s' => String (lower_ascii c) (lower s')
  end.

(** [needle in hay] on strings: substring test. *)
Fixpoint contains (needle hay : string) : bool :=
  String.prefix needle hay ||
  match hay with
  | EmptyString => false
  | String _ hay' => contains needle hay'
  end.

(** [len(s)]. *)
Definition len (s : string) : Z := Z.of_nat (String.length s).

(** [bool(s)] for a string: non-empty. *)
Definition truthy (s : string) : bool :=
  match s with EmptyString => false | _ => true end.

(** [any(p(x) for x in l)] and [sum(1 for x in l if p(x))]. *)
Definition any {A} (p : A -> bool) (l : list A) : bool := existsb p l.
Definition count {A} (p : A -> bool) (l : list A) : Z :=
  Z.of_nat (length (filter (fun x => p x = true) l)).

(** [list(set(l))]: the elements of [l] without duplicates, in an order
    Python does not specify (the order of a set of strings varies with
    the hash seed). [elements] of a [gset] promises no order either. *)
Definition list_of_set (l : list string) : list string :=
  elements (list_to_set l : gset string).

(** [d.get(key, default)] on an optional field. *)
Definition get {A} (field : option A) (dflt : A) : A :=
  match field with Some v => v | None => dflt end.

(** Comparisons of floats as booleans. *)
Definition Qltb (x y : Q) : bool := negb (Qle_bool y x).
Definition Qgtb (x y : Q) : bool := Qltb y x.
Definition Qgeb (x y : Q) : bool := Qle_bool y x.

(** [min(a, b)] and [max(a, b)] on floats, as Python evaluates them:
    the first argument is kept unless the second is strictly better. *)
Definition min (a b : Q) : Q := if Qltb b a then b else a.
Definition max (a b : Q) : Q := if Qgtb b a then b else a.

(** *** Binary floating point

    A Python float is an IEEE 754 binary64 number and every arithmetic
    operation returns the exact result rounded to the nearest such
    number, a tie going to the even significand. Where a branch of the
    program hangs on the last bit of a computed float, the operations
    are modelled with that rounding, on the rationals the floats are.
    Overflow to infinity is left out: the values rounded here are ratios
    and confidences. *)

(** The integer nearest to [q], a tie going to the even one. *)
Definition round_half_even (q : Q) : Z :=
  let n := Qnum q in
  let d := Z.pos (Qden q) in
  let below := (n / d)%Z in
  let twice_rest := (2 * (n - below * d))%Z in
  if (twice_rest <? d)%Z then below
  else if (d <? twice_rest)%Z then (below + 1)%Z
  else if Z.even below then below else (below + 1)%Z.

(** [floor (log2 a)] for a positive [a]. *)
Definition binade (a : Q) : Z :=
  let e := (Z.log2 (Qnum a) - Z.log2 (Z.pos (Qden a)))%Z in
  if Qle_bool (Qpower 2 e) a then e else (e - 1)%Z.

(** The float nearest to [q]: 53 significant bits, and steps of
    [2^-1074] below [2^-1022]. *)
Definition fl (q : Q) : Q :=
  if Qeq_bool q 0 then 0
  else
    let a := Qabs q in
    let e := Z.max (binade a) (-1022) in
    let ulp := Qpower 2 (e - 52) in
    let r := Qred (inject_Z (round_half_even (a / ulp)) * ulp) in
    if Qle_bool 0 q then r else - r.

(** [a + b], [a - b] and [a / b] on floats (and on the integers a float
    operation converts, which are exact at these sizes). *)
Definition fadd (a b : Q) : Q := fl (fl a + fl b).
Definition fsub (a b : Q) : Q := fl (fl a - fl b).
Definition fdiv (a b : Q) : Q := fl (fl a / fl b).

(** [sum(l)] on floats: the additions are made from left to right,
    starting from 0, and each one is rounded (the built-in [sum] of
    CPython up to 3.11; later versions carry a correction term along
    and can differ from this in the last bit). *)
Definition fsum (l : list Q) : Q := fold_left fadd l 0.

(** [round(x, ndigits)] on a float: the decimal nearest to the float, a
    tie going to the even digit, as a float again. *)
Definition round_to (ndigits : nat) (x : Q) : Q :=
  let scale := inject_Z (10 ^ Z.of_nat ndigits) in
  fl (inject_Z (round_half_even (fl x * scale)) / scale).

(** The exceptions the modelled code can raise ([Exception] subclasses
    only: an [except Exception] clause catches every one of them). *)
Inductive exn :=
  | KeyError (key : string)
  | TypeError (msg : string)
  | ZeroDivisionError
  | ValueError (msg : string)
  | RuntimeError (msg : string).

(** [str(e)]. *)
Definition str_exn (e : exn) : string :=
  match e with
  | KeyError key => "'" ++ key ++ "'"
  | TypeError msg => msg
  | ZeroDivisionError => "float division by zero"
  | ValueError msg => msg
  | RuntimeError msg => msg
  end.

(** The outcome of a call that may raise. *)
Inductive result (A : Type) :=
  | Ok (a : A)
  | Raise (e : exn).
Arguments Ok {A} a.
Arguments Raise {A} e.

Definition bind {A B} (r : result A) (k : A -> result B) : result B :=
  match r with
  | Ok a => k a
  | Raise e => Raise e
  end.

(** A value of a dictionary entry that the code uses as a number. *)
Inductive value :=
  | Num (q : Q)
  | NoneVal
  | Str (s : string).

(** [str(n)] for an integer. *)
Definition str_of_Z (z : Z) : string := NilZero.string_of_int (Z.to_int z).

End Py.

(* ------------------------------------------------------------------ *)
(** * Response quality evaluation
    [ResponseQualityTool._run], response_generation_agent.py *)

Module ResponseQuality.

Definition positive_indicators : list string :=
  ["thank"; "appreciate"; "help"; "sorry"; "understand"; "glad"; "happy"].
Definition negative_indicators : list string :=
  ["no"; "can't"; "won't"; "impossible"; "never"].
Definition unprofessional_words : list string :=
  ["damn"; "hell"; "stupid"; "ridiculous"].
Definition action_words : list string :=
  ["contact"; "visit"; "email"; "call"; "dm"; "message"; "support"].

(** The fields of the JSON object the tool returns (the timestamp is
    left out). *)
Record quality_result := {
  quality_score : Q;
  assessment : string;
  feedback : list string;
  response_length : Z;
  brand_mentioned : bool
}.

(** The five checks, in the order of the code. *)
Definition length_ok (response : string) : bool :=
  ((10 <=? Py.len response) && (Py.len response <=? 280))%Z.

Definition tone_ok (response : string) : bool :=
  let positive_count :=
    Py.count (fun word => Py.contains word (Py.lower response)) positive_indicators in
  let negative_count :=
    Py.count (fun word => Py.contains word (Py.lower response)) negative_indicators in
  (negative_count <? positive_count)%Z.

Definition professional_ok (response : string) : bool :=
  negb (Py.any (fun word => Py.contains word (Py.lower response)) unprofessional_words).

Definition brand_ok (response brand_name : string) : bool :=
  Py.truthy brand_name && Py.contains (Py.lower brand_name) (Py.lower response).

Definition action_ok (response : string) : bool :=
  Py.any (fun word => Py.contains word (Py.lower response)) action_words.

Definition assess (quality_score : Q) : string :=
  if Py.Qgeb quality_score 0.8 then "excellent"
  else if Py.Qgeb quality_score 0.6 then "good"
  else if Py.Qgeb quality_score 0.4 then "needs_improvement"
  else "poor".

Definition _run (response original_mention brand_name : string) : quality_result :=
  let quality_score := 0 in
  let feedback : list string := [] in
  (* Length check *)
  let '(quality_score, feedback) :=
    if length_ok response then (quality_score + 0.2, feedback)
    else (quality_score,
          (feedback ++ ["Consider adjusting response length for social media appropriateness"])%list) in
  (* Tone check *)
  let '(quality_score, feedback) :=
    if tone_ok response then (quality_score + 0.3, feedback)
    else (quality_score, (feedback ++ ["Consider using more positive language"])%list) in
  (* Professional language check *)
  let '(quality_score, feedback) :=
    if professional_ok response then (quality_score + 0.2, feedback)
    else (quality_score, (feedback ++ ["Remove unprofessional language"])%list) in
  (* Brand mention check *)
  let quality_score :=
    if brand_ok response brand_name then quality_score + 0.1 else quality_score in
  (* Call-to-action or next steps *)
  let '(quality_score, feedback) :=
    if action_ok response then (quality_score + 0.2, feedback)
    else (quality_score,
          (feedback ++ ["Consider adding clear next steps for the customer"])%list) in
  {| quality_score := quality_score;
     assessment := assess quality_score;
     feedback := feedback;
     response_length := Py.len response;
     brand_mentioned :=
       if Py.truthy brand_name
       then Py.contains (Py.lower brand_name) (Py.lower response) else false |}.

(** The bonus a passed check adds. *)
Definition bonus (passed : bool) (b : Q) : Q := if passed then b else 0.

End ResponseQuality.

(* ------------------------------------------------------------------ *)
(** * Risk scorer
    [IntelligentResponseAgent._calculate_comprehensive_risk_score] and
    [_analyze_content_risk], response_generation_agent.py *)

Module RiskScorer.

Import Py.

(** The [mention] dictionary, with the keys the agent reads. *)
Record crisis_dict := { crisis_detected : option bool }.

Record mention := {
  content : option string;
  sentiment : option string;
  platform : option string;
  engagement_metrics : option (gmap string Z);
  crisis_indicators : option crisis_dict
}.

(** The [quality_assessment] dictionary. *)
Record quality_dict := { quality_score : option value }.

(** The [brand_context] dictionary. *)
Record brand_dict := { crisis_mode : option bool }.

Record content_risk_result := {
  risk_score : Q;
  risk_factors : list string
}.

Definition high_risk_topics : list string :=
  ["lawsuit"; "legal"; "court"; "sue"; "attorney"; "lawyer";
   "discrimination"; "harassment"; "bias"; "racist"; "sexist";
   "medical"; "health"; "diagnosis"; "treatment"; "medication";
   "financial"; "investment"; "stock"; "price"; "earnings"].

Definition commitment_words : list string :=
  ["guarantee"; "promise"; "will definitely"; "absolutely will"; "we ensure"].

(** The accumulation of [_analyze_content_risk] before the final
    [min(1.0, risk_score)]: the keyword-hit score and its tags. *)
Definition content_hits (response : string) (m : mention) : Q * list string :=
  let response_lower := lower response in
  let mention_content := lower (get (content m) "") in
  let acc : Q * list string := (0, []) in
  let acc :=
    fold_left
      (fun (acc : Q * list string) topic =>
         if contains topic response_lower || contains topic mention_content
         then (fst acc + 0.1, (snd acc ++ [("high_risk_topic_" ++ topic)%string])%list)
         else acc)
      high_risk_topics acc in
  let acc :=
    fold_left
      (fun (acc : Q * list string) word =>
         if contains word response_lower
         then (fst acc + 0.05, (snd acc ++ ["strong_commitment_language"])%list)
         else acc)
      commitment_words acc in
  if (len response <? 20)%Z
  then (fst acc + 0.1, (snd acc ++ ["response_too_short"])%list)
  else if (len response >? 500)%Z
  then (fst acc + 0.05, (snd acc ++ ["response_very_long"])%list)
  else acc.

Definition _analyze_content_risk (response : string) (m : mention)
  : content_risk_result :=
  let '(risk_score, risk_factors) := content_hits response m in
  {| risk_score := min 1 risk_score; risk_factors := risk_factors |}.

Record component_risks_dict := {
  quality_risk : Q;
  sentiment_risk : Q;
  virality_risk : Q;
  content_risk : Q;
  crisis_risk : Q
}.

Record risk_assessment := {
  overall_risk_score : Q;
  assessment_risk_factors : list string;
  component_risks : component_risks_dict;
  risk_category : string
}.

(** [engagement.get("likes", 0) > 100 or ... ]. *)
Definition high_engagement (m : mention) : bool :=
  let engagement := get (engagement_metrics m) ∅ in
  (get (engagement !! "likes") 0 >? 100)%Z ||
  (get (engagement !! "retweets") 0 >? 50)%Z ||
  (get (engagement !! "shares") 0 >? 25)%Z.

Definition crisis_flag (m : mention) : bool :=
  get (crisis_detected (get (crisis_indicators m) {| crisis_detected := None |})) false.

(** [1.0 - quality_score]: only a number can be subtracted. *)
Definition one_minus (v : value) : result Q :=
  match v with
  | Num q => Ok (1 - q)
  | NoneVal => Raise (TypeError "unsupported operand type(s) for -: 'float' and 'NoneType'")
  | Str _ => Raise (TypeError "unsupported operand type(s) for -: 'float' and 'str'")
  end.

(** [quality_score < 0.6] on a value already known to be a number. *)
Definition num_lt (v : value) (bound : Q) : bool :=
  match v with Num q => Qltb q bound | _ => false end.

Definition _calculate_comprehensive_risk_score
    (response : string) (m : mention) (qa : quality_dict)
    (brand_context : option brand_dict) : result risk_assessment :=
  let risk_factors : list string := [] in
  let risk_score := 0 in
  (* Factor 1: Response Quality (30% weight) *)
  let quality_score := get (quality_score qa) (Num 0.5) in
  bind (one_minus quality_score) (fun d =>
  let quality_risk := d * 0.3 in
  let risk_score := risk_score + quality_risk in
  let risk_factors :=
    if num_lt quality_score 0.6
    then (risk_factors ++ ["low_response_quality"])%list else risk_factors in
  (* Factor 2: Mention Sentiment and Urgency (25% weight) *)
  let mention_sentiment := get (sentiment m) "neutral" in
  let '(sentiment_risk, risk_factors) :=
    if String.eqb mention_sentiment "negative"
    then (0.2 * 0.25, (risk_factors ++ ["negative_customer_sentiment"])%list)
    else if String.eqb mention_sentiment "positive"
    then (0.05 * 0.25, risk_factors)
    else (0.1 * 0.25, risk_factors) in
  let risk_score := risk_score + sentiment_risk in
  (* Factor 3: Engagement and Virality Potential (20% weight) *)
  let '(virality_risk, risk_factors) :=
    if high_engagement m
    then (0.3 * 0.2, (risk_factors ++ ["high_visibility_mention"])%list)
    else (0.1 * 0.2, risk_factors) in
  let risk_score := risk_score + virality_risk in
  (* Factor 4: Content Risk Analysis (15% weight) *)
  let content_risks := _analyze_content_risk response m in
  let content_risk := RiskScorer.risk_score content_risks * 0.15 in
  let risk_score := risk_score + content_risk in
  let risk_factors := (risk_factors ++ RiskScorer.risk_factors content_risks)%list in
  (* Factor 5: Crisis Detection (10% weight) *)
  let '(crisis_risk, risk_factors) :=
    if crisis_flag m
    then (0.4 * 0.1, (risk_factors ++ ["crisis_situation_detected"])%list)
    else (0.05 * 0.1, risk_factors) in
  let risk_score := risk_score + crisis_risk in
  (* Normalize risk score to 0-1 range *)
  let risk_score := min 1 (max 0 risk_score) in
  Ok {| overall_risk_score := risk_score;
        assessment_risk_factors := list_of_set risk_factors;
        component_risks :=
          {| quality_risk := quality_risk;
             sentiment_risk := sentiment_risk;
             virality_risk := virality_risk;
             content_risk := content_risk;
             crisis_risk := crisis_risk |};
        risk_category :=
          if Qltb risk_score 0.3 then "low"
          else if Qltb risk_score 0.7 then "medium" else "high" |}).

(** Recomputing the total from the reported components. *)
Definition recompute (c : component_risks_dict) : Q :=
  min 1 (max 0 (quality_risk c + sentiment_risk c + virality_risk c
                + content_risk c + crisis_risk c)).

(** The base sentiment risk of a sentiment label. *)
Definition sentiment_base (label : string) : Q :=
  if String.eqb label "negative" then 0.2
  else if String.eqb label "positive" then 0.05
  else 0.1.

(** A score and its tags move together: nothing scored and nothing
    tagged, or a positive score and at least one tag. *)
Definition scored_with_tags (acc : Q * list string) : Prop :=
  (fst acc == 0 /\ snd acc = []) \/ (0 < fst acc /\ snd acc <> []).

End RiskScorer.

(* ------------------------------------------------------------------ *)
(** * Approval policy
    [IntelligentResponseAgent._make_autonomous_approval_decision] and the
    helpers it awaits, response_generation_agent.py; the thresholds of
    [Settings], core/config.py *)

Module Approval.

Import Py.
Import RiskScorer.

(** The two thresholds of [Settings] the policy reads. *)
Record Settings := {
  AUTO_RESPONSE_RISK_THRESHOLD : Q;
  HUMAN_REVIEW_RISK_THRESHOLD : Q
}.

(** The defaults of core/config.py. *)
Definition settings : Settings :=
  {| AUTO_RESPONSE_RISK_THRESHOLD := 0.3;
     HUMAN_REVIEW_RISK_THRESHOLD := 0.7 |}.

(** What [datetime.now()] is read for. *)
Record local_time := {
  hour : Z;
  weekday : Z
}.

(** The dictionary [_make_contextual_risk_decision] returns (its
    [reasoning] text is left out). *)
Record contextual_decision := {
  status : string;
  requires_review : bool;
  action : string;
  factors : list string
}.

(** The decision dictionary. [decision_reasoning], [decision_timestamp]
    and [decision_agent] are left out; a key the branch does not set
    is [None]. *)
Record decision := {
  approval_status : string;
  autonomous_decision : bool;
  requires_human_review : bool;
  recommended_action : string;
  confidence : string;
  escalation_triggers : option (list string);
  suggested_reviewers : option (list string);
  contextual_factors : option (list string);
  risk_analysis : option risk_assessment;
  thresholds_used : option (Q * Q);
  error : option string
}.

Definition _make_contextual_risk_decision
    (cfg : Settings) (now : local_time)
    (response : string) (m : mention) (risk_analysis : risk_assessment)
    (brand_context : option brand_dict) : contextual_decision :=
  (* Analyze contextual factors *)
  let platform := lower (get (platform m) "unknown") in
  let time_of_day := hour now in
  let is_weekend := (weekday now >=? 5)%Z in
  let contextual_factors : list string := [] in
  (* Platform-specific decisions *)
  let '(auto_approve_bias, contextual_factors) :=
    if String.eqb platform "twitter"
    then (0.1, (contextual_factors ++ ["twitter_fast_paced_platform"])%list)
    else if String.eqb platform "linkedin"
    then (- 0.1, (contextual_factors ++ ["linkedin_professional_platform"])%list)
    else (0, contextual_factors) in
  (* Time-based decisions *)
  let '(auto_approve_bias, contextual_factors) :=
    if ((9 <=? time_of_day) && (time_of_day <=? 17))%Z && negb is_weekend
    then (auto_approve_bias - 0.05,
          (contextual_factors ++ ["business_hours_reviewers_available"])%list)
    else (auto_approve_bias + 0.1,
          (contextual_factors ++ ["outside_business_hours"])%list) in
  (* Brand context considerations *)
  let '(auto_approve_bias, contextual_factors) :=
    match brand_context with
    | Some bc =>
        if get (crisis_mode bc) false
        then (auto_approve_bias - 0.2,
              (contextual_factors ++ ["brand_in_crisis_mode"])%list)
        else (auto_approve_bias, contextual_factors)
    | None => (auto_approve_bias, contextual_factors)
    end in
  (* Make final contextual decision *)
  let adjusted_threshold := AUTO_RESPONSE_RISK_THRESHOLD cfg + auto_approve_bias in
  let risk_score := overall_risk_score risk_analysis in
  if Qltb risk_score adjusted_threshold
  then {| status := "approved_contextual";
          requires_review := false;
          action := "publish_immediately";
          factors := contextual_factors |}
  else {| status := "pending_approval";
          requires_review := true;
          action := "escalate_for_approval";
          factors := contextual_factors |}.

Definition _suggest_appropriate_reviewers (risk_factors : list string)
  : list string :=
  let reviewers : list string := [] in
  let reviewers :=
    if any (contains "crisis") risk_factors
    then (reviewers ++ ["crisis_manager"; "brand_director"; "ceo"])%list
    else reviewers in
  let reviewers :=
    if any (contains "legal") risk_factors
    then (reviewers ++ ["legal_team"; "compliance_officer"])%list
    else reviewers in
  let reviewers :=
    if any (fun factor => contains "medical" factor || contains "health" factor)
           risk_factors
    then (reviewers ++ ["medical_affairs"; "regulatory_team"])%list
    else reviewers in
  let reviewers :=
    if any (contains "financial") risk_factors
    then (reviewers ++ ["investor_relations"; "cfo"])%list
    else reviewers in
  let reviewers :=
    if any (contains "high_visibility") risk_factors
    then (reviewers ++ ["social_media_manager"; "pr_manager"])%list
    else reviewers in
  (* Default reviewers if no specific expertise needed *)
  let reviewers :=
    match reviewers with
    | [] => ["social_media_manager"; "customer_service_manager"]
    | _ => reviewers
    end in
  list_of_set reviewers.

(** The methods of [self] the decision awaits. Each may raise: a test
    double replaces any of them by one that does. *)
Record methods := {
  calculate_comprehensive_risk_score :
    string -> mention -> quality_dict -> option brand_dict -> result risk_assessment;
  suggest_appropriate_reviewers : list string -> result (list string);
  trigger_human_review_alert :
    string -> mention -> risk_assessment -> decision -> result unit;
  make_contextual_risk_decision :
    string -> mention -> risk_assessment -> option brand_dict ->
    result contextual_decision
}.

(** The agent as the class defines it. [_trigger_human_review_alert]
    only assembles a dictionary and logs it. *)
Definition agent (cfg : Settings) (now : local_time) : methods :=
  {| calculate_comprehensive_risk_score := _calculate_comprehensive_risk_score;
     suggest_appropriate_reviewers := fun risk_factors =>
       Ok (_suggest_appropriate_reviewers risk_factors);
     trigger_human_review_alert := fun _ _ _ _ => Ok tt;
     make_contextual_risk_decision := fun response m risk_analysis brand_context =>
       Ok (_make_contextual_risk_decision cfg now response m risk_analysis brand_context) |}.

(** [decision.update({...})]: the metadata every computed decision gets. *)
Definition add_metadata (cfg : Settings) (risk_analysis : risk_assessment)
    (d : decision) : decision :=
  {| approval_status := approval_status d;
     autonomous_decision := autonomous_decision d;
     requires_human_review := requires_human_review d;
     recommended_action := recommended_action d;
     confidence := confidence d;
     escalation_triggers := escalation_triggers d;
     suggested_reviewers := suggested_reviewers d;
     contextual_factors := contextual_factors d;
     risk_analysis := Some risk_analysis;
     thresholds_used :=
       Some (AUTO_RESPONSE_RISK_THRESHOLD cfg, HUMAN_REVIEW_RISK_THRESHOLD cfg);
     error := error d |}.

(** The three bands of the decision logic. *)
Inductive band := Low | High | Medium.

Definition band_of (cfg : Settings) (risk_score : Q) : band :=
  if Qltb risk_score (AUTO_RESPONSE_RISK_THRESHOLD cfg) then Low
  else if Qgtb risk_score (HUMAN_REVIEW_RISK_THRESHOLD cfg) then High
  else Medium.

(** The dictionaries the three branches build. *)
Definition low_risk_decision : decision :=
  {| approval_status := "approved_auto";
     autonomous_decision := true;
     requires_human_review := false;
     recommended_action := "publish_immediately";
     confidence := "high";
     escalation_triggers := None;
     suggested_reviewers := None;
     contextual_factors := None;
     risk_analysis := None;
     thresholds_used := None;
     error := None |}.

Definition high_risk_decision (risk_factors reviewers : list string) : decision :=
  {| approval_status := "pending_approval";
     autonomous_decision := true;
     requires_human_review := true;
     recommended_action := "escalate_for_approval";
     confidence := "high";
     escalation_triggers := Some risk_factors;
     suggested_reviewers := Some reviewers;
     contextual_factors := None;
     risk_analysis := None;
     thresholds_used := None;
     error := None |}.

Definition medium_risk_decision (contextual_decision : contextual_decision)
  : decision :=
  {| approval_status := status contextual_decision;
     autonomous_decision := true;
     requires_human_review := requires_review contextual_decision;
     recommended_action := action contextual_decision;
     confidence := "medium";
     escalation_triggers := None;
     suggested_reviewers := None;
     contextual_factors := Some (factors contextual_decision);
     risk_analysis := None;
     thresholds_used := None;
     error := None |}.

(** The body of the [try] block. *)
Definition approval_try (self : methods) (cfg : Settings)
    (response : string) (m : mention) (qa : quality_dict)
    (brand_context : option brand_dict) : result decision :=
  (* Calculate comprehensive risk score *)
  bind (calculate_comprehensive_risk_score self response m qa brand_context)
  (fun risk_analysis =>
  let risk_score := overall_risk_score risk_analysis in
  let risk_factors := assessment_risk_factors risk_analysis in
  (* AUTONOMOUS DECISION LOGIC *)
  bind
    (if Qltb risk_score (AUTO_RESPONSE_RISK_THRESHOLD cfg) then
       (* LOW RISK: Auto-approve *)
       Ok low_risk_decision
     else if Qgtb risk_score (HUMAN_REVIEW_RISK_THRESHOLD cfg) then
       (* HIGH RISK: Require human approval *)
       bind (suggest_appropriate_reviewers self risk_factors) (fun reviewers =>
       let decision := high_risk_decision risk_factors reviewers in
       (* Trigger alert for human review *)
       bind (trigger_human_review_alert self response m risk_analysis decision)
            (fun _ => Ok decision))
     else
       (* MEDIUM RISK: Smart review based on context *)
       bind (make_contextual_risk_decision self response m risk_analysis brand_context)
            (fun contextual_decision =>
             Ok (medium_risk_decision contextual_decision)))
    (fun decision =>
     (* Add comprehensive decision metadata *)
     Ok (add_metadata cfg risk_analysis decision))).

(** The [except Exception] clause: fail safely, require human review. *)
Definition fail_closed (e : exn) : decision :=
  {| approval_status := "pending_approval";
     autonomous_decision := false;
     requires_human_review := true;
     recommended_action := "escalate_for_approval";
     confidence := "low";
     escalation_triggers := None;
     suggested_reviewers := None;
     contextual_factors := None;
     risk_analysis := None;
     thresholds_used := None;
     error := Some (str_exn e) |}.

Definition _make_autonomous_approval_decision (self : methods) (cfg : Settings)
    (response : string) (m : mention) (qa : quality_dict)
    (brand_context : option brand_dict) : decision :=
  match approval_try self cfg response m qa brand_context with
  | Ok decision => decision
  | Raise e => fail_closed e
  end.

(** Some internal step of the decision raises [e]: the risk score, or,
    on the branch the score selects, a helper that branch awaits. *)
Inductive step_raises (self : methods) (cfg : Settings)
    (response : string) (m : mention) (qa : quality_dict)
    (brand_context : option brand_dict) (e : exn) : Prop :=
  | risk_score_raises :
      calculate_comprehensive_risk_score self response m qa brand_context = Raise e ->
      step_raises self cfg response m qa brand_context e
  | reviewers_raise risk_analysis :
      calculate_comprehensive_risk_score self response m qa brand_context
        = Ok risk_analysis ->
      band_of cfg (overall_risk_score risk_analysis) = High ->
      suggest_appropriate_reviewers self (assessment_risk_factors risk_analysis)
        = Raise e ->
      step_raises self cfg response m qa brand_context e
  | review_alert_raises risk_analysis reviewers :
      calculate_comprehensive_risk_score self response m qa brand_context
        = Ok risk_analysis ->
      band_of cfg (overall_risk_score risk_analysis) = High ->
      suggest_appropriate_reviewers self (assessment_risk_factors risk_analysis)
        = Ok reviewers ->
      trigger_human_review_alert self response m risk_analysis
        (high_risk_decision (assessment_risk_factors risk_analysis) reviewers)
        = Raise e ->
      step_raises self cfg response m qa brand_context e
  | contextual_decision_raises risk_analysis :
      calculate_comprehensive_risk_score self response m qa brand_context
        = Ok risk_analysis ->
      band_of cfg (overall_risk_score risk_analysis) = Medium ->
      make_contextual_risk_decision self response m risk_analysis brand_context
        = Raise e ->
      step_raises self cfg response m qa brand_context e.

End Approval.

(* ------------------------------------------------------------------ *)
(** * Alert rule engine
    [AlertManagementAgent], alert_management_agent.py *)

Module Alerts.

Import Py.

(** ** Data *)

(** One analyzed item, with the keys the rules read. *)
Record sentiment_dict := {
  overall : option string;
  confidence : option Q
}.

Record crisis_dict := {
  has_indicators : option bool;
  risk_level : option string;
  keywords : option (list string)
}.

Record item := {
  sentiment : option sentiment_dict;
  crisis_indicators : option crisis_dict
}.

(** An entry of a historical window: the volume rule stores
    [{"volume", "timestamp"}], the sentiment rule
    [{"negative_ratio", "timestamp"}]. *)
Inductive entry :=
  | VolumeEntry (volume : nat) (timestamp : Q)
  | SentimentEntry (negative_ratio : Q) (timestamp : Q).

(** [entry["timestamp"]], [entry["volume"]], [entry["negative_ratio"]]. *)
Definition entry_timestamp (e : entry) : Q :=
  match e with
  | VolumeEntry _ timestamp => timestamp
  | SentimentEntry _ timestamp => timestamp
  end.

Definition entry_volume (e : entry) : result Q :=
  match e with
  | VolumeEntry volume _ => Ok (inject_Z (Z.of_nat volume))
  | SentimentEntry _ _ => Raise (KeyError "volume")
  end.

Definition entry_negative_ratio (e : entry) : result Q :=
  match e with
  | SentimentEntry negative_ratio _ => Ok negative_ratio
  | VolumeEntry _ _ => Raise (KeyError "negative_ratio")
  end.

Inductive severity := low | medium | high | critical.

(** The order [{"low": 1, "medium": 2, "high": 3, "critical": 4}]. *)
Definition severity_order (sev : severity) : Z :=
  match sev with low => 1 | medium => 2 | high => 3 | critical => 4 end.

Definition severity_name (sev : severity) : string :=
  match sev with
  | low => "low" | medium => "medium" | high => "high" | critical => "critical"
  end.

(** The lookup of a risk level in that dictionary. *)
Definition severity_of (level : string) : result severity :=
  if String.eqb level "low" then Ok low
  else if String.eqb level "medium" then Ok medium
  else if String.eqb level "high" then Ok high
  else if String.eqb level "critical" then Ok critical
  else Raise (KeyError level).

Inductive alert_type :=
  | negative_sentiment_spike
  | crisis_keywords_detected
  | volume_spike
  | sentiment_deterioration.

Definition type_name (t : alert_type) : string :=
  match t with
  | negative_sentiment_spike => "negative_sentiment_spike"
  | crisis_keywords_detected => "crisis_keywords_detected"
  | volume_spike => "volume_spike"
  | sentiment_deterioration => "sentiment_deterioration"
  end.

(** The measurements an alert carries. The spike and the deterioration
    rule store their ratios rounded to three decimals, as the code does;
    the average and the factor of the volume rule, which the code rounds
    to one and two decimals, are kept unrounded; [details] and
    [description] are left out. *)
Inductive alert_metrics :=
  | SpikeMetrics (count : nat) (average_confidence : Q)
  | CrisisMetrics (count : nat) (risk_distribution : list (string * nat))
      (keywords_detected : list string) (requires_immediate_attention : bool)
  | VolumeMetrics (current_volume : nat) (average_volume spike_factor : Q)
  | DeteriorationMetrics (current_negative_ratio historical_average deterioration : Q).

Record alert := {
  type : alert_type;
  alert_severity : severity;
  platform : option string;
  metrics : alert_metrics;
  timestamp : Q;
  brand_id : option (option string);
  alert_id : option string
}.

(** The thresholds of [self.alert_rules]. *)
Record alert_rules := {
  threshold : Q;            (* settings.NEGATIVE_SENTIMENT_THRESHOLD *)
  volume_threshold : Z;     (* settings.CRISIS_MENTION_THRESHOLD *)
  multiplier : Q;           (* settings.VOLUME_SPIKE_MULTIPLIER *)
  threshold_change : Q      (* 0.3 *)
}.

Definition default_rules : alert_rules :=
  {| threshold := 0.7; volume_threshold := 10; multiplier := 3;
     threshold_change := 0.3 |}.

Record alert_stats_dict := {
  total_alerts : nat;
  alerts_by_type : gmap string nat;
  alerts_by_severity : gmap string nat
}.

Inductive log_level := INFO | WARNING | ERROR.

(** The mutable part of the agent, the log it writes, and the number
    of [time.time()] readings taken so far. *)
Record state := {
  historical_data : gmap string (list entry);
  active_alerts : gmap string alert;
  alert_stats : alert_stats_dict;
  log : list (log_level * string);
  ticks : nat
}.

Definition initial_state : state :=
  {| historical_data := ∅;
     active_alerts := ∅;
     alert_stats :=
       {| total_alerts := 0;
          alerts_by_type := ∅;
          alerts_by_severity :=
            <["low" := 0%nat]> (<["medium" := 0%nat]>
              (<["high" := 0%nat]> (<["critical" := 0%nat]> ∅))) |};
     log := [];
     ticks := 0 |}.

(** ** The monad of the agent's methods: state and exceptions *)

Definition M (A : Type) : Type := state -> result A * state.

Definition ret {A} (a : A) : M A := fun s => (Ok a, s).

Definition raise {A} (e : exn) : M A := fun s => (Raise e, s).

Definition mbind {A B} (c : M A) (k : A -> M B) : M B :=
  fun s =>
    match c s with
    | (Ok a, s') => k a s'
    | (Raise e, s') => (Raise e, s')
    end.

Definition lift {A} (r : result A) : M A := fun s => (r, s).

(** [try: body except Exception as e: handler(e)]. *)
Definition try_except {A} (body : M A) (handler : exn -> M A) : M A :=
  fun s =>
    match body s with
    | (Ok a, s') => (Ok a, s')
    | (Raise e, s') => handler e s'
    end.

Definition set_historical_data (h : gmap string (list entry)) (s : state) : state :=
  {| historical_data := h; active_alerts := active_alerts s;
     alert_stats := alert_stats s; log := log s; ticks := ticks s |}.

Definition set_active_alerts (a : gmap string alert) (s : state) : state :=
  {| historical_data := historical_data s; active_alerts := a;
     alert_stats := alert_stats s; log := log s; ticks := ticks s |}.

Definition set_alert_stats (st : alert_stats_dict) (s : state) : state :=
  {| historical_data := historical_data s; active_alerts := active_alerts s;
     alert_stats := st; log := log s; ticks := ticks s |}.

(** [logger.<level>(msg)]. *)
Definition logger (level : log_level) (msg : string) : M unit :=
  fun s =>
    (Ok tt,
     {| historical_data := historical_data s; active_alerts := active_alerts s;
        alert_stats := alert_stats s; log := (log s ++ [(level, msg)])%list;
        ticks := ticks s |}).

(** [self.historical_data[key]], with [[]] stored first when the key is
    absent, and its assignment. *)
Definition window (key : string) (s : state) : list entry :=
  get (historical_data s !! key) [].

Definition read_window (key : string) : M (list entry) :=
  fun s => (Ok (window key s), s).

Definition write_window (key : string) (w : list entry) : M unit :=
  fun s => (Ok tt, set_historical_data (<[key := w]> (historical_data s)) s).

(** [a / b], as the exact quotient. *)
Definition div (a b : Q) : result Q :=
  if Qeq_bool b 0 then Raise ZeroDivisionError else Ok (a / b).

(** [a / b], as the float the division returns. *)
Definition fdiv (a b : Q) : result Q :=
  if Qeq_bool b 0 then Raise ZeroDivisionError else Ok (Py.fdiv a b).

(** [sum(f(x) for x in l)], raising where [f] does. *)
Fixpoint sum_from {A} (f : A -> result Q) (acc : Q) (l : list A) : result Q :=
  match l with
  | [] => Ok acc
  | x :: l' => bind (f x) (fun v => sum_from f (acc + v) l')
  end.

Definition sum_of {A} (f : A -> result Q) (l : list A) : result Q :=
  sum_from f 0 l.

(** The same sum over floats: each addition is rounded. *)
Fixpoint fsum_from {A} (f : A -> result Q) (acc : Q) (l : list A) : result Q :=
  match l with
  | [] => Ok acc
  | x :: l' => bind (f x) (fun v => fsum_from f (fadd acc v) l')
  end.

Definition fsum_of {A} (f : A -> result Q) (l : list A) : result Q :=
  fsum_from f 0 l.

(** [str(x)] of an optional string: [None] prints as "None". *)
Definition fmt (o : option string) : string := get o "None".

(** [int(t)]: truncation toward zero. *)
Definition int (t : Q) : Z := Z.quot (Qnum t) (Z.pos (Qden t)).

(** The entries of a window that a pruning at [cutoff_time] keeps. *)
Definition recent (cutoff_time : Q) (w : list entry) : list entry :=
  List.filter (fun e => Qgtb (entry_timestamp e) cutoff_time) w.

(** The arithmetic mean of a list of samples, recomputed from the full
    list. *)
Definition total (samples : list Q) : Q := fold_right Qplus 0 samples.

Definition mean (samples : list Q) : Q :=
  total samples / inject_Z (Z.of_nat (length samples)).

(** The negative ratios a window of sentiment entries holds. *)
Definition ratio_of (e : entry) : Q :=
  match e with
  | SentimentEntry negative_ratio _ => negative_ratio
  | VolumeEntry _ _ => 0
  end.

Definition is_sentiment_entry (e : entry) : bool :=
  match e with SentimentEntry _ _ => true | VolumeEntry _ _ => false end.

Notation "x <- c ;; k" := (mbind c (fun x => k))
  (at level 100, c at next level, right associativity).
Notation "c ;;; k" := (mbind c (fun _ => k))
  (at level 100, right associativity).

Section Engine.

(** [clock n] is what the [n]-th call of [time.time()] returns;
    [rules] are the configured thresholds. *)
Variable clock : nat -> Q.
Variable rules : alert_rules.

Definition time_time : M Q :=
  fun s =>
    (Ok (clock (ticks s)),
     {| historical_data := historical_data s; active_alerts := active_alerts s;
        alert_stats := alert_stats s; log := log s; ticks := S (ticks s) |}).

(** [if historical_key not in self.historical_data: ... = []]. *)
Definition ensure_window (key : string) : M unit :=
  fun s =>
    match historical_data s !! key with
    | Some _ => (Ok tt, s)
    | None => write_window key [] s
    end.

(** [self.historical_data[key] = [entry for entry in ... if
    entry["timestamp"] > cutoff_time]]. *)
Definition prune_window (key : string) (cutoff_time : Q) : M unit :=
  w <- read_window key ;;
  write_window key (recent cutoff_time w).

(** *** Negative-sentiment spike *)

Definition no_sentiment : sentiment_dict := {| overall := None; confidence := None |}.
Definition no_crisis : crisis_dict :=
  {| has_indicators := None; risk_level := None; keywords := None |}.

Definition negative_mention (it : item) : bool :=
  match overall (get (sentiment it) no_sentiment) with
  | Some label =>
      String.eqb label "negative"
      && Qgtb (get (confidence (get (sentiment it) no_sentiment)) 0) (threshold rules)
  | None => false
  end.

(** [item["sentiment"]["confidence"]]. *)
Definition item_confidence (it : item) : result Q :=
  match sentiment it with
  | None => Raise (KeyError "sentiment")
  | Some sd =>
      match confidence sd with
      | Some c => Ok c
      | None => Raise (KeyError "confidence")
      end
  end.

Definition _check_negative_sentiment_spike
    (data : list item) (platform brand_id : option string) : M (list alert) :=
  let alerts : list alert := [] in
  let negative_mentions := List.filter negative_mention data in
  if (volume_threshold rules <=? Z.of_nat (length negative_mentions))%Z then
    (* Calculate severity based on volume and sentiment strength *)
    total <- lift (fsum_of item_confidence negative_mentions) ;;
    avg_confidence <-
      lift (fdiv total (inject_Z (Z.of_nat (length negative_mentions)))) ;;
    let severity := if Qgtb avg_confidence (fl 0.8) then critical else high in
    now <- time_time ;;
    ret (alerts ++
         [{| type := negative_sentiment_spike;
             alert_severity := severity;
             platform := platform;
             metrics :=
               SpikeMetrics (length negative_mentions) (round_to 3 avg_confidence);
             timestamp := now;
             brand_id := None;
             alert_id := None |}])%list
  else ret alerts.

(** *** Crisis keywords *)

Definition crisis_mention (it : item) : bool :=
  get (has_indicators (get (crisis_indicators it) no_crisis)) false.

(** [risk_groups[risk_level].append(mention)], a new group going last. *)
Fixpoint group_add (level : string) (it : item)
    (groups : list (string * list item)) : list (string * list item) :=
  match groups with
  | [] => [(level, [it])]
  | (k, members) :: rest =>
      if String.eqb k level then (k, (members ++ [it])%list) :: rest
      else (k, members) :: group_add level it rest
  end.

Definition risk_groups_of (crisis_mentions : list item) : list (string * list item) :=
  fold_left
    (fun groups mention =>
       group_add (get (risk_level (get (crisis_indicators mention) no_crisis)) "low")
                 mention groups)
    crisis_mentions [].

(** [max(keys, key=lambda x: {...}[x])]: every key is looked up, in
    order, and the first key of highest rank wins. *)
Fixpoint max_from (best : severity) (keys : list string) : result severity :=
  match keys with
  | [] => Ok best
  | k :: keys' =>
      bind (severity_of k) (fun sev =>
        max_from (if (severity_order best <? severity_order sev)%Z then sev else best)
                 keys')
  end.

Definition max_risk_of (keys : list string) : result severity :=
  match keys with
  | [] => Raise (ValueError "max() arg is an empty sequence")
  | k :: keys' => bind (severity_of k) (fun sev => max_from sev keys')
  end.

Definition _extract_detected_keywords (crisis_mentions : list item) : list string :=
  list_of_set
    (concat (map (fun mention =>
                    get (keywords (get (crisis_indicators mention) no_crisis)) [])
                 crisis_mentions)).

Definition _check_crisis_keywords
    (data : list item) (platform brand_id : option string) : M (list alert) :=
  let alerts : list alert := [] in
  let crisis_mentions := List.filter crisis_mention data in
  match crisis_mentions with
  | [] => ret alerts
  | _ =>
      (* Group by risk level *)
      let risk_groups := risk_groups_of crisis_mentions in
      (* Create alerts based on highest risk level *)
      max_risk <- lift (max_risk_of (map fst risk_groups)) ;;
      let keywords_detected := _extract_detected_keywords crisis_mentions in
      now <- time_time ;;
      ret (alerts ++
           [{| type := crisis_keywords_detected;
               alert_severity := max_risk;
               platform := platform;
               metrics :=
                 CrisisMetrics (length crisis_mentions)
                   (map (fun g => (fst g, length (snd g))) risk_groups)
                   keywords_detected
                   (match max_risk with high | critical => true | _ => false end);
               timestamp := now;
               brand_id := None;
               alert_id := None |}])%list
  end.

(** *** Volume spike *)

Definition volume_key (brand_id platform : option string) : string :=
  fmt brand_id ++ "_" ++ fmt platform.

Definition volume_retention : Q := 7 * 24 * 60 * 60.

(** The last block of [_check_volume_spike], on the pruned window [w]:
    calculate average if we have enough data. *)
Definition volume_spike_alerts (platform : option string) (current_volume : nat)
    (w : list entry) : M (list alert) :=
  let alerts : list alert := [] in
  if (10 <=? length w)%nat then
    total <- lift (sum_of entry_volume w) ;;
    avg_volume <- lift (div total (inject_Z (Z.of_nat (length w)))) ;;
    if Qgtb (inject_Z (Z.of_nat current_volume)) (avg_volume * multiplier rules) then
      spike_factor <- lift (div (inject_Z (Z.of_nat current_volume)) avg_volume) ;;
      let severity :=
        if Qgtb spike_factor 5 then critical
        else if Qgtb spike_factor 3 then high else medium in
      now <- time_time ;;
      ret (alerts ++
           [{| type := volume_spike;
               alert_severity := severity;
               platform := platform;
               metrics := VolumeMetrics current_volume avg_volume spike_factor;
               timestamp := now;
               brand_id := None;
               alert_id := None |}])%list
    else ret alerts
  else ret alerts.

Definition _check_volume_spike
    (data : list item) (platform brand_id : option string) : M (list alert) :=
  let current_volume := length data in
  (* Get historical average for this platform and brand *)
  let historical_key := volume_key brand_id platform in
  ensure_window historical_key ;;;
  (* Store current volume *)
  w <- read_window historical_key ;;
  stored_at <- time_time ;;
  write_window historical_key (w ++ [VolumeEntry current_volume stored_at])%list ;;;
  (* Keep only recent data (last 7 days) *)
  now <- time_time ;;
  let cutoff_time := now - volume_retention in
  prune_window historical_key cutoff_time ;;;
  (* Calculate average if we have enough data *)
  w <- read_window historical_key ;;
  volume_spike_alerts platform current_volume w.

(** *** Sentiment deterioration *)

Record sentiment_counts := {
  positive : nat;
  negative : nat;
  neutral : nat
}.

(** [sentiment_counts[sentiment] += 1]. *)
Definition count_sentiment (counts : sentiment_counts) (label : string)
  : result sentiment_counts :=
  if String.eqb label "positive" then
    Ok {| positive := S (positive counts); negative := negative counts;
          neutral := neutral counts |}
  else if String.eqb label "negative" then
    Ok {| positive := positive counts; negative := S (negative counts);
          neutral := neutral counts |}
  else if String.eqb label "neutral" then
    Ok {| positive := positive counts; negative := negative counts;
          neutral := S (neutral counts) |}
  else Raise (KeyError label).

Definition item_label (it : item) : string :=
  get (overall (get (sentiment it) no_sentiment)) "neutral".

Fixpoint count_sentiments (counts : sentiment_counts) (data : list item)
  : result sentiment_counts :=
  match data with
  | [] => Ok counts
  | it :: data' =>
      bind (count_sentiment counts (item_label it))
           (fun counts' => count_sentiments counts' data')
  end.

(** [sentiment_counts["negative"] / total_items if total_items > 0 else 0]:
    the quotient of two integers, as a float. *)
Definition negative_ratio (counts : sentiment_counts) (total_items : nat) : Q :=
  if (0 <? total_items)%nat
  then Py.fdiv (inject_Z (Z.of_nat (negative counts)))
               (inject_Z (Z.of_nat total_items))
  else 0.

Definition no_counts : sentiment_counts :=
  {| positive := 0; negative := 0; neutral := 0 |}.

Definition sentiment_key (brand_id platform : option string) : string :=
  fmt brand_id ++ "_" ++ fmt platform ++ "_sentiment".

Definition sentiment_retention : Q := 24 * 60 * 60.

(** [l[:-1]]. *)
Definition all_but_last {A} (l : list A) : list A := removelast l.

(** The last block of [_check_sentiment_deterioration], on the pruned
    window [w]: check for deterioration if we have enough historical
    data. *)
Definition deterioration_alerts (platform : option string)
    (current_negative_ratio : Q) (w : list entry) : M (list alert) :=
  let alerts : list alert := [] in
  if (5 <=? length w)%nat then
    total <- lift (fsum_of entry_negative_ratio (all_but_last w)) ;;
    avg_negative_ratio <-
      lift (fdiv total (inject_Z (Z.of_nat (length w) - 1))) ;;
    let deterioration := fsub current_negative_ratio avg_negative_ratio in
    if Qgtb deterioration (fl (threshold_change rules)) then
      let severity := if Qgtb deterioration (fl 0.5) then high else medium in
      now <- time_time ;;
      ret (alerts ++
           [{| type := sentiment_deterioration;
               alert_severity := severity;
               platform := platform;
               metrics :=
                 DeteriorationMetrics (round_to 3 current_negative_ratio)
                   (round_to 3 avg_negative_ratio) (round_to 3 deterioration);
               timestamp := now;
               brand_id := None;
               alert_id := None |}])%list
    else ret alerts
  else ret alerts.

Definition _check_sentiment_deterioration
    (data : list item) (platform brand_id : option string) : M (list alert) :=
  let alerts : list alert := [] in
  match data with
  | [] => ret alerts
  | _ =>
      (* Calculate current sentiment distribution *)
      counts <- lift (count_sentiments no_counts data) ;;
      let total_items := length data in
      let current_negative_ratio := negative_ratio counts total_items in
      (* Compare with historical data *)
      let historical_key := sentiment_key brand_id platform in
      ensure_window historical_key ;;;
      (* Store current sentiment data *)
      w <- read_window historical_key ;;
      stored_at <- time_time ;;
      write_window historical_key
        (w ++ [SentimentEntry current_negative_ratio stored_at])%list ;;;
      (* Keep only recent data (last 24 hours) *)
      now <- time_time ;;
      let cutoff_time := now - sentiment_retention in
      prune_window historical_key cutoff_time ;;;
      (* Check for deterioration if we have enough historical data *)
      w <- read_window historical_key ;;
      deterioration_alerts platform current_negative_ratio w
  end.

(** *** Processing the alerts of one cycle *)

Definition set_ids (brand_id : option string) (now : Q) (a : alert) : alert :=
  {| type := type a;
     alert_severity := alert_severity a;
     platform := platform a;
     metrics := metrics a;
     timestamp := timestamp a;
     brand_id := Some brand_id;
     alert_id :=
       Some (fmt brand_id ++ "_" ++ type_name (type a) ++ "_" ++ str_of_Z (int now)) |}.

(** The loop that adds [brand_id] and [alert_id], one clock reading
    for each alert. *)
Fixpoint stamp_alerts (brand_id : option string) (alerts : list alert)
  : M (list alert) :=
  match alerts with
  | [] => ret []
  | a :: rest =>
      now <- time_time ;;
      rest' <- stamp_alerts brand_id rest ;;
      ret (set_ids brand_id now a :: rest')
  end.

(** The sort key [(-severity_order[severity], -timestamp)], compared
    as Python compares tuples. *)
Definition key_le (a b : alert) : bool :=
  let ka := (- severity_order (alert_severity a))%Z in
  let kb := (- severity_order (alert_severity b))%Z in
  (ka <? kb)%Z || ((ka =? kb)%Z && Qle_bool (- timestamp a) (- timestamp b)).

(** [alerts.sort(key=...)]: a stable sort. *)
Fixpoint insert_sorted (a : alert) (sorted : list alert) : list alert :=
  match sorted with
  | [] => [a]
  | b :: rest => if key_le a b then a :: b :: rest else b :: insert_sorted a rest
  end.

Definition sort_alerts (alerts : list alert) : list alert :=
  fold_right insert_sorted [] alerts.

Definition store_active (alerts : list alert) : M unit :=
  fun s =>
    (Ok tt,
     set_active_alerts
       (fold_left (fun active a => <[fmt (alert_id a) := a]> active)
                  alerts (active_alerts s)) s).

Definition _process_alerts (alerts : list alert) (brand_id : option string)
  : M (list alert) :=
  match alerts with
  | [] => ret []
  | _ =>
      (* Add brand_id to all alerts *)
      alerts <- stamp_alerts brand_id alerts ;;
      (* Sort by severity and timestamp *)
      let alerts := sort_alerts alerts in
      (* Store active alerts *)
      store_active alerts ;;;
      ret alerts
  end.

(** *** The task *)

Record task := {
  analyzed_data : option (list item);
  task_platform : option string;
  task_brand_id : option string
}.

(** The dictionary [process_task] returns. *)
Inductive task_result :=
  | Success (platform brand_id : option string) (alerts : list alert)
      (alert_count total_mentions : nat) (timestamp : Q)
  | Error (message platform : string).

Definition status (r : task_result) : string :=
  match r with Success _ _ _ _ _ _ => "success" | Error _ _ => "error" end.

(** One step of the statistics loop. *)
Definition count_alert (a : alert) : M unit :=
  fun s =>
    let st := alert_stats s in
    let alert_type := type_name (type a) in
    let severity := severity_name (alert_severity a) in
    let by_type :=
      <[alert_type := S (get (alerts_by_type st !! alert_type) 0%nat)]>
        (alerts_by_type st) in
    match alerts_by_severity st !! severity with
    | None =>
        (Raise (KeyError severity),
         set_alert_stats
           {| total_alerts := total_alerts st; alerts_by_type := by_type;
              alerts_by_severity := alerts_by_severity st |} s)
    | Some n =>
        (Ok tt,
         set_alert_stats
           {| total_alerts := total_alerts st; alerts_by_type := by_type;
              alerts_by_severity := <[severity := S n]> (alerts_by_severity st) |} s)
    end.

Fixpoint count_alerts (alerts : list alert) : M unit :=
  match alerts with
  | [] => ret tt
  | a :: rest => count_alert a ;;; count_alerts rest
  end.

Definition add_total (n : nat) : M unit :=
  fun s =>
    let st := alert_stats s in
    (Ok tt,
     set_alert_stats
       {| total_alerts := total_alerts st + n; alerts_by_type := alerts_by_type st;
          alerts_by_severity := alerts_by_severity st |} s).

(** [self.metrics[key] += 1]. The agent inherits [self.metrics] from
    [LangChainBaseAgent.__init__] (base_agent.py), where it is an
    [AgentMetrics] object; that class defines no item access, so the
    subscript raises. *)
Definition metrics_increment (key : string) : M unit :=
  raise (TypeError "'AgentMetrics' object is not subscriptable").

(** The four rules, in the order of the code, their alerts
    concatenated. *)
Definition run_rules (data : list item) (platform brand_id : option string)
  : M (list alert) :=
  let alerts : list alert := [] in
  a1 <- _check_negative_sentiment_spike data platform brand_id ;;
  let alerts := (alerts ++ a1)%list in
  a2 <- _check_crisis_keywords data platform brand_id ;;
  let alerts := (alerts ++ a2)%list in
  a3 <- _check_volume_spike data platform brand_id ;;
  let alerts := (alerts ++ a3)%list in
  a4 <- _check_sentiment_deterioration data platform brand_id ;;
  let alerts := (alerts ++ a4)%list in
  ret alerts.

(** [logger.info(f"Processing alerts for {len(analyzed_data)} items from
    {platform}")]. *)
Definition announce (t : task) : M unit :=
  logger INFO ("Processing alerts for "
               ++ str_of_Z (Z.of_nat (length (get (analyzed_data t) [])))
               ++ " items from " ++ fmt (task_platform t)).

(** The body of the [try] block of [process_task]. *)
Definition process_task_try (t : task) : M task_result :=
  let analyzed_data := get (analyzed_data t) [] in
  let platform := task_platform t in
  let brand_id := task_brand_id t in
  announce t ;;;
  (* Check for various alert conditions *)
  alerts <- run_rules analyzed_data platform brand_id ;;
  (* Process and prioritize alerts *)
  processed_alerts <- _process_alerts alerts brand_id ;;
  (* Update statistics *)
  add_total (length processed_alerts) ;;;
  count_alerts processed_alerts ;;;
  metrics_increment "tasks_processed" ;;;
  now <- time_time ;;
  ret (Success platform brand_id processed_alerts (length processed_alerts)
               (length analyzed_data) now).

Definition process_task (t : task) : M task_result :=
  try_except (process_task_try t)
    (fun e =>
       logger ERROR ("Error in alert management task: " ++ str_exn e) ;;;
       metrics_increment "errors" ;;;
       ret (Error (str_exn e) (get (task_platform t) "unknown"))).

(** One of the four rules raises [e], leaving the agent in state [s'];
    the rules before it have returned. *)
Inductive rule_raises (data : list item) (platform brand_id : option string)
    (s : state) (e : exn) (s' : state) : Prop :=
  | spike_rule_raises :
      _check_negative_sentiment_spike data platform brand_id s = (Raise e, s') ->
      rule_raises data platform brand_id s e s'
  | crisis_rule_raises a1 s1 :
      _check_negative_sentiment_spike data platform brand_id s = (Ok a1, s1) ->
      _check_crisis_keywords data platform brand_id s1 = (Raise e, s') ->
      rule_raises data platform brand_id s e s'
  | volume_rule_raises a1 s1 a2 s2 :
      _check_negative_sentiment_spike data platform brand_id s = (Ok a1, s1) ->
      _check_crisis_keywords data platform brand_id s1 = (Ok a2, s2) ->
      _check_volume_spike data platform brand_id s2 = (Raise e, s') ->
      rule_raises data platform brand_id s e s'
  | deterioration_rule_raises a1 s1 a2 s2 a3 s3 :
      _check_negative_sentiment_spike data platform brand_id s = (Ok a1, s1) ->
      _check_crisis_keywords data platform brand_id s1 = (Ok a2, s2) ->
      _check_volume_spike data platform brand_id s2 = (Ok a3, s3) ->
      _check_sentiment_deterioration data platform brand_id s3 = (Raise e, s') ->
      rule_raises data platform brand_id s e s'.

End Engine.

(** The order of the sort key. *)
Definition before (a b : alert) : Prop := key_le a b = true.


(** [mention.get("crisis_indicators", {}).get("risk_level", "low")]. *)
Definition level_of (it : item) : string :=
  get (risk_level (get (crisis_indicators it) no_crisis)) "low".

Definition is_volume_entry (e : entry) : bool :=
  match e with VolumeEntry _ _ => true | SentimentEntry _ _ => false end.

(** The volumes a window of volume entries holds. *)
Definition volume_of (e : entry) : Q :=
  match e with
  | VolumeEntry volume _ => inject_Z (Z.of_nat volume)
  | SentimentEntry _ _ => 0
  end.

End Alerts.

(* ------------------------------------------------------------------ *)
(** * Worker mailbox
    [LangChainBaseAgent.message_queue] and [receive_message],
    base_agent.py; the queue is an [asyncio.Queue] *)

Module Mailbox.

(** An [asyncio.Queue]: [maxsize] and the items it holds, oldest
    first. *)
Record Queue (A : Type) := {
  maxsize : Z;
  items : list A
}.
Arguments maxsize {A} q.
Arguments items {A} q.

(** [asyncio.Queue(maxsize=n)]. *)
Definition new_queue {A} (n : Z) : Queue A := {| maxsize := n; items := [] |}.

Definition qsize {A} (q : Queue A) : Z := Z.of_nat (length (items q)).

(** [q.full()]: a queue of [maxsize <= 0] is never full. *)
Definition full {A} (q : Queue A) : bool :=
  if (maxsize q <=? 0)%Z then false else (maxsize q <=? qsize q)%Z.

Definition empty {A} (q : Queue A) : bool :=
  match items q with [] => true | _ => false end.

(** What a sender observes of one delivery. [Suspended]: the coroutine
    is parked on the queue and resumes only after a consumer has taken
    an item; [Rejected]: the send has returned with the message
    refused. *)
Inductive delivery (S : Type) :=
  | Delivered (s : S)
  | Suspended
  | Rejected (s : S).
Arguments Delivered {S} s.
Arguments Suspended {S}.
Arguments Rejected {S} s.

(** [q.put_nowait(item)]: raises [QueueFull] on a full queue. *)
Definition put_nowait {A} (q : Queue A) (item : A) : delivery (Queue A) :=
  if full q then Rejected q
  else Delivered {| maxsize := maxsize q; items := (items q ++ [item])%list |}.

(** [await q.put(item)]: [while self.full(): await putter], then
    [put_nowait]. *)
Definition put {A} (q : Queue A) (item : A) : delivery (Queue A) :=
  if full q then Suspended else put_nowait q item.

(** [q.get_nowait()]. *)
Definition get_nowait {A} (q : Queue A) : option (A * Queue A) :=
  match items q with
  | [] => None
  | item :: rest => Some (item, {| maxsize := maxsize q; items := rest |})
  end.

(** The part of an agent a delivery touches: its inbox and its log. *)
Record agent (A : Type) := {
  message_queue : Queue A;
  log : list string
}.
Arguments message_queue {A} a.
Arguments log {A} a.

(** [__init__]: [self.message_queue = asyncio.Queue(maxsize=1000)]. *)
Definition new_agent {A} : agent A :=
  {| message_queue := new_queue 1000; log := [] |}.

(** [receive_message]: [await self.message_queue.put(message)]. *)
Definition receive_message {A} (self : agent A) (message : A) : delivery (agent A) :=
  match put (message_queue self) message with
  | Delivered q => Delivered {| message_queue := q; log := log self |}
  | Suspended => Suspended
  | Rejected q => Rejected {| message_queue := q; log := log self |}
  end.

(** The loop of [shutdown]: [while not empty: get_nowait()]. *)
Definition drain {A} (self : agent A) : agent A :=
  {| message_queue := {| maxsize := maxsize (message_queue self); items := [] |};
     log := log self |}.

(** The agents reachable from a new one by deliveries and by the
    consumer taking messages. *)
Inductive reachable {A} : agent A -> Prop :=
  | reach_new : reachable new_agent
  | reach_receive self message self' :
      reachable self ->
      receive_message self message = Delivered self' ->
      reachable self'
  | reach_get self item q :
      reachable self ->
      get_nowait (message_queue self) = Some (item, q) ->
      reachable {| message_queue := q; log := log self |}.

End Mailbox.

(* ------------------------------------------------------------------ *)
(** * Workflow routing
    [LangGraphAutonomousOrchestrator], langgraph_orchestrator.py *)

Module Workflow.

Import Py.

(** The keys of [state["context"]] the workflow reads or writes. *)
Record context_dict := {
  priority : option string;
  crisis_mode : option bool;
  urgency : option string;
  data_collection_retries : option Z
}.

(** A collected mention. *)
Record mention := {
  content : option string;
  sentiment : option string
}.

Record collected_dict := { mentions : option (list mention) }.

(** The fields of [AgentWorkflowState] the routers and the nodes
    modelled here use. *)
Record AgentWorkflowState := {
  goal : string;
  context : context_dict;
  current_step : string;
  completed_steps : list string;
  failed_steps : list string;
  collected_data : collected_dict;
  quality_average : option Q;         (* quality_scores["average"] *)
  crisis_score : option Q;            (* risk_assessments["crisis_score"] *)
  auto_approved : option Z;           (* performance_metrics["auto_approved"] *)
  requires_review : option Z          (* performance_metrics["requires_review"] *)
}.

Definition set_context (c : context_dict) (st : AgentWorkflowState)
  : AgentWorkflowState :=
  {| goal := goal st; context := c; current_step := current_step st;
     completed_steps := completed_steps st; failed_steps := failed_steps st;
     collected_data := collected_data st; quality_average := quality_average st;
     crisis_score := crisis_score st; auto_approved := auto_approved st;
     requires_review := requires_review st |}.

Definition set_retries (n : Z) (c : context_dict) : context_dict :=
  {| priority := priority c; crisis_mode := crisis_mode c; urgency := urgency c;
     data_collection_retries := Some n |}.

(** [name in steps]. *)
Definition mem (name : string) (steps : list string) : bool :=
  existsb (String.eqb name) steps.

(** [_route_after_data_collection]: the route, and the state with the
    retry counter the router may have advanced. *)
Definition _route_after_data_collection (state : AgentWorkflowState)
  : string * AgentWorkflowState :=
  if mem "collect_data" (failed_steps state) then
    let retry_count := get (data_collection_retries (context state)) 0%Z in
    if (retry_count <? 2)%Z then
      ("retry_collection",
       set_context (set_retries (retry_count + 1) (context state)) state)
    else ("abort", state)
  else
    let collected_mentions :=
      Z.of_nat (length (get (mentions (collected_data state)) [])) in
    if (collected_mentions >? 0)%Z then ("analyze_sentiment", state)
    else ("abort", state).

End Workflow.

(* ------------------------------------------------------------------ *)
(** * Running averages
    [LangChainOrchestrator._update_orchestration_metrics],
    orchestrator_llm.py; [IntelligentResponseAgent._update_response_metrics],
    response_generation_agent.py; [AgentMetrics], base_agent.py *)

Module Metrics.

Import Py.

(** The counters and the average of [self.orchestration_metrics]. *)
Record orchestration_metrics := {
  total_tasks : nat;
  successful_tasks : nat;
  failed_tasks : nat;
  avg_completion_time : Q
}.

(** The dictionary as [__init__] creates it. *)
Definition initial_orchestration_metrics : orchestration_metrics :=
  {| total_tasks := 0; successful_tasks := 0; failed_tasks := 0;
     avg_completion_time := 0 |}.

(** The incremental update both methods apply:
    [(current_avg * (n - 1) + sample) / n]. *)
Definition running_average (current_avg : Q) (n : nat) (sample : Q) : Q :=
  (current_avg * (inject_Z (Z.of_nat n) - 1) + sample) / inject_Z (Z.of_nat n).

Definition _update_orchestration_metrics (self : orchestration_metrics)
    (success : bool) (duration : Q) : orchestration_metrics :=
  let total_tasks := S (total_tasks self) in
  let successful_tasks :=
    if success then S (successful_tasks self) else successful_tasks self in
  let failed_tasks :=
    if success then failed_tasks self else S (failed_tasks self) in
  (* Update average completion time *)
  let current_avg := avg_completion_time self in
  {| total_tasks := total_tasks;
     successful_tasks := successful_tasks;
     failed_tasks := failed_tasks;
     avg_completion_time := running_average current_avg total_tasks duration |}.

(** The numeric part of [self.response_metrics]. *)
Record response_metrics := {
  total_responses_generated : nat;
  successful_responses : nat;
  avg_generation_time : Q;
  avg_quality_score : Q;
  successful_knowledge_retrievals : option nat;
  knowledge_retrieval_success_rate : Q
}.

Definition initial_response_metrics : response_metrics :=
  {| total_responses_generated := 0; successful_responses := 0;
     avg_generation_time := 0; avg_quality_score := 0;
     successful_knowledge_retrievals := None;
     knowledge_retrieval_success_rate := 0 |}.

(** The keys of a generation result the update reads. *)
Record generation_result := {
  success : bool;
  quality_score : option Q;    (* result["quality_assessment"]["quality_score"] *)
  knowledge_retrieved : option bool
}.

Definition _update_response_metrics (self : response_metrics)
    (result : generation_result) (generation_time : Q) : response_metrics :=
  let total_responses := S (total_responses_generated self) in
  let successful :=
    if success result then S (successful_responses self)
    else successful_responses self in
  (* Update average generation time *)
  let avg_time :=
    running_average (avg_generation_time self) total_responses generation_time in
  (* Update average quality score *)
  let quality_score := get (quality_score result) 0 in
  let avg_quality :=
    running_average (avg_quality_score self) total_responses quality_score in
  (* Update knowledge retrieval success rate *)
  if get (knowledge_retrieved result) false then
    let successful_retrievals := S (get (successful_knowledge_retrievals self) 0%nat) in
    {| total_responses_generated := total_responses;
       successful_responses := successful;
       avg_generation_time := avg_time;
       avg_quality_score := avg_quality;
       successful_knowledge_retrievals := Some successful_retrievals;
       knowledge_retrieval_success_rate :=
         inject_Z (Z.of_nat successful_retrievals)
         / inject_Z (Z.of_nat total_responses) |}
  else
    {| total_responses_generated := total_responses;
       successful_responses := successful;
       avg_generation_time := avg_time;
       avg_quality_score := avg_quality;
       successful_knowledge_retrievals := successful_knowledge_retrievals self;
       knowledge_retrieval_success_rate := knowledge_retrieval_success_rate self |}.

(** The naive definition: the mean recomputed from the full history of
    samples. *)
Definition history_total (samples : list Q) : Q := fold_right Qplus 0 samples.

Definition history_mean (samples : list Q) : Q :=
  history_total samples / inject_Z (Z.of_nat (length samples)).

(** The bookkeeping of a whole run: one update per completed task, in
    order. *)
Definition after_tasks (tasks : list (bool * Q)) : orchestration_metrics :=
  fold_left (fun self task => _update_orchestration_metrics self (fst task) (snd task))
            tasks initial_orchestration_metrics.

Definition after_responses (results : list (generation_result * Q)) : response_metrics :=
  fold_left (fun self r => _update_response_metrics self (fst r) (snd r))
            results initial_response_metrics.

End Metrics.

(* ------------------------------------------------------------------ *)
(** * Response agent helpers
    [IntelligentResponseAgent._assess_urgency], [_determine_response_type],
    [_generate_response_recommendations], [_validate_response_quality] and
    [_add_to_response_history], response_generation_agent.py *)

Module ResponseAgent.

Import Py.

Definition high_urgency_keywords : list string :=
  ["urgent"; "emergency"; "asap"; "immediately"; "crisis"; "lawsuit";
   "media"; "press"; "reporter"; "boycott"; "viral"; "trending"].

Definition medium_urgency_keywords : list string :=
  ["complaint"; "problem"; "issue"; "disappointed"; "angry"; "frustrated";
   "refund"; "compensation"; "manager"; "supervisor"].

Definition _assess_urgency (m : RiskScorer.mention) : string :=
  let content := lower (get (RiskScorer.content m) "") in
  let engagement := get (RiskScorer.engagement_metrics m) ∅ in
  (* Check for high urgency *)
  if any (fun keyword => contains keyword content) high_urgency_keywords then "high"
  (* Check for viral potential (high engagement) *)
  else if (get (engagement !! "likes") 0 >? 100)%Z
          || (get (engagement !! "retweets") 0 >? 50)%Z
          || (get (engagement !! "shares") 0 >? 25)%Z then "high"
  (* Check for medium urgency *)
  else if any (fun keyword => contains keyword content) medium_urgency_keywords
  then "medium"
  else "low".

Definition _determine_response_type (m : RiskScorer.mention) : string :=
  let content := lower (get (RiskScorer.content m) "") in
  let sentiment := get (RiskScorer.sentiment m) "neutral" in
  if String.eqb sentiment "negative"
     || any (fun word => contains word content)
            ["complaint"; "problem"; "issue"; "disappointed"]
  then "complaint"
  else if String.eqb sentiment "positive"
          || any (fun word => contains word content)
                 ["love"; "great"; "amazing"; "excellent"]
  then "positive_feedback"
  else if contains "?" content
          || any (fun word => contains word content)
                 ["how"; "what"; "when"; "where"; "why"]
  then "question"
  else "general".

Definition _generate_response_recommendations (m : RiskScorer.mention)
    (response : string) : list string :=
  let recommendations : list string := [] in
  let urgency := _assess_urgency m in
  let recommendations :=
    if String.eqb urgency "high"
    then (recommendations
          ++ ["Consider escalating to human agent due to high urgency level"])%list
    else recommendations in
  let recommendations :=
    if (len response >? 280)%Z
    then (recommendations
          ++ ["Consider shortening response for social media platforms"])%list
    else recommendations in
  let sentiment := get (RiskScorer.sentiment m) "neutral" in
  let recommendations :=
    if String.eqb sentiment "negative" && negb (contains "sorry" (lower response))
    then (recommendations
          ++ ["Consider adding empathetic language for negative sentiment"])%list
    else recommendations in
  let recommendations :=
    if negb (any (fun word => contains word (lower response))
                 ["contact"; "support"; "help"; "visit"; "email"])
    then (recommendations
          ++ ["Consider adding clear next steps or contact information"])%list
    else recommendations in
  recommendations.

(** [_validate_response_quality]: the tool's JSON, parsed back. The
    tool itself does not raise on strings, so the dictionary always
    carries the score. *)
Definition _validate_response_quality (generated_response : string)
    (m : RiskScorer.mention) (brand_name : string) : RiskScorer.quality_dict :=
  let quality_result :=
    ResponseQuality._run generated_response
      (get (RiskScorer.content m) "") brand_name in
  {| RiskScorer.quality_score :=
       Some (Num (ResponseQuality.quality_score quality_result)) |}.

(** The keys of a generation result that the history keeps. *)
Record final_result := {
  mention_id : option string;
  result_platform : option string;
  result_quality_score : option Q;
  generation_time : option Q;
  knowledge_retrieved : option bool
}.

Record history_entry := {
  timestamp : Q;
  entry_mention_id : option string;
  entry_platform : option string;
  response_quality : Q;
  entry_generation_time : Q;
  knowledge_used : bool
}.

(** [l[-n:]] for a positive [n]. *)
Definition last_n {A} (n : nat) (l : list A) : list A :=
  skipn (length l - n) l.

(** [_add_to_response_history], with the reading of [datetime.utcnow()]. *)
Definition _add_to_response_history (response_history : list history_entry)
    (now : Q) (result : final_result) : list history_entry :=
  let response_history :=
    (response_history ++
     [{| timestamp := now;
         entry_mention_id := mention_id result;
         entry_platform := result_platform result;
         response_quality := get (result_quality_score result) 0;
         entry_generation_time := get (generation_time result) 0;
         knowledge_used := get (knowledge_retrieved result) false |}])%list in
  (* Keep history manageable *)
  if (1000 <? length response_history)%nat
  then last_n 500 response_history
  else response_history.

End ResponseAgent.

(* ------------------------------------------------------------------ *)
(** * Workflow nodes and routers
    [LangGraphAutonomousOrchestrator], langgraph_orchestrator.py: the
    nodes that compute on the state and the routers that read what they
    wrote *)

Module Pipeline.

Import Py.

(** One analysis result, as [_summarize_sentiment_analysis] reads it. *)
Record analysis_result := {
  sentiment : option string;
  content : option string;
  likes : option Z                 (* engagement_metrics["likes"] *)
}.

(** The summary dictionary; [{}] when there is nothing to summarize. *)
Record summary_dict := {
  total_analyzed : nat;
  positive_ratio : Q;
  negative_ratio : Q;
  neutral_ratio : Q;
  crisis_keywords : Z;
  high_engagement_negative : Z
}.

(** [sentiments.count(label)]. *)
Definition count_label (label : string) (sentiments : list string) : nat :=
  length (List.filter (String.eqb label) sentiments).

Definition mentions_crisis (r : analysis_result) : bool :=
  any (fun word => contains word (lower (get (content r) "")))
      ["crisis"; "boycott"; "lawsuit"; "scandal"].

Definition negative_and_engaging (r : analysis_result) : bool :=
  String.eqb (get (sentiment r) "neutral") "negative"
  && (get (likes r) 0 >? 50)%Z.

Definition ratio (n total : nat) : Q :=
  if (0 <? total)%nat
  then inject_Z (Z.of_nat n) / inject_Z (Z.of_nat total) else 0.

Definition _summarize_sentiment_analysis (analysis_results : list analysis_result)
  : option summary_dict :=
  match analysis_results with
  | [] => None
  | _ =>
      let sentiments :=
        map (fun r => get (sentiment r) "neutral") analysis_results in
      let crisis_keywords :=
        Z.of_nat (length (List.filter mentions_crisis analysis_results)) in
      let high_engagement_negative :=
        Z.of_nat (length (List.filter negative_and_engaging analysis_results)) in
      let total := length sentiments in
      Some {| total_analyzed := total;
              positive_ratio := ratio (count_label "positive" sentiments) total;
              negative_ratio := ratio (count_label "negative" sentiments) total;
              neutral_ratio := ratio (count_label "neutral" sentiments) total;
              crisis_keywords := crisis_keywords;
              high_engagement_negative := high_engagement_negative |}
  end.

(** [state["risk_assessments"]]. *)
Record risk_dict := {
  crisis_score : option Q;
  crisis_detected : option bool;
  crisis_level : option string
}.

Definition no_risk : risk_dict :=
  {| crisis_score := None; crisis_detected := None; crisis_level := None |}.

(** The crisis score of [_crisis_assessment_node], from the summary
    ([{}] reads as all defaults). *)
Definition crisis_score_of (summary : option summary_dict) : Q :=
  let negative_ratio :=
    match summary with Some d => negative_ratio d | None => 0 end in
  let crisis_keywords :=
    match summary with Some d => crisis_keywords d | None => 0%Z end in
  let high_engagement :=
    match summary with Some d => high_engagement_negative d | None => 0%Z end in
  negative_ratio * 0.4
  + min (inject_Z crisis_keywords / 5) 1 * 0.4
  + min (inject_Z high_engagement / 3) 1 * 0.2.

(** [_crisis_assessment_node]: what it writes to [risk_assessments]. *)
Definition _crisis_assessment_node (summary : option summary_dict) : risk_dict :=
  let crisis_score := crisis_score_of summary in
  {| crisis_score := Some crisis_score;
     crisis_detected := Some (Qgtb crisis_score 0.6);
     crisis_level :=
       Some (if Qgtb crisis_score 0.8 then "severe"
             else if Qgtb crisis_score 0.6 then "moderate" else "low") |}.

(** [_identify_mentions_needing_response]. *)
Definition needs_response (m : Workflow.mention) : bool :=
  let content := lower (get (Workflow.content m) "") in
  let sentiment := get (Workflow.sentiment m) "neutral" in
  contains "?" content || contains "help" content || contains "support" content
  || String.eqb sentiment "negative".

Definition _identify_mentions_needing_response (mentions : list Workflow.mention)
  : list Workflow.mention :=
  List.filter needs_response mentions.

Definition _route_after_crisis_assessment (risk : risk_dict)
    (mentions : list Workflow.mention) : string :=
  let crisis_score := get (crisis_score risk) 0 in
  if Qgtb crisis_score 0.8 then "escalate_crisis"
  else
    let mentions_needing_response :=
      length (_identify_mentions_needing_response mentions) in
    if (0 <? mentions_needing_response)%nat then "generate_responses"
    else "complete".

(** [_crisis_escalation_node]: the record it stores under
    [final_results["crisis_escalation"]]. *)
Record escalation_dict := {
  escalation_level : string;
  escalation_score : Q;
  escalation_actions : list string
}.

Definition _crisis_escalation_node (risk : risk_dict) : escalation_dict :=
  let crisis_level := get (crisis_level risk) "low" in
  let crisis_score := get (crisis_score risk) 0 in
  let escalation_actions :=
    if Qgtb crisis_score 0.8 then
      ["notify_ceo_immediately"; "activate_crisis_team";
       "prepare_press_statement"; "monitor_social_sentiment_hourly"]
    else if Qgtb crisis_score 0.6 then
      ["notify_pr_team"; "increase_monitoring_frequency";
       "prepare_response_templates"]
    else [] in
  {| escalation_level := crisis_level;
     escalation_score := crisis_score;
     escalation_actions := escalation_actions |}.

(** One generated response, with the keys the later nodes read. *)
Record decision_dict := {
  approval_status : option string;
  requires_human_review : option bool
}.

Record response_result := {
  mention_id : option string;
  quality_score : option Q;          (* quality_assessment["quality_score"] *)
  approval_decision : option decision_dict
}.

(** [_quality_assessment_node]: the [quality_scores] dictionary after
    the node. The per-mention entries are written first, one loop step
    for each response, and the ["average"] entry last. *)
Definition quality_step (acc : gmap string Q * Q * nat)
    (response_result : response_result) : gmap string Q * Q * nat :=
  let '(quality_scores, total_quality, quality_count) := acc in
  let quality_score := get (quality_score response_result) 0.5 in
  (<[get (mention_id response_result) "unknown" := quality_score]> quality_scores,
   total_quality + quality_score, S quality_count).

Definition _quality_assessment_node (quality_scores : gmap string Q)
    (generated_responses : list response_result) : gmap string Q :=
  let '(quality_scores, total_quality, quality_count) :=
    fold_left quality_step generated_responses (quality_scores, 0, 0%nat) in
  if (0 <? quality_count)%nat
  then <["average" := total_quality / inject_Z (Z.of_nat quality_count)]> quality_scores
  else <["average" := 0.5]> quality_scores.

(** [state["performance_metrics"]] after [_approval_decision_node]. *)
Record performance_dict := {
  auto_approved : nat;
  requires_review : nat;
  approval_efficiency : Q
}.

Definition no_decision : decision_dict :=
  {| approval_status := None; requires_human_review := None |}.

Definition is_auto_approved (d : decision_dict) : bool :=
  match approval_status d with
  | Some status => String.eqb status "approved_auto"
  | None => false
  end.

Definition needs_review (d : decision_dict) : bool :=
  get (requires_human_review d) false.

(** [_approval_decision_node]: the decisions of the generated responses
    are appended to the decisions already in the state, and the counts
    are taken over all of them. *)
Definition _approval_decision_node (approval_decisions : list decision_dict)
    (generated_responses : list response_result)
  : list decision_dict * performance_dict :=
  let approval_decisions :=
    (approval_decisions
     ++ map (fun r => get (approval_decision r) no_decision) generated_responses)%list in
  let auto_approved := length (List.filter is_auto_approved approval_decisions) in
  let requires_review := length (List.filter needs_review approval_decisions) in
  (approval_decisions,
   {| auto_approved := auto_approved;
      requires_review := requires_review;
      approval_efficiency :=
        match approval_decisions with
        | [] => 0
        | _ => inject_Z (Z.of_nat auto_approved)
               / inject_Z (Z.of_nat (length approval_decisions))
        end |}).

Definition _route_approval_decision (quality_scores : gmap string Q)
    (performance_metrics : option performance_dict) : string :=
  let avg_quality := get (quality_scores !! "average") 0 in
  if Qltb avg_quality 0.5 then "regenerate"
  else
    let auto_approved :=
      match performance_metrics with Some p => auto_approved p | None => 0%nat end in
    let requires_review :=
      match performance_metrics with Some p => requires_review p | None => 0%nat end in
    if (0 <? auto_approved)%nat then "auto_approve"
    else if (0 <? requires_review)%nat then "human_review"
    else "auto_approve".

(** [_auto_publish_node] and [_human_review_node]: the responses each
    stores in [final_results]. *)
Definition _auto_publish_node (generated_responses : list response_result)
  : list response_result :=
  List.filter (fun r => is_auto_approved (get (approval_decision r) no_decision))
              generated_responses.

Definition _human_review_node (generated_responses : list response_result)
  : list response_result :=
  List.filter (fun r => needs_review (get (approval_decision r) no_decision))
              generated_responses.

(** What the data-collection agent answered: nothing (no agent
    registered), an exception, or a result dictionary. *)
Inductive collection_outcome :=
  | NoAgent
  | AgentRaised
  | AgentResult (success : option bool) (data : option Workflow.collected_dict).

Definition append_completed (step : string) (st : Workflow.AgentWorkflowState)
  : Workflow.AgentWorkflowState :=
  {| Workflow.goal := Workflow.goal st; Workflow.context := Workflow.context st;
     Workflow.current_step := Workflow.current_step st;
     Workflow.completed_steps := (Workflow.completed_steps st ++ [step])%list;
     Workflow.failed_steps := Workflow.failed_steps st;
     Workflow.collected_data := Workflow.collected_data st;
     Workflow.quality_average := Workflow.quality_average st;
     Workflow.crisis_score := Workflow.crisis_score st;
     Workflow.auto_approved := Workflow.auto_approved st;
     Workflow.requires_review := Workflow.requires_review st |}.

Definition append_failed (step : string) (st : Workflow.AgentWorkflowState)
  : Workflow.AgentWorkflowState :=
  {| Workflow.goal := Workflow.goal st; Workflow.context := Workflow.context st;
     Workflow.current_step := Workflow.current_step st;
     Workflow.completed_steps := Workflow.completed_steps st;
     Workflow.failed_steps := (Workflow.failed_steps st ++ [step])%list;
     Workflow.collected_data := Workflow.collected_data st;
     Workflow.quality_average := Workflow.quality_average st;
     Workflow.crisis_score := Workflow.crisis_score st;
     Workflow.auto_approved := Workflow.auto_approved st;
     Workflow.requires_review := Workflow.requires_review st |}.

Definition set_step_and_data (step : string) (data : Workflow.collected_dict)
    (st : Workflow.AgentWorkflowState) : Workflow.AgentWorkflowState :=
  {| Workflow.goal := Workflow.goal st; Workflow.context := Workflow.context st;
     Workflow.current_step := step;
     Workflow.completed_steps := Workflow.completed_steps st;
     Workflow.failed_steps := Workflow.failed_steps st;
     Workflow.collected_data := data;
     Workflow.quality_average := Workflow.quality_average st;
     Workflow.crisis_score := Workflow.crisis_score st;
     Workflow.auto_approved := Workflow.auto_approved st;
     Workflow.requires_review := Workflow.requires_review st |}.

(** [_data_collection_node], given what the agent answered. *)
Definition _data_collection_node (outcome : collection_outcome)
    (state : Workflow.AgentWorkflowState) : Workflow.AgentWorkflowState :=
  let state := set_step_and_data "collect_data" (Workflow.collected_data state) state in
  match outcome with
  | NoAgent => state
  | AgentRaised => append_failed "collect_data" state
  | AgentResult success data =>
      let state :=
        set_step_and_data "collect_data"
          (get data {| Workflow.mentions := None |}) state in
      if get success false then append_completed "collect_data" state
      else append_failed "collect_data" state
  end.

(** The loop of the graph between [collect_data] and its router: the
    node runs with the next outcome, the router decides, and
    "retry_collection" leads back to the node. The result is the route
    that leaves the loop, the state, and the number of times the node
    ran; [None] when the outcomes are used up. *)
Fixpoint collect_loop (outcomes : list collection_outcome)
    (state : Workflow.AgentWorkflowState) (runs : nat)
  : option (string * Workflow.AgentWorkflowState * nat) :=
  match outcomes with
  | [] => None
  | outcome :: later =>
      let state := _data_collection_node outcome state in
      let '(route, state) := Workflow._route_after_data_collection state in
      if String.eqb route "retry_collection"
      then collect_loop later state (S runs)
      else Some (route, state, S runs)
  end.

End Pipeline.

(* ------------------------------------------------------------------ *)
(** * The alert store
    [AlertManagementAgent.acknowledge_alert] and [resolve_alert],
    alert_management_agent.py *)

Module AlertStore.

Import Py.

(** An alert dictionary of [self.active_alerts] with the keys the two
    methods add to it. *)
Record stored_alert := {
  payload : Alerts.alert;
  acknowledged : option bool;
  acknowledged_by : option string;
  acknowledged_at : option Q;
  resolved : option bool;
  resolved_by : option string;
  resolved_at : option Q;
  resolution_notes : option string
}.

(** An alert as [_process_alerts] stores it. *)
Definition fresh (a : Alerts.alert) : stored_alert :=
  {| payload := a;
     acknowledged := None; acknowledged_by := None; acknowledged_at := None;
     resolved := None; resolved_by := None; resolved_at := None;
     resolution_notes := None |}.

(** [self.active_alerts], by alert id, and [self.alert_history], by the
    brand id of the alert ([None] is a key like any other). *)
Record store := {
  active_alerts : gmap string stored_alert;
  alert_history : gmap (option string) (list stored_alert)
}.

Definition set_acknowledged (by_whom : string) (now : Q) (a : stored_alert)
  : stored_alert :=
  {| payload := payload a;
     acknowledged := Some true; acknowledged_by := Some by_whom;
     acknowledged_at := Some now;
     resolved := resolved a; resolved_by := resolved_by a;
     resolved_at := resolved_at a; resolution_notes := resolution_notes a |}.

Definition set_resolved (by_whom : string) (now : Q) (notes : string)
    (a : stored_alert) : stored_alert :=
  {| payload := payload a;
     acknowledged := acknowledged a; acknowledged_by := acknowledged_by a;
     acknowledged_at := acknowledged_at a;
     resolved := Some true; resolved_by := Some by_whom;
     resolved_at := Some now; resolution_notes := Some notes |}.

(** [acknowledge_alert]; [now] is the reading of [time.time()]. *)
Definition acknowledge_alert (self : store) (alert_id acknowledged_by : string)
    (now : Q) : bool * store :=
  match active_alerts self !! alert_id with
  | Some a =>
      (true,
       {| active_alerts :=
            <[alert_id := set_acknowledged acknowledged_by now a]> (active_alerts self);
          alert_history := alert_history self |})
  | None => (false, self)
  end.

(** [resolve_alert]: the alert is popped first, so a missing
    ["brand_id"] key raises after the alert has left the active ones. *)
Definition resolve_alert (self : store) (alert_id resolved_by resolution_notes : string)
    (now : Q) : result bool * store :=
  match active_alerts self !! alert_id with
  | Some alert =>
      let active := delete alert_id (active_alerts self) in
      let alert := set_resolved resolved_by now resolution_notes alert in
      (* Store in alert history *)
      match Alerts.brand_id (payload alert) with
      | None =>
          (Raise (KeyError "brand_id"),
           {| active_alerts := active; alert_history := alert_history self |})
      | Some brand =>
          let history :=
            match alert_history self !! brand with
            | Some _ => alert_history self
            | None => <[brand := []]> (alert_history self)
            end in
          (Ok true,
           {| active_alerts := active;
              alert_history :=
                <[brand := (get (history !! brand) [] ++ [alert])%list]> history |})
      end
  | None => (Ok false, self)
  end.

End AlertStore.

(* ------------------------------------------------------------------ *)
(** * Agent metrics and capabilities
    [AgentCapability], [AgentMetrics] and [BaseAgent.__init__],
    base_agent.py *)

Module BaseAgent.

Import Py.

Inductive AgentCapability :=
  | DATA_COLLECTION
  | SENTIMENT_ANALYSIS
  | CRISIS_DETECTION
  | ALERT_MANAGEMENT
  | STRATEGIC_REASONING.

Definition value (c : AgentCapability) : string :=
  match c with
  | DATA_COLLECTION => "data_collection"
  | SENTIMENT_ANALYSIS => "sentiment_analysis"
  | CRISIS_DETECTION => "crisis_detection"
  | ALERT_MANAGEMENT => "alert_management"
  | STRATEGIC_REASONING => "strategic_reasoning"
  end.

Definition capability_eqb (a b : AgentCapability) : bool :=
  String.eqb (value a) (value b).

(** The conversion loop of [BaseAgent.__init__]. *)
Definition capability_enum (cap : string) : AgentCapability :=
  if String.eqb cap "data_collection" then DATA_COLLECTION
  else if String.eqb cap "sentiment_analysis" then SENTIMENT_ANALYSIS
  else if String.eqb cap "alert_management" then ALERT_MANAGEMENT
  else (* Default capability *) STRATEGIC_REASONING.

Definition capability_enums (capabilities : list string) : list AgentCapability :=
  map capability_enum capabilities.

(** The capability strings [AlertManagementAgent.__init__] and
    [DataCollectionAgent.__init__] pass on. *)
Definition alert_manager_capabilities : list string :=
  ["alert_management"; "crisis_detection"; "notification_management";
   "escalation_handling"].

Definition data_collector_capabilities : list string :=
  ["data_collection"; "social_media_monitoring"; "web_scraping";
   "api_integration"].

Record AgentMetrics := {
  reasoning_cycles : nat;
  successful_actions : nat;
  failed_actions : nat;
  avg_thinking_time : Q;
  llm_tokens_used : Z;
  tools_called : nat;
  start_time : Q;
  last_activity : option Q
}.

(** [AgentMetrics()]; [now] is the reading of [time.time()]. *)
Definition new_metrics (now : Q) : AgentMetrics :=
  {| reasoning_cycles := 0; successful_actions := 0; failed_actions := 0;
     avg_thinking_time := 0; llm_tokens_used := 0; tools_called := 0;
     start_time := now; last_activity := None |}.

Definition update_thinking_time (self : AgentMetrics) (duration now : Q)
  : AgentMetrics :=
  let reasoning_cycles := S (reasoning_cycles self) in
  {| reasoning_cycles := reasoning_cycles;
     successful_actions := successful_actions self;
     failed_actions := failed_actions self;
     avg_thinking_time :=
       (avg_thinking_time self * (inject_Z (Z.of_nat reasoning_cycles) - 1) + duration)
       / inject_Z (Z.of_nat reasoning_cycles);
     llm_tokens_used := llm_tokens_used self;
     tools_called := tools_called self;
     start_time := start_time self;
     last_activity := Some now |}.

Definition record_action (self : AgentMetrics) (success : bool) (tokens_used : Z)
    (now : Q) : AgentMetrics :=
  {| reasoning_cycles := reasoning_cycles self;
     successful_actions :=
       if success then S (successful_actions self) else successful_actions self;
     failed_actions :=
       if success then failed_actions self else S (failed_actions self);
     avg_thinking_time := avg_thinking_time self;
     llm_tokens_used := (llm_tokens_used self + tokens_used)%Z;
     tools_called := tools_called self;
     start_time := start_time self;
     last_activity := Some now |}.

Definition get_success_rate (self : AgentMetrics) : Q :=
  let total := (successful_actions self + failed_actions self)%nat in
  if (0 <? total)%nat
  then inject_Z (Z.of_nat (successful_actions self)) / inject_Z (Z.of_nat total)
  else 0.

(** What an agent reports to its metrics, in order. *)
Inductive event :=
  | Thought (duration now : Q)
  | Action (success : bool) (tokens_used : Z) (now : Q).

Definition apply_event (self : AgentMetrics) (e : event) : AgentMetrics :=
  match e with
  | Thought duration now => update_thinking_time self duration now
  | Action success tokens_used now => record_action self success tokens_used now
  end.

Definition after_events (start : Q) (events : list event) : AgentMetrics :=
  fold_left apply_event events (new_metrics start).

Definition durations (events : list event) : list Q :=
  flat_map (fun e => match e with Thought d _ => [d] | Action _ _ _ => [] end) events.

Definition outcomes (events : list event) : list bool :=
  flat_map (fun e => match e with Thought _ _ => [] | Action ok _ _ => [ok] end) events.

End BaseAgent.

(* ------------------------------------------------------------------ *)
(** * The agent registry
    [LangChainOrchestrator.register_agent] and
    [_select_agents_by_capability], orchestrator_llm.py *)

Module Registry.

Import Py.
Import BaseAgent.

Record performance_dict := {
  success_rate : option Q;
  avg_response_time : option Q;
  tasks_completed : option Z
}.

(** The dictionaries of the orchestrator the two methods use.
    [agent_capabilities] is iterated, so it keeps its insertion order. *)
Record orchestrator := {
  agent_capabilities : list (string * list AgentCapability);
  agent_performance : gmap string performance_dict;
  agent_availability : gmap string bool
}.

Definition new_orchestrator : orchestrator :=
  {| agent_capabilities := []; agent_performance := ∅; agent_availability := ∅ |}.

(** [d[key] = v] on an insertion-ordered dictionary: a key that is
    already there keeps its place. *)
Fixpoint dict_set {V : Type} (key : string) (v : V) (d : list (string * V))
  : list (string * V) :=
  match d with
  | [] => [(key, v)]
  | (k, w) :: rest =>
      if String.eqb k key then (k, v) :: rest
      else (k, w) :: dict_set key v rest
  end.

Definition register_agent (self : orchestrator) (agent_id : string)
    (capabilities : list AgentCapability) : orchestrator :=
  {| agent_capabilities := dict_set agent_id capabilities (agent_capabilities self);
     agent_availability := <[agent_id := true]> (agent_availability self);
     agent_performance :=
       <[agent_id := {| success_rate := Some 0.8;   (* Start with good default *)
                        avg_response_time := Some 2;
                        tasks_completed := Some 0%Z |}]> (agent_performance self) |}.

Definition has_any (required : list AgentCapability)
    (capabilities : list AgentCapability) : bool :=
  any (fun cap => existsb (capability_eqb cap) capabilities) required.

Definition eligible (self : orchestrator) (agent_id : string) : bool :=
  get (agent_availability self !! agent_id) false
  && Qgtb (get (match agent_performance self !! agent_id with
                | Some p => success_rate p
                | None => None
                end) 0) 0.3.

Definition _select_agents_by_capability (self : orchestrator)
    (required_capabilities : list AgentCapability) : list string :=
  let selected :=
    map fst
      (List.filter
         (fun entry => has_any required_capabilities (snd entry)
                       && eligible self (fst entry))
         (agent_capabilities self)) in
  firstn 5 selected.   (* Limit to top 5 agents *)

(** Registering legacy agents one after the other, each with the
    capability strings it passes to [BaseAgent.__init__]. *)
Definition register_legacy (self : orchestrator) (agents : list (string * list string))
  : orchestrator :=
  fold_left (fun self agent =>
               register_agent self (fst agent) (capability_enums (snd agent)))
            agents self.

End Registry.

(* ------------------------------------------------------------------ *)
(** * Generating a response
    [LangChainBaseAgent.think_and_act], base_agent.py;
    [IntelligentResponseAgent.generate_intelligent_response] and
    [_generate_fallback_response], response_generation_agent.py *)

Module Generation.

Import Py.

(** The three dictionaries [think_and_act] returns: the answer of the
    model, the mock answer of an agent without a model, or the error. *)
Inductive think_result :=
  | Answered (response : string) (thinking_time : Q)
  | Mocked (response : string)
  | Failed (error : string) (thinking_time : Q).

Definition success (r : think_result) : bool :=
  match r with Answered _ _ | Mocked _ => true | Failed _ _ => false end.

(** [response.get("tools_used", [])]: the answer of the model carries
    an empty list, the other two carry no such key. *)
Definition tools_used (r : think_result) : list string :=
  get (match r with
       | Answered _ _ => Some []
       | Mocked _ | Failed _ _ => None
       end) [].

(** [response["response"]]. *)
Definition response_text (r : think_result) : result string :=
  match r with
  | Answered response _ | Mocked response => Ok response
  | Failed _ _ => Raise (KeyError "response")
  end.

(** [think_and_act]. [llm] is [None] for an agent without a model,
    otherwise the reply of [self.llm.ainvoke] to the prompt built around
    the message, which may raise. [start], [stamp] and [finish] are the
    readings of [time.time()]. *)
Definition think_and_act (metrics : BaseAgent.AgentMetrics) (agent_id : string)
    (llm : option (string -> result string)) (input_message : string)
    (start stamp finish : Q) : think_result * BaseAgent.AgentMetrics :=
  match llm with
  | None =>
      (Mocked ("Mock response from " ++ agent_id ++ ": I would analyze '"
               ++ input_message ++ "' but LLM is not configured"),
       metrics)
  | Some ainvoke =>
      match ainvoke input_message with
      | Ok response_text =>
          (Answered response_text (finish - start),
           BaseAgent.record_action metrics true 0 stamp)
      | Raise e =>
          (Failed (str_exn e) (finish - start),
           BaseAgent.record_action metrics false 0 stamp)
      end
  end.

(** The keys of [brand_context] the agent reads. *)
Record brand_context := {
  brand_name : option string;
  crisis_mode : option bool
}.

Definition risk_context (b : option brand_context) : option RiskScorer.brand_dict :=
  match b with
  | Some b => Some {| RiskScorer.crisis_mode := crisis_mode b |}
  | None => None
  end.

(** [self.response_templates], each template as the function
    [template.format(brand_name=...)] computes. *)
Definition response_templates : list (string * (string -> string)) :=
  [("positive_feedback",
    fun brand_name => "Thank you for your positive feedback about " ++ brand_name
                      ++ "! We're delighted to hear about your experience.");
   ("negative_feedback",
    fun _ => "Thank you for bringing this to our attention. We sincerely apologize for any inconvenience.");
   ("question",
    fun brand_name => "Thank you for reaching out to " ++ brand_name
                      ++ ". We're here to help with your question.");
   ("complaint",
    fun _ => "We understand your frustration and want to make this right. Your concern is important to us.");
   ("general",
    fun brand_name => "Thank you for contacting " ++ brand_name
                      ++ ". We appreciate you taking the time to reach out.")].

Fixpoint template_of (key : string) (templates : list (string * (string -> string)))
  : option (string -> string) :=
  match templates with
  | [] => None
  | (k, template) :: rest =>
      if String.eqb k key then Some template else template_of key rest
  end.

Record response_metadata := {
  response_type : string;
  urgency_level : string;
  personalization_applied : bool;
  quality_checked : bool;
  autonomous_approval : bool;
  metadata_requires_human_review : bool;
  risk_score : Q
}.

(** The dictionary a generation returns; a key the producer does not
    set is [None]. *)
Record result_dict := {
  result_success : bool;
  mention_id : option string;
  result_brand_name : option string;
  platform : option string;
  generated_response : string;
  llm_reasoning : string;
  result_tools_used : option (list string);
  knowledge_retrieved : option bool;
  quality_score : Q;      (* quality_assessment["quality_score"] *)
  approval_decision : option Approval.decision;
  generation_time : option Q;
  fallback_mode : option bool;
  metadata : option response_metadata;
  recommendations : option (list string)
}.

Definition _generate_fallback_response (m : RiskScorer.mention)
    (brand_context : option brand_context) : result_dict :=
  let brand_name :=
    get (match brand_context with Some b => brand_name b | None => None end)
        "our team" in
  let response_type := ResponseAgent._determine_response_type m in
  (* Use appropriate template *)
  let template :=
    get (template_of response_type response_templates)
        (get (template_of "general" response_templates) (fun _ => "")) in
  let fallback_response := template brand_name in
  (* Add generic helpful ending *)
  let fallback_response :=
    fallback_response ++ " Please DM us or visit our support page for assistance." in
  {| result_success := true;
     mention_id := None;
     result_brand_name := None;
     platform := None;
     generated_response := fallback_response;
     llm_reasoning := "Fallback response due to LLM generation failure";
     result_tools_used := None;
     knowledge_retrieved := None;
     quality_score := 0.6;
     approval_decision := None;
     generation_time := None;
     fallback_mode := Some true;
     metadata := None;
     recommendations := None |}.

(** The state of the response agent a generation touches. *)
Record agent_state := {
  metrics : BaseAgent.AgentMetrics;
  response_metrics : Metrics.response_metrics;
  response_history : list ResponseAgent.history_entry
}.

(** [IntelligentResponseAgent()]; [now] is the reading of
    [time.time()]. *)
Definition new_agent (now : Q) : agent_state :=
  {| metrics := BaseAgent.new_metrics now;
     response_metrics := Metrics.initial_response_metrics;
     response_history := [] |}.

(** The readings of the clocks during one generation. *)
Record readings := {
  start_time : Q;
  think_stamp : Q;
  think_finish : Q;
  finish_time : Q;
  utcnow : Q;
  local_now : Approval.local_time
}.

Section Agent.

(** [_extract_generated_response], which picks the reply out of the
    text of the model, is not modelled: what follows holds whatever it
    returns. *)
Variable _extract_generated_response : string -> string.

(** The prompt the method builds from the mention and the brand
    context, likewise left open. *)
Variable generation_prompt : RiskScorer.mention -> option brand_context -> string.
Variable cfg : Approval.Settings.
Variable agent_id : string.

(** The quality score of the assessment, as a number. The tool always
    stores one. *)
Definition score_of (qa : RiskScorer.quality_dict) : Q :=
  match RiskScorer.quality_score qa with
  | Some (Num q) => q
  | _ => 0
  end.

(** [generate_intelligent_response]. [mention_id] is
    [mention.get("id")], which the other views of a mention leave
    out. *)
Definition generate_intelligent_response (self : agent_state)
    (llm : option (string -> result string))
    (m : RiskScorer.mention) (mention_id : option string)
    (brand_context : option brand_context) (t : readings)
  : result_dict * agent_state :=
  let brand_name :=
    get (match brand_context with Some b => brand_name b | None => None end) "" in
  let urgency_level := ResponseAgent._assess_urgency m in
  (* Let the LLM generate the response using RAG and tools *)
  let '(response, metrics) :=
    think_and_act (metrics self) agent_id llm (generation_prompt m brand_context)
                  (start_time t) (think_stamp t) (think_finish t) in
  let self :=
    {| metrics := metrics; response_metrics := response_metrics self;
       response_history := response_history self |} in
  match response with
  | Failed _ _ => (_generate_fallback_response m brand_context, self)
  | Answered llm_response _ | Mocked llm_response =>
      (* Extract the generated response and tools used *)
      let generated_response := _extract_generated_response llm_response in
      let tools_used := tools_used response in
      (* Validate response quality *)
      let quality_assessment :=
        ResponseAgent._validate_response_quality generated_response m brand_name in
      (* INTELLIGENT HUMAN-IN-THE-LOOP DECISION *)
      let approval_decision :=
        Approval._make_autonomous_approval_decision
          (Approval.agent cfg (local_now t)) cfg generated_response m
          quality_assessment (risk_context brand_context) in
      let generation_time := finish_time t - start_time t in
      let knowledge_retrieved :=
        existsb (String.eqb "retrieve_brand_knowledge") tools_used in
      let final_result :=
        {| result_success := true;
           mention_id := Some (get mention_id "unknown");
           result_brand_name := Some brand_name;
           platform := Some (get (RiskScorer.platform m) "unknown");
           generated_response := generated_response;
           llm_reasoning := llm_response;
           result_tools_used := Some tools_used;
           knowledge_retrieved := Some knowledge_retrieved;
           quality_score := score_of quality_assessment;
           approval_decision := Some approval_decision;
           generation_time := Some generation_time;
           fallback_mode := None;
           metadata :=
             Some {| response_type := ResponseAgent._determine_response_type m;
                     urgency_level := urgency_level;
                     personalization_applied :=
                       existsb (String.eqb "personalize_response") tools_used;
                     quality_checked :=
                       existsb (String.eqb "evaluate_response_quality") tools_used;
                     autonomous_approval :=
                       Approval.autonomous_decision approval_decision;
                     metadata_requires_human_review :=
                       Approval.requires_human_review approval_decision;
                     risk_score :=
                       match Approval.risk_analysis approval_decision with
                       | Some analysis => RiskScorer.overall_risk_score analysis
                       | None => 0.5
                       end |};
           recommendations :=
             Some (ResponseAgent._generate_response_recommendations
                     m generated_response) |} in
      (* Update metrics and history *)
      let response_metrics :=
        Metrics._update_response_metrics (response_metrics self)
          {| Metrics.success := true;
             Metrics.quality_score := Some (score_of quality_assessment);
             Metrics.knowledge_retrieved := Some knowledge_retrieved |}
          generation_time in
      let response_history :=
        ResponseAgent._add_to_response_history (response_history self) (utcnow t)
          {| ResponseAgent.mention_id := Some (get mention_id "unknown");
             ResponseAgent.result_platform :=
               Some (get (RiskScorer.platform m) "unknown");
             ResponseAgent.result_quality_score := Some (score_of quality_assessment);
             ResponseAgent.generation_time := Some generation_time;
             ResponseAgent.knowledge_retrieved := Some knowledge_retrieved |} in
      (final_result,
       {| metrics := metrics; response_metrics := response_metrics;
          response_history := response_history |})
  end.

(** One call, as the caller makes it. *)
Record request := {
  llm : option (string -> result string);
  request_mention : RiskScorer.mention;
  request_id : option string;
  request_context : option brand_context;
  request_readings : readings
}.

(** The agent serving requests one after the other: the results, oldest
    first, and the state it ends in. *)
Fixpoint serve (self : agent_state) (requests : list request)
  : list result_dict * agent_state :=
  match requests with
  | [] => ([], self)
  | r :: later =>
      let '(result, self) :=
        generate_intelligent_response self (llm r) (request_mention r)
          (request_id r) (request_context r) (request_readings r) in
      let '(results, self) := serve self later in
      (result :: results, self)
  end.

End Agent.

(** A generation result as the workflow nodes read it. *)
Definition as_response_result (r : result_dict) : Pipeline.response_result :=
  {| Pipeline.mention_id := mention_id r;
     Pipeline.quality_score := Some (quality_score r);
     Pipeline.approval_decision :=
       match approval_decision r with
       | Some d =>
           Some {| Pipeline.approval_status := Some (Approval.approval_status d);
                   Pipeline.requires_human_review :=
                     Some (Approval.requires_human_review d) |}
       | None => None
       end |}.

End Generation.

(* ------------------------------------------------------------------ *)
(** * Concrete inputs used by the examples *)

Module Samples.

Import Py.

Definition complaint : RiskScorer.mention :=
  {| RiskScorer.content := Some "My order arrived broken";
     RiskScorer.sentiment := Some "negative";
     RiskScorer.platform := Some "twitter";
     RiskScorer.engagement_metrics := None;
     RiskScorer.crisis_indicators := None |}.

Definition reply : string :=
  "We are sorry to hear that, please contact our support team.".

Definition average_quality : RiskScorer.quality_dict :=
  {| RiskScorer.quality_score := Some (Num 0.5) |}.

(** A quality assessment whose score is [None]. *)
Definition broken_quality : RiskScorer.quality_dict :=
  {| RiskScorer.quality_score := Some NoneVal |}.

(** The assessment of [reply] to [complaint]: risk 0.225. *)
Definition complaint_assessment : RiskScorer.risk_assessment :=
  Eval vm_compute in
    match RiskScorer._calculate_comprehensive_risk_score
            reply complaint average_quality None with
    | Ok ra => ra
    | Raise _ =>
        {| RiskScorer.overall_risk_score := 0;
           RiskScorer.assessment_risk_factors := [];
           RiskScorer.component_risks :=
             {| RiskScorer.quality_risk := 0; RiskScorer.sentiment_risk := 0;
                RiskScorer.virality_risk := 0; RiskScorer.content_risk := 0;
                RiskScorer.crisis_risk := 0 |};
           RiskScorer.risk_category := "" |}
    end.

(** Wednesday noon. *)
Definition noon : Approval.local_time :=
  {| Approval.hour := 12; Approval.weekday := 2 |}.

(** An analyzed item whose sentiment label is none of the three the
    deterioration rule counts, and which carries a crisis indicator. *)
Definition mixed_crisis_item : Alerts.item :=
  {| Alerts.sentiment :=
       Some {| Alerts.overall := Some "mixed"; Alerts.confidence := Some 0.9 |};
     Alerts.crisis_indicators :=
       Some {| Alerts.has_indicators := Some true;
               Alerts.risk_level := Some "high";
               Alerts.keywords := Some ["recall"] |} |}.

Definition negative_item : Alerts.item :=
  {| Alerts.sentiment :=
       Some {| Alerts.overall := Some "negative"; Alerts.confidence := Some 0.9 |};
     Alerts.crisis_indicators := None |}.

Definition neutral_item : Alerts.item :=
  {| Alerts.sentiment :=
       Some {| Alerts.overall := Some "neutral"; Alerts.confidence := Some 0.9 |};
     Alerts.crisis_indicators := None |}.

Definition mixed_task : Alerts.task :=
  {| Alerts.analyzed_data := Some [mixed_crisis_item];
     Alerts.task_platform := Some "twitter";
     Alerts.task_brand_id := Some "acme" |}.

(** A clock that advances one second per reading, from 1000. *)
Definition ticking (n : nat) : Q := inject_Z (Z.of_nat n) + 1000.

(** The alert the crisis rule computes for [mixed_crisis_item] at the
    first reading of that clock. *)
Definition crisis_alerts : list Alerts.alert :=
  [{| Alerts.type := Alerts.crisis_keywords_detected;
      Alerts.alert_severity := Alerts.high;
      Alerts.platform := Some "twitter";
      Alerts.metrics := Alerts.CrisisMetrics 1 [("high", 1%nat)] ["recall"] true;
      Alerts.timestamp := ticking 0;
      Alerts.brand_id := None;
      Alerts.alert_id := None |}].

(** A clock that reads 0 twice and 100000 afterwards: more than a day
    passes after the second reading. *)
Definition next_day (n : nat) : Q := if (n <? 2)%nat then 0 else 100000.

(** A sentiment window of four calm samples, all taken at time 900. *)
Definition calm_history : Alerts.state :=
  Alerts.set_historical_data
    (<["acme_twitter_sentiment" :=
         [Alerts.SentimentEntry 0.1 900; Alerts.SentimentEntry 0.1 900;
          Alerts.SentimentEntry 0.1 900; Alerts.SentimentEntry 0.1 900]]> ∅)
    Alerts.initial_state.

(** A sentiment window of four samples at one half, all taken at time
    900, and a batch of four negative items and a neutral one: the
    batch's ratio is four fifths, three tenths above the window's
    mean. *)
Definition steady_history : Alerts.state :=
  Alerts.set_historical_data
    (<["acme_twitter_sentiment" :=
         [Alerts.SentimentEntry 0.5 900; Alerts.SentimentEntry 0.5 900;
          Alerts.SentimentEntry 0.5 900; Alerts.SentimentEntry 0.5 900]]> ∅)
    Alerts.initial_state.

Definition four_in_five_negative : list Alerts.item :=
  [negative_item; negative_item; negative_item; negative_item; neutral_item].


(** Five analysed mentions, all negative, all about a boycott, each with
    two hundred likes. *)
Definition boycott_batch : list Pipeline.analysis_result :=
  repeat {| Pipeline.sentiment := Some "negative";
            Pipeline.content := Some "Boycott this brand";
            Pipeline.likes := Some 200%Z |} 5.

(** The state [execute_autonomous_goal] starts a workflow with, after
    the initialization node. *)
Definition new_workflow : Workflow.AgentWorkflowState :=
  {| Workflow.goal := "Monitor brand mentions";
     Workflow.context :=
       {| Workflow.priority := None; Workflow.crisis_mode := None;
          Workflow.urgency := None; Workflow.data_collection_retries := None |};
     Workflow.current_step := "initialize_workflow";
     Workflow.completed_steps := ["initialize_workflow"];
     Workflow.failed_steps := [];
     Workflow.collected_data := {| Workflow.mentions := None |};
     Workflow.quality_average := None; Workflow.crisis_score := None;
     Workflow.auto_approved := None; Workflow.requires_review := None |}.

(** A collection that succeeds and brings one mention. *)
Definition found_one_mention : Pipeline.collection_outcome :=
  Pipeline.AgentResult (Some true)
    (Some {| Workflow.mentions :=
               Some [{| Workflow.content := Some "Where is my order?";
                        Workflow.sentiment := Some "negative" |}] |}).

(** Two crisis alerts of one brand, raised for two platforms. *)
Definition twitter_crisis : Alerts.alert :=
  {| Alerts.type := Alerts.crisis_keywords_detected;
     Alerts.alert_severity := Alerts.critical;
     Alerts.platform := Some "twitter";
     Alerts.metrics := Alerts.CrisisMetrics 1 [("critical", 1%nat)] ["lawsuit"] true;
     Alerts.timestamp := 0;
     Alerts.brand_id := None;
     Alerts.alert_id := None |}.

Definition facebook_crisis : Alerts.alert :=
  {| Alerts.type := Alerts.crisis_keywords_detected;
     Alerts.alert_severity := Alerts.medium;
     Alerts.platform := Some "facebook";
     Alerts.metrics := Alerts.CrisisMetrics 1 [("medium", 1%nat)] ["refund"] false;
     Alerts.timestamp := 0;
     Alerts.brand_id := None;
     Alerts.alert_id := None |}.

(** A store with one active alert of brand "acme". *)
Definition one_active : AlertStore.store :=
  {| AlertStore.active_alerts :=
       <["acme_crisis_keywords_detected_0" :=
           AlertStore.fresh (Alerts.set_ids (Some "acme") 0 twitter_crisis)]> ∅;
     AlertStore.alert_history := ∅ |}.

(** A neutral-labelled mention that words a complaint. *)
Definition billing_problem : RiskScorer.mention :=
  {| RiskScorer.content := Some "There is a PROBLEM with my bill";
     RiskScorer.sentiment := Some "neutral";
     RiskScorer.platform := Some "twitter";
     RiskScorer.engagement_metrics := None;
     RiskScorer.crisis_indicators := None |}.

(** A request served while the model is unreachable. *)
Definition unreachable_model : Generation.request :=
  {| Generation.llm := Some (fun _ => Py.Raise (Py.RuntimeError "connection refused"));
     Generation.request_mention := billing_problem;
     Generation.request_id := Some "m1";
     Generation.request_context :=
       Some {| Generation.brand_name := Some "Acme";
               Generation.crisis_mode := None |};
     Generation.request_readings :=
       {| Generation.start_time := 0; Generation.think_stamp := 1;
          Generation.think_finish := 1; Generation.finish_time := 2;
          Generation.utcnow := 2; Generation.local_now := noon |} |}.

End Samples.

(* ================================================================== *)
(** * Properties *)

(** ** Boolean comparisons *)

Lemma Qltb_lt x y : Py.Qltb x y = true <-> x < y.
Proof.
  unfold Py.Qltb. rewrite negb_true_iff.
  split; intros H.
  - apply Qnot_le_lt. intros Hle. apply Qle_bool_iff in Hle. congruence.
  - destruct (Qle_bool y x) eqn:E; [|reflexivity].
    apply Qle_bool_iff in E. exfalso. apply (Qlt_not_le _ _ H E).
Qed.

Lemma Qltb_ge x y : Py.Qltb x y = false <-> y <= x.
Proof.
  unfold Py.Qltb. rewrite negb_false_iff. apply Qle_bool_iff.
Qed.

Lemma Qgtb_gt x y : Py.Qgtb x y = true <-> y < x.
Proof. apply Qltb_lt. Qed.

Lemma Qgtb_le x y : Py.Qgtb x y = false <-> x <= y.
Proof. apply Qltb_ge. Qed.


Lemma Ok_inj {A} (a b : A) : Py.Ok a = Py.Ok b -> a = b.
Proof. intros H. injection H as ->. reflexivity. Qed.

Lemma min_spec a b : Py.min a b == Qmin a b.
Proof.
  unfold Py.min. destruct (Py.Qltb b a) eqn:E.
  - apply Qltb_lt in E. symmetry. apply Q.min_r. lra.
  - apply Qltb_ge in E. symmetry. apply Q.min_l. exact E.
Qed.

Lemma max_spec a b : Py.max a b == Qmax a b.
Proof.
  unfold Py.max, Py.Qgtb. destruct (Py.Qltb a b) eqn:E.
  - apply Qltb_lt in E. symmetry. apply Q.max_r. lra.
  - apply Qltb_ge in E. symmetry. apply Q.max_l. exact E.
Qed.

(** [min(1.0, max(0.0, x))] lies in the unit interval. *)
Lemma clamp_unit x : 0 <= Py.min 1 (Py.max 0 x) <= 1.
Proof.
  unfold Py.min, Py.max, Py.Qgtb.
  destruct (Py.Qltb 0 x) eqn:E0.
  - apply Qltb_lt in E0.
    destruct (Py.Qltb x 1) eqn:E1.
    + apply Qltb_lt in E1. lra.
    + lra.
  - destruct (Py.Qltb 0 1) eqn:E1; lra.
Qed.

Lemma clamp_compat x y :
  x == y -> Py.min 1 (Py.max 0 x) == Py.min 1 (Py.max 0 y).
Proof.
  intros E. rewrite !min_spec.
  apply Q.min_compat; [reflexivity|].
  rewrite !max_spec. apply Q.max_compat; [reflexivity|exact E].
Qed.

(** ** Response quality *)

(** C10. The quality score [ResponseQualityTool._run] returns is the sum
    of the bonuses of the checks that passed, a subset of 0.2 (length),
    0.3 (tone), 0.2 (professional language), 0.1 (brand mention) and
    0.2 (call to action); it therefore lies between 0 and 1. *)
Theorem quality_score_subset_sum (response original_mention brand_name : string) :
  let r := ResponseQuality._run response original_mention brand_name in
  (exists b1 b2 b3 b4 b5 : bool,
     ResponseQuality.quality_score r ==
       ResponseQuality.bonus b1 0.2 + ResponseQuality.bonus b2 0.3
       + ResponseQuality.bonus b3 0.2 + ResponseQuality.bonus b4 0.1
       + ResponseQuality.bonus b5 0.2)
  /\ 0 <= ResponseQuality.quality_score r <= 1.
Proof.
  intros r. subst r. unfold ResponseQuality._run.
  split.
  - exists (ResponseQuality.length_ok response),
           (ResponseQuality.tone_ok response),
           (ResponseQuality.professional_ok response),
           (ResponseQuality.brand_ok response brand_name),
           (ResponseQuality.action_ok response).
    destruct (ResponseQuality.length_ok response),
             (ResponseQuality.tone_ok response),
             (ResponseQuality.professional_ok response),
             (ResponseQuality.brand_ok response brand_name),
             (ResponseQuality.action_ok response);
      unfold ResponseQuality.bonus; cbn [ResponseQuality.quality_score]; lra.
  - destruct (ResponseQuality.length_ok response),
             (ResponseQuality.tone_ok response),
             (ResponseQuality.professional_ok response),
             (ResponseQuality.brand_ok response brand_name),
             (ResponseQuality.action_ok response);
      cbn [ResponseQuality.quality_score]; lra.
Qed.

Example quality_run_example :
  ResponseQuality.quality_score
    (ResponseQuality._run "Thank you! Please contact support." "" "Acme") == 0.9
  /\ ResponseQuality.assessment
       (ResponseQuality._run "Thank you! Please contact support." "" "Acme")
     = "excellent".
Proof. split; vm_compute; reflexivity. Qed.

(** ** Risk scorer *)

(** The scorer produces an assessment whenever the quality score is a
    number or is absent (the default 0.5 is used). *)
Lemma risk_score_produced response m qa bc q :
  Py.get (RiskScorer.quality_score qa) (Py.Num 0.5) = Py.Num q ->
  exists ra,
    RiskScorer._calculate_comprehensive_risk_score response m qa bc = Py.Ok ra.
Proof.
  intros Hq. unfold RiskScorer._calculate_comprehensive_risk_score.
  rewrite Hq. cbn [RiskScorer.one_minus Py.bind].
  destruct (String.eqb (Py.get (RiskScorer.sentiment m) "neutral") "negative"),
           (String.eqb (Py.get (RiskScorer.sentiment m) "neutral") "positive"),
           (RiskScorer.high_engagement m), (RiskScorer.crisis_flag m);
    eexists; reflexivity.
Qed.

(** C2. Every assessment the risk scorer produces has an overall score in
    [0,1] that is the clamped sum of its five reported components, and the
    components are: quality (1 - qualityScore) * 0.30; sentiment base * 0.25
    with base 0.2 for negative, 0.05 for positive and 0.1 otherwise;
    virality (0.3 if high engagement else 0.1) * 0.20; content
    min(1, keyword-hit score) * 0.15; crisis (0.4 if a crisis is detected
    else 0.05) * 0.10. *)
Theorem risk_score_clamped_weighted_sum
    (response : string) (m : RiskScorer.mention) (qa : RiskScorer.quality_dict)
    (bc : option RiskScorer.brand_dict) (ra : RiskScorer.risk_assessment) :
  RiskScorer._calculate_comprehensive_risk_score response m qa bc = Py.Ok ra ->
  let c := RiskScorer.component_risks ra in
  0 <= RiskScorer.overall_risk_score ra <= 1
  /\ RiskScorer.overall_risk_score ra == RiskScorer.recompute c
  /\ RiskScorer.recompute c ==
       Qmin 1 (Qmax 0 (RiskScorer.quality_risk c + RiskScorer.sentiment_risk c
                       + RiskScorer.virality_risk c + RiskScorer.content_risk c
                       + RiskScorer.crisis_risk c))
  /\ (exists q, Py.get (RiskScorer.quality_score qa) (Py.Num 0.5) = Py.Num q
                /\ RiskScorer.quality_risk c == (1 - q) * 0.30)
  /\ RiskScorer.sentiment_risk c ==
       RiskScorer.sentiment_base (Py.get (RiskScorer.sentiment m) "neutral") * 0.25
  /\ RiskScorer.virality_risk c ==
       (if RiskScorer.high_engagement m then 0.3 else 0.1) * 0.20
  /\ RiskScorer.content_risk c ==
       Py.min 1 (fst (RiskScorer.content_hits response m)) * 0.15
  /\ RiskScorer.crisis_risk c ==
       (if RiskScorer.crisis_flag m then 0.4 else 0.05) * 0.10.
Proof.
  unfold RiskScorer._calculate_comprehensive_risk_score.
  destruct (Py.get (RiskScorer.quality_score qa) (Py.Num 0.5)) as [q| |s] eqn:Hq;
    cbn [RiskScorer.one_minus Py.bind]; try discriminate.
  unfold RiskScorer.sentiment_base, RiskScorer._analyze_content_risk.
  destruct (RiskScorer.content_hits response m) as [hits tags] eqn:Hh.
  intros H.
  assert (Hrec : forall x, RiskScorer.recompute x ==
            Qmin 1 (Qmax 0 (RiskScorer.quality_risk x + RiskScorer.sentiment_risk x
                       + RiskScorer.virality_risk x + RiskScorer.content_risk x
                       + RiskScorer.crisis_risk x))).
  { intros x. unfold RiskScorer.recompute.
    rewrite min_spec. apply Q.min_compat; [reflexivity|]. apply max_spec. }
  destruct (String.eqb (Py.get (RiskScorer.sentiment m) "neutral") "negative"),
           (String.eqb (Py.get (RiskScorer.sentiment m) "neutral") "positive"),
           (RiskScorer.high_engagement m), (RiskScorer.crisis_flag m);
    apply Ok_inj in H; subst ra;
    cbn [RiskScorer.overall_risk_score RiskScorer.component_risks
         RiskScorer.quality_risk RiskScorer.sentiment_risk
         RiskScorer.virality_risk RiskScorer.content_risk
         RiskScorer.crisis_risk RiskScorer.risk_score fst];
    (split; [apply clamp_unit|]);
    (split; [unfold RiskScorer.recompute;
             cbn [RiskScorer.quality_risk RiskScorer.sentiment_risk
                  RiskScorer.virality_risk RiskScorer.content_risk
                  RiskScorer.crisis_risk]; apply clamp_compat; lra|]);
    (split; [apply Hrec|]);
    (split; [exists q; split; [reflexivity|lra]|]);
    (split; [lra|]); (split; [lra|]); (split; [lra|]); lra.
Qed.

Lemma risk_score_clamped_weighted_sum_witness :
  RiskScorer._calculate_comprehensive_risk_score
    Samples.reply Samples.complaint Samples.average_quality None
  = Py.Ok Samples.complaint_assessment
  /\ 0 <= RiskScorer.overall_risk_score Samples.complaint_assessment <= 1
  /\ RiskScorer.overall_risk_score Samples.complaint_assessment
     == RiskScorer.recompute (RiskScorer.component_risks Samples.complaint_assessment)
  /\ RiskScorer.overall_risk_score Samples.complaint_assessment == 0.225.
Proof.
  assert (H : RiskScorer._calculate_comprehensive_risk_score
                Samples.reply Samples.complaint Samples.average_quality None
              = Py.Ok Samples.complaint_assessment) by (vm_compute; reflexivity).
  split; [exact H|].
  pose proof (risk_score_clamped_weighted_sum _ _ _ _ _ H) as (Hb & Hr & _).
  split; [exact Hb|]. split; [exact Hr|].
  vm_compute. reflexivity.
Defined.

(** ** Approval policy *)

Section ApprovalFacts.

Import Approval.

Variables (self : methods) (cfg : Settings).
Variables (response : string) (m : RiskScorer.mention)
          (qa : RiskScorer.quality_dict) (bc : option RiskScorer.brand_dict).

(** A decision that is computed is returned as it is. *)
Lemma approval_computed d :
  approval_try self cfg response m qa bc = Py.Ok d ->
  _make_autonomous_approval_decision self cfg response m qa bc = d.
Proof.
  unfold _make_autonomous_approval_decision. intros ->. reflexivity.
Qed.

(** An exception in the [try] block is answered by the [except] clause. *)
Lemma approval_caught e :
  approval_try self cfg response m qa bc = Py.Raise e ->
  _make_autonomous_approval_decision self cfg response m qa bc = fail_closed e.
Proof.
  unfold _make_autonomous_approval_decision. intros ->. reflexivity.
Qed.

(** The [try] block raises exactly when one of its steps does. *)
Lemma approval_try_raises e :
  approval_try self cfg response m qa bc = Py.Raise e <->
  step_raises self cfg response m qa bc e.
Proof.
  unfold approval_try. split.
  - destruct (calculate_comprehensive_risk_score self response m qa bc)
      as [ra|e0] eqn:Hra; cbn [Py.bind].
    + destruct (Py.Qltb (RiskScorer.overall_risk_score ra)
                  (AUTO_RESPONSE_RISK_THRESHOLD cfg)) eqn:Hlow;
        cbn [Py.bind]; [discriminate|].
      destruct (Py.Qgtb (RiskScorer.overall_risk_score ra)
                  (HUMAN_REVIEW_RISK_THRESHOLD cfg)) eqn:Hhigh.
      * assert (Hband : band_of cfg (RiskScorer.overall_risk_score ra) = High)
          by (unfold band_of; rewrite Hlow, Hhigh; reflexivity).
        destruct (suggest_appropriate_reviewers self
                    (RiskScorer.assessment_risk_factors ra)) as [rv|e1] eqn:Hrv;
          cbn [Py.bind].
        -- destruct (trigger_human_review_alert self response m ra
                       (high_risk_decision (RiskScorer.assessment_risk_factors ra) rv))
             as [[]|e2] eqn:Htr; cbn [Py.bind]; [discriminate|].
           intros [= <-]. eapply review_alert_raises; eassumption.
        -- intros [= <-]. eapply reviewers_raise; eassumption.
      * assert (Hband : band_of cfg (RiskScorer.overall_risk_score ra) = Medium)
          by (unfold band_of; rewrite Hlow, Hhigh; reflexivity).
        destruct (make_contextual_risk_decision self response m ra bc)
          as [cd|e1] eqn:Hcd; cbn [Py.bind]; [discriminate|].
        intros [= <-]. eapply contextual_decision_raises; eassumption.
    + intros [= <-]. apply risk_score_raises. exact Hra.
  - intros [H | ra H Hb Hrv | ra rv H Hb Hrv Htr | ra H Hb Hcd];
      rewrite H; cbn [Py.bind]; [reflexivity| | |];
      unfold band_of in Hb;
      destruct (Py.Qltb (RiskScorer.overall_risk_score ra)
                  (AUTO_RESPONSE_RISK_THRESHOLD cfg)); try discriminate Hb;
      destruct (Py.Qgtb (RiskScorer.overall_risk_score ra)
                  (HUMAN_REVIEW_RISK_THRESHOLD cfg)); try discriminate Hb.
    + rewrite Hrv. reflexivity.
    + rewrite Hrv. cbn [Py.bind]. rewrite Htr. reflexivity.
    + rewrite Hcd. reflexivity.
Qed.

(** C1. Fail-closed approval: when any internal step of the approval
    decision raises an exception, the risk-score computation included,
    the returned decision has approval_status "pending_approval",
    requires_human_review true and confidence "low". *)
Theorem approval_fails_closed (e : Py.exn) :
  step_raises self cfg response m qa bc e ->
  let d := _make_autonomous_approval_decision self cfg response m qa bc in
  approval_status d = "pending_approval"
  /\ requires_human_review d = true
  /\ confidence d = "low"
  /\ autonomous_decision d = false.
Proof.
  intros Hstep d. subst d.
  apply approval_try_raises in Hstep.
  rewrite (approval_caught e Hstep).
  repeat split.
Qed.

End ApprovalFacts.

Lemma approval_fails_closed_witness :
  let self := Approval.agent Approval.settings Samples.noon in
  let d := Approval._make_autonomous_approval_decision self Approval.settings
             Samples.reply Samples.complaint Samples.broken_quality None in
  Approval.approval_status d = "pending_approval"
  /\ Approval.requires_human_review d = true
  /\ Approval.confidence d = "low"
  /\ Approval.autonomous_decision d = false.
Proof.
  apply (approval_fails_closed
           (Approval.agent Approval.settings Samples.noon) Approval.settings
           Samples.reply Samples.complaint Samples.broken_quality None
           (Py.TypeError "unsupported operand type(s) for -: 'float' and 'NoneType'")).
  apply Approval.risk_score_raises. reflexivity.
Defined.

(** The band a score falls into, when the thresholds are in order. *)
Lemma band_of_spec (cfg : Approval.Settings) (risk : Q) :
  Approval.AUTO_RESPONSE_RISK_THRESHOLD cfg
    <= Approval.HUMAN_REVIEW_RISK_THRESHOLD cfg ->
  (risk < Approval.AUTO_RESPONSE_RISK_THRESHOLD cfg ->
     Approval.band_of cfg risk = Approval.Low)
  /\ (Approval.HUMAN_REVIEW_RISK_THRESHOLD cfg < risk ->
        Approval.band_of cfg risk = Approval.High)
  /\ (Approval.AUTO_RESPONSE_RISK_THRESHOLD cfg <= risk
      /\ risk <= Approval.HUMAN_REVIEW_RISK_THRESHOLD cfg ->
        Approval.band_of cfg risk = Approval.Medium).
Proof.
  intros Hord. unfold Approval.band_of.
  destruct (Py.Qltb risk (Approval.AUTO_RESPONSE_RISK_THRESHOLD cfg)) eqn:Hlow;
    [apply Qltb_lt in Hlow | apply Qltb_ge in Hlow];
    (destruct (Py.Qgtb risk (Approval.HUMAN_REVIEW_RISK_THRESHOLD cfg)) eqn:Hhigh;
     [apply Qgtb_gt in Hhigh | apply Qgtb_le in Hhigh]);
    repeat split; intros; try reflexivity; exfalso; lra.
Qed.

(** What a decision computed in a given band looks like. *)
Lemma approval_try_band (self : Approval.methods) (cfg : Approval.Settings)
    (response : string) (m : RiskScorer.mention) (qa : RiskScorer.quality_dict)
    (bc : option RiskScorer.brand_dict)
    (ra : RiskScorer.risk_assessment) (d : Approval.decision) :
  Approval.calculate_comprehensive_risk_score self response m qa bc = Py.Ok ra ->
  Approval.approval_try self cfg response m qa bc = Py.Ok d ->
  match Approval.band_of cfg (RiskScorer.overall_risk_score ra) with
  | Approval.Low =>
      Approval.approval_status d = "approved_auto"
      /\ Approval.requires_human_review d = false
  | Approval.High =>
      Approval.approval_status d = "pending_approval"
      /\ Approval.requires_human_review d = true
  | Approval.Medium =>
      Approval.confidence d = "medium"
      /\ exists cd,
           Approval.make_contextual_risk_decision self response m ra bc = Py.Ok cd
           /\ Approval.approval_status d = Approval.status cd
           /\ Approval.requires_human_review d = Approval.requires_review cd
  end.
Proof.
  intros Hra. unfold Approval.approval_try, Approval.band_of.
  rewrite Hra. cbn [Py.bind].
  destruct (Py.Qltb (RiskScorer.overall_risk_score ra)
              (Approval.AUTO_RESPONSE_RISK_THRESHOLD cfg)); cbn [Py.bind].
  - intros [= <-]. split; reflexivity.
  - destruct (Py.Qgtb (RiskScorer.overall_risk_score ra)
                (Approval.HUMAN_REVIEW_RISK_THRESHOLD cfg)).
    + destruct (Approval.suggest_appropriate_reviewers self
                  (RiskScorer.assessment_risk_factors ra)) as [rv|e];
        cbn [Py.bind]; [|discriminate].
      destruct (Approval.trigger_human_review_alert self response m ra
                  (Approval.high_risk_decision
                     (RiskScorer.assessment_risk_factors ra) rv)) as [[]|e];
        cbn [Py.bind]; [|discriminate].
      intros [= <-]. split; reflexivity.
    + destruct (Approval.make_contextual_risk_decision self response m ra bc)
        as [cd|e]; cbn [Py.bind]; [|discriminate].
      intros [= <-]. split; [reflexivity|].
      exists cd. repeat split.
Qed.

(** C3. Threshold bands. With the three bands the two thresholds delimit
    (AUTO_RESPONSE_RISK_THRESHOLD <= HUMAN_REVIEW_RISK_THRESHOLD, as the
    defaults 0.3 and 0.7 are), a decision computed without internal error
    is "approved_auto" without human review when the risk is below the
    auto threshold, "pending_approval" with human review when the risk is
    above the human-review threshold, and a risk exactly at either
    threshold is decided by the contextual middle band. *)
Theorem threshold_bands
    (self : Approval.methods) (cfg : Approval.Settings)
    (response : string) (m : RiskScorer.mention) (qa : RiskScorer.quality_dict)
    (bc : option RiskScorer.brand_dict)
    (ra : RiskScorer.risk_assessment) (d : Approval.decision) :
  Approval.AUTO_RESPONSE_RISK_THRESHOLD cfg
    <= Approval.HUMAN_REVIEW_RISK_THRESHOLD cfg ->
  Approval.calculate_comprehensive_risk_score self response m qa bc = Py.Ok ra ->
  Approval.approval_try self cfg response m qa bc = Py.Ok d ->
  let risk := RiskScorer.overall_risk_score ra in
  Approval._make_autonomous_approval_decision self cfg response m qa bc = d
  /\ (risk < Approval.AUTO_RESPONSE_RISK_THRESHOLD cfg ->
        Approval.approval_status d = "approved_auto"
        /\ Approval.requires_human_review d = false)
  /\ (risk > Approval.HUMAN_REVIEW_RISK_THRESHOLD cfg ->
        Approval.approval_status d = "pending_approval"
        /\ Approval.requires_human_review d = true)
  /\ (risk == Approval.AUTO_RESPONSE_RISK_THRESHOLD cfg
      \/ risk == Approval.HUMAN_REVIEW_RISK_THRESHOLD cfg ->
        Approval.band_of cfg risk = Approval.Medium
        /\ Approval.confidence d = "medium"
        /\ exists cd,
             Approval.make_contextual_risk_decision self response m ra bc = Py.Ok cd
             /\ Approval.approval_status d = Approval.status cd
             /\ Approval.requires_human_review d = Approval.requires_review cd).
Proof.
  intros Hord Hra Htry risk.
  pose proof (approval_try_band _ _ _ _ _ _ _ _ Hra Htry) as Hband.
  destruct (band_of_spec cfg risk Hord) as (Hlow & Hhigh & Hmid).
  fold risk in Hband.
  split; [apply approval_computed; exact Htry|].
  split; [|split].
  - intros H. rewrite (Hlow H) in Hband. exact Hband.
  - intros H. rewrite (Hhigh H) in Hband. exact Hband.
  - intros H.
    assert (Hm : Approval.band_of cfg risk = Approval.Medium)
      by (apply Hmid; destruct H as [H|H]; lra).
    rewrite Hm in Hband. split; [exact Hm|exact Hband].
Qed.

Lemma threshold_bands_witness :
  let cfg := Approval.settings in
  let self := Approval.agent cfg Samples.noon in
  let d := Approval._make_autonomous_approval_decision self cfg
             Samples.reply Samples.complaint Samples.average_quality None in
  Approval.AUTO_RESPONSE_RISK_THRESHOLD cfg
    <= Approval.HUMAN_REVIEW_RISK_THRESHOLD cfg
  /\ Approval.approval_try self cfg
       Samples.reply Samples.complaint Samples.average_quality None = Py.Ok d
  /\ Approval.approval_status d = "approved_auto"
  /\ Approval.requires_human_review d = false.
Proof.
  cbv zeta.
  assert (Hord : Approval.AUTO_RESPONSE_RISK_THRESHOLD Approval.settings
                 <= Approval.HUMAN_REVIEW_RISK_THRESHOLD Approval.settings)
    by (vm_compute; discriminate).
  assert (Hra : Approval.calculate_comprehensive_risk_score
                  (Approval.agent Approval.settings Samples.noon)
                  Samples.reply Samples.complaint Samples.average_quality None
                = Py.Ok Samples.complaint_assessment)
    by (vm_compute; reflexivity).
  assert (Htry : Approval.approval_try
                   (Approval.agent Approval.settings Samples.noon) Approval.settings
                   Samples.reply Samples.complaint Samples.average_quality None
                 = Py.Ok (Approval._make_autonomous_approval_decision
                            (Approval.agent Approval.settings Samples.noon)
                            Approval.settings
                            Samples.reply Samples.complaint Samples.average_quality None))
    by (vm_compute; reflexivity).
  split; [exact Hord|]. split; [exact Htry|].
  destruct (threshold_bands _ _ _ _ _ _ _ _ Hord Hra Htry) as (_ & Hlow & _).
  apply Hlow. vm_compute. reflexivity.
Defined.

(** ** Alert rule engine *)

Section MonadFacts.

Import Alerts.

Context {A B : Type}.

Lemma mbind_ok (c : M A) (k : A -> M B) s a s' :
  c s = (Py.Ok a, s') -> mbind c k s = k a s'.
Proof. unfold mbind. intros ->. reflexivity. Qed.

Lemma mbind_raise (c : M A) (k : A -> M B) s e s' :
  c s = (Py.Raise e, s') -> mbind c k s = (Py.Raise e, s').
Proof. unfold mbind. intros ->. reflexivity. Qed.

End MonadFacts.

(** A rule that raises ends the run of the rules there. *)
Lemma run_rules_raises clock rules data platform brand_id s e s' :
  Alerts.rule_raises clock rules data platform brand_id s e s' ->
  Alerts.run_rules clock rules data platform brand_id s = (Py.Raise e, s').
Proof.
  unfold Alerts.run_rules.
  intros [H1 | a1 s1 H1 H2 | a1 s1 a2 s2 H1 H2 H3 | a1 s1 a2 s2 a3 s3 H1 H2 H3 H4].
  - apply mbind_raise. exact H1.
  - rewrite (mbind_ok _ _ _ _ _ H1). apply mbind_raise. exact H2.
  - rewrite (mbind_ok _ _ _ _ _ H1), (mbind_ok _ _ _ _ _ H2).
    apply mbind_raise. exact H3.
  - rewrite (mbind_ok _ _ _ _ _ H1), (mbind_ok _ _ _ _ _ H2),
      (mbind_ok _ _ _ _ _ H3).
    apply mbind_raise. exact H4.
Qed.

(** C4, as stated, fails: the four rules share one [try] block. On a batch
    of one item that carries a high crisis indicator and the sentiment
    label "mixed", the spike, crisis and volume rules return (the crisis
    rule with one alert) and only the deterioration rule raises
    (KeyError 'mixed'); [process_task] then returns no success result and
    none of the alerts. (The exception that leaves [process_task] is the
    TypeError of [self.metrics["errors"] += 1] in the handler.) *)
Lemma rule_isolation_counterexample :
  let clock := Samples.ticking in
  let rules := Alerts.default_rules in
  let data := [Samples.mixed_crisis_item] in
  let platform := Some "twitter" in
  let brand_id := Some "acme" in
  let s0 := snd (Alerts.announce Samples.mixed_task Alerts.initial_state) in
  exists s1 a s2 s3 s4,
    Alerts._check_negative_sentiment_spike clock rules data platform brand_id s0
      = (Py.Ok [], s1)
    /\ Alerts._check_crisis_keywords clock data platform brand_id s1
       = (Py.Ok [a], s2)
    /\ Alerts.alert_severity a = Alerts.high
    /\ Alerts._check_volume_spike clock rules data platform brand_id s2
       = (Py.Ok [], s3)
    /\ Alerts._check_sentiment_deterioration clock rules data platform brand_id s3
       = (Py.Raise (Py.KeyError "mixed"), s4)
    /\ fst (Alerts.process_task clock rules Samples.mixed_task Alerts.initial_state)
       = Py.Raise (Py.TypeError "'AgentMetrics' object is not subscriptable")
    /\ (forall r,
          fst (Alerts.process_task clock rules Samples.mixed_task Alerts.initial_state)
          <> Py.Ok r).
Proof.
  cbv zeta.
  eexists _, _, _, _, _.
  split; [vm_compute; reflexivity|].
  split; [vm_compute; reflexivity|].
  split; [reflexivity|].
  split; [vm_compute; reflexivity|].
  split; [vm_compute; reflexivity|].
  split; [vm_compute; reflexivity|].
  intros r. vm_compute. discriminate.
Qed.

(** C4 (amended). When any of the four rules raises an exception, the
    rules after it are not run, [process_task] returns no success result
    (the alerts the earlier rules computed are not returned, stored or
    counted), and the error is logged. *)
Theorem rule_failure_aborts_cycle
    (clock : nat -> Q) (rules : Alerts.alert_rules) (t : Alerts.task)
    (s : Alerts.state) (e : Py.exn) (s_fail : Alerts.state) :
  Alerts.rule_raises clock rules
    (Py.get (Alerts.analyzed_data t) []) (Alerts.task_platform t)
    (Alerts.task_brand_id t) (snd (Alerts.announce t s)) e s_fail ->
  let r := Alerts.process_task clock rules t s in
  (forall platform brand_id alerts alert_count total_mentions timestamp,
     fst r <> Py.Ok (Alerts.Success platform brand_id alerts alert_count
                       total_mentions timestamp))
  /\ Alerts.historical_data (snd r) = Alerts.historical_data s_fail
  /\ Alerts.ticks (snd r) = Alerts.ticks s_fail
  /\ Alerts.active_alerts (snd r) = Alerts.active_alerts s_fail
  /\ Alerts.alert_stats (snd r) = Alerts.alert_stats s_fail
  /\ Alerts.log (snd r)
     = (Alerts.log s_fail
        ++ [(Alerts.ERROR,
             ("Error in alert management task: " ++ Py.str_exn e)%string)])%list.
Proof.
  intros Hraise r. subst r.
  apply run_rules_raises in Hraise.
  assert (Htry : Alerts.process_task_try clock rules t s = (Py.Raise e, s_fail)).
  { unfold Alerts.process_task_try.
    assert (Ha : Alerts.announce t s = (Py.Ok tt, snd (Alerts.announce t s)))
      by reflexivity.
    rewrite (mbind_ok _ _ _ _ _ Ha).
    apply mbind_raise. exact Hraise. }
  unfold Alerts.process_task, Alerts.try_except. rewrite Htry.
  cbn. repeat split. intros; discriminate.
Qed.

Lemma rule_failure_aborts_cycle_witness :
  let r := Alerts.process_task Samples.ticking Alerts.default_rules
             Samples.mixed_task Alerts.initial_state in
  Alerts.window "acme_twitter_sentiment" (snd r) = []
  /\ Alerts.ticks (snd r) = 3%nat
  /\ Alerts.log (snd r)
     = [(Alerts.INFO, "Processing alerts for 1 items from twitter");
        (Alerts.ERROR, "Error in alert management task: 'mixed'")].
Proof.
  cbv zeta.
  pose (data := [Samples.mixed_crisis_item]).
  pose (s0 := snd (Alerts.announce Samples.mixed_task Alerts.initial_state)).
  pose (r1 := Alerts._check_negative_sentiment_spike Samples.ticking
                Alerts.default_rules data (Some "twitter") (Some "acme") s0).
  pose (r2 := Alerts._check_crisis_keywords Samples.ticking
                data (Some "twitter") (Some "acme") (snd r1)).
  pose (r3 := Alerts._check_volume_spike Samples.ticking
                Alerts.default_rules data (Some "twitter") (Some "acme") (snd r2)).
  pose (r4 := Alerts._check_sentiment_deterioration Samples.ticking
                Alerts.default_rules data (Some "twitter") (Some "acme") (snd r3)).
  assert (H1 : fst r1 = Py.Ok []) by (vm_compute; reflexivity).
  assert (H2 : fst r2 = Py.Ok (Samples.crisis_alerts)) by (vm_compute; reflexivity).
  assert (H3 : fst r3 = Py.Ok []) by (vm_compute; reflexivity).
  assert (H4 : fst r4 = Py.Raise (Py.KeyError "mixed")) by (vm_compute; reflexivity).
  assert (Hraise :
            Alerts.rule_raises Samples.ticking Alerts.default_rules
              (Py.get (Alerts.analyzed_data Samples.mixed_task) [])
              (Alerts.task_platform Samples.mixed_task)
              (Alerts.task_brand_id Samples.mixed_task)
              (snd (Alerts.announce Samples.mixed_task Alerts.initial_state))
              (Py.KeyError "mixed") (snd r4)).
  { eapply Alerts.deterioration_rule_raises.
    - rewrite <- H1. apply surjective_pairing.
    - rewrite <- H2. apply surjective_pairing.
    - rewrite <- H3. apply surjective_pairing.
    - rewrite <- H4. apply surjective_pairing. }
  destruct (rule_failure_aborts_cycle _ _ _ _ _ _ Hraise)
    as (_ & Hh & Hticks & _ & _ & Hlog).
  split; [|split].
  - unfold Alerts.window. rewrite Hh. vm_compute. reflexivity.
  - rewrite Hticks. vm_compute. reflexivity.
  - rewrite Hlog. vm_compute. reflexivity.
Defined.

(** Pruning keeps the entries later than the cutoff, and only those. *)
Lemma recent_later cutoff_time w :
  Forall (fun e => cutoff_time < Alerts.entry_timestamp e)
         (Alerts.recent cutoff_time w).
Proof.
  unfold Alerts.recent. apply List.Forall_forall. intros e He.
  apply List.filter_In in He as [_ He]. apply Qgtb_gt in He. exact He.
Qed.

Lemma recent_app cutoff_time w1 w2 :
  Alerts.recent cutoff_time (w1 ++ w2)
  = (Alerts.recent cutoff_time w1 ++ Alerts.recent cutoff_time w2)%list.
Proof. unfold Alerts.recent. apply List.filter_app. Qed.

Lemma window_insert key w h s :
  Alerts.window key (Alerts.set_historical_data (<[key := w]> h) s) = w.
Proof.
  unfold Alerts.window, Alerts.set_historical_data. cbn.
  rewrite lookup_insert_eq. reflexivity.
Qed.

(** Case analysis on the outcome of the computation under [snd] or
    [fst], one step at a time. *)
Ltac step_monad :=
  repeat match goal with
  | |- context [match ?x with Py.Ok _ => _ | Py.Raise _ => _ end] =>
      destruct x eqn:?; cbn
  | |- context [if ?b then _ else _] => destruct b eqn:?; cbn
  end.

(** The last blocks of the two window rules read the clock at most;
    they leave the windows alone. *)
Lemma volume_spike_alerts_windows clock rules platform current_volume w s :
  Alerts.historical_data
    (snd (Alerts.volume_spike_alerts clock rules platform current_volume w s))
  = Alerts.historical_data s.
Proof.
  unfold Alerts.volume_spike_alerts, Alerts.mbind, Alerts.lift, Alerts.ret,
    Alerts.time_time.
  step_monad; reflexivity.
Qed.

Lemma deterioration_alerts_windows clock rules platform current w s :
  Alerts.historical_data
    (snd (Alerts.deterioration_alerts clock rules platform current w s))
  = Alerts.historical_data s.
Proof.
  unfold Alerts.deterioration_alerts, Alerts.mbind, Alerts.lift, Alerts.ret,
    Alerts.time_time.
  step_monad; reflexivity.
Qed.

(** The volume rule up to the pruning: it stores the batch size, prunes,
    and hands the pruned window to its last block. *)
Lemma volume_rule_prefix clock rules data platform brand_id s :
  let key := Alerts.volume_key brand_id platform in
  let w' :=
    Alerts.recent (clock (S (Alerts.ticks s)) - Alerts.volume_retention)
      (Alerts.window key s
       ++ [Alerts.VolumeEntry (length data) (clock (Alerts.ticks s))]) in
  exists s_p,
    Alerts._check_volume_spike clock rules data platform brand_id s
    = Alerts.volume_spike_alerts clock rules platform (length data) w' s_p
    /\ Alerts.window key s_p = w'
    /\ Alerts.ticks s_p = S (S (Alerts.ticks s)).
Proof.
  cbv zeta.
  unfold Alerts._check_volume_spike.
  unfold Alerts.mbind at 1, Alerts.ensure_window.
  set (key := Alerts.volume_key brand_id platform).
  unfold Alerts.window.
  destruct (Alerts.historical_data s !! key) as [w|] eqn:Hw.
  - eexists. split.
    + unfold Alerts.mbind, Alerts.read_window, Alerts.time_time,
        Alerts.write_window, Alerts.prune_window, Alerts.window; cbn.
      unfold Alerts.mbind, Alerts.read_window, Alerts.write_window, Alerts.window;
        cbn.
      rewrite Hw, !lookup_insert_eq. cbn. reflexivity.
    + split; [|reflexivity].
      unfold Alerts.window. cbn. rewrite lookup_insert_eq. reflexivity.
  - eexists. split.
    + unfold Alerts.mbind, Alerts.read_window, Alerts.time_time,
        Alerts.write_window, Alerts.prune_window, Alerts.window; cbn.
      unfold Alerts.mbind, Alerts.read_window, Alerts.write_window, Alerts.window;
        cbn.
      rewrite !lookup_insert_eq. cbn. reflexivity.
    + split; [|reflexivity].
      unfold Alerts.window. cbn. rewrite lookup_insert_eq. reflexivity.
Qed.

(** The sentiment rule up to the pruning: on a non-empty batch of known
    labels the rule stores the ratio, prunes, and hands the pruned window
    to its last block. *)
Lemma sentiment_rule_prefix clock rules data platform brand_id s counts :
  data <> [] ->
  Alerts.count_sentiments Alerts.no_counts data = Py.Ok counts ->
  let key := Alerts.sentiment_key brand_id platform in
  let w' :=
    Alerts.recent (clock (S (Alerts.ticks s)) - Alerts.sentiment_retention)
      (Alerts.window key s
       ++ [Alerts.SentimentEntry (Alerts.negative_ratio counts (length data))
             (clock (Alerts.ticks s))]) in
  exists s_p,
    Alerts._check_sentiment_deterioration clock rules data platform brand_id s
    = Alerts.deterioration_alerts clock rules platform
        (Alerts.negative_ratio counts (length data)) w' s_p
    /\ Alerts.window key s_p = w'
    /\ Alerts.ticks s_p = S (S (Alerts.ticks s)).
Proof.
  intros Hdata Hcounts. cbv zeta.
  unfold Alerts._check_sentiment_deterioration.
  destruct data as [|it data']; [congruence|].
  set (data := it :: data') in *.
  unfold Alerts.mbind at 1, Alerts.lift at 1. rewrite Hcounts.
  unfold Alerts.mbind at 1, Alerts.ensure_window.
  set (key := Alerts.sentiment_key brand_id platform).
  unfold Alerts.window.
  destruct (Alerts.historical_data s !! key) as [w|] eqn:Hw.
  - eexists. split.
    + unfold Alerts.mbind, Alerts.read_window, Alerts.time_time,
        Alerts.write_window, Alerts.prune_window, Alerts.window; cbn.
      unfold Alerts.mbind, Alerts.read_window, Alerts.write_window, Alerts.window;
        cbn.
      rewrite Hw, !lookup_insert_eq. cbn. reflexivity.
    + split; [|reflexivity].
      unfold Alerts.window. cbn. rewrite lookup_insert_eq. reflexivity.
  - eexists. split.
    + unfold Alerts.mbind, Alerts.read_window, Alerts.time_time,
        Alerts.write_window, Alerts.prune_window, Alerts.window; cbn.
      unfold Alerts.mbind, Alerts.read_window, Alerts.write_window, Alerts.window;
        cbn.
      rewrite !lookup_insert_eq. cbn. reflexivity.
    + split; [|reflexivity].
      unfold Alerts.window. cbn. rewrite lookup_insert_eq. reflexivity.
Qed.

Lemma volume_window_pruned clock rules data platform brand_id s :
  let s' := snd (Alerts._check_volume_spike clock rules data platform brand_id s) in
  Alerts.window (Alerts.volume_key brand_id platform) s'
  = Alerts.recent (clock (S (Alerts.ticks s)) - Alerts.volume_retention)
      (Alerts.window (Alerts.volume_key brand_id platform) s
       ++ [Alerts.VolumeEntry (length data) (clock (Alerts.ticks s))]).
Proof.
  cbv zeta.
  destruct (volume_rule_prefix clock rules data platform brand_id s)
    as (s_p & Heq & Hw & _).
  rewrite Heq. rewrite <- Hw at 2.
  unfold Alerts.window. rewrite volume_spike_alerts_windows. reflexivity.
Qed.

Lemma sentiment_window_pruned clock rules data platform brand_id s counts :
  data <> [] ->
  Alerts.count_sentiments Alerts.no_counts data = Py.Ok counts ->
  let s' :=
    snd (Alerts._check_sentiment_deterioration clock rules data platform brand_id s) in
  Alerts.window (Alerts.sentiment_key brand_id platform) s'
  = Alerts.recent (clock (S (Alerts.ticks s)) - Alerts.sentiment_retention)
      (Alerts.window (Alerts.sentiment_key brand_id platform) s
       ++ [Alerts.SentimentEntry (Alerts.negative_ratio counts (length data))
             (clock (Alerts.ticks s))]).
Proof.
  intros Hdata Hcounts. cbv zeta.
  destruct (sentiment_rule_prefix clock rules data platform brand_id s counts
              Hdata Hcounts) as (s_p & Heq & Hw & _).
  rewrite Heq. rewrite <- Hw at 2.
  unfold Alerts.window. rewrite deterioration_alerts_windows. reflexivity.
Qed.

(** An empty batch, or a batch with a label the rule does not count,
    leaves the agent as it was. *)
Lemma sentiment_rule_skipped clock rules data platform brand_id s :
  (data = [] ->
   Alerts._check_sentiment_deterioration clock rules data platform brand_id s
   = (Py.Ok [], s))
  /\ (forall e,
        Alerts.count_sentiments Alerts.no_counts data = Py.Raise e ->
        Alerts._check_sentiment_deterioration clock rules data platform brand_id s
        = (Py.Raise e, s)).
Proof.
  split.
  - intros ->. reflexivity.
  - intros e He. unfold Alerts._check_sentiment_deterioration.
    destruct data as [|it data']; [discriminate He|].
    unfold Alerts.mbind at 1, Alerts.lift at 1. rewrite He. reflexivity.
Qed.

(** C7, as stated, fails for the sentiment window: an evaluation of an
    empty batch returns before the window is touched. After one sample
    stored at time 0, an empty batch evaluated when the clock reads 100000
    (more than 24 hours later) leaves that sample in the window. *)
Lemma sentiment_window_stale_counterexample :
  let clock := Samples.next_day in
  let rules := Alerts.default_rules in
  let s1 := snd (Alerts._check_sentiment_deterioration clock rules
                   [Samples.neutral_item] (Some "twitter") (Some "acme")
                   Alerts.initial_state) in
  let s2 := snd (Alerts._check_sentiment_deterioration clock rules
                   [] (Some "twitter") (Some "acme") s1) in
  Alerts.window "acme_twitter_sentiment" s2 = [Alerts.SentimentEntry 0 0]
  /\ clock (Alerts.ticks s2) == 100000
  /\ ~ Forall (fun e => clock (Alerts.ticks s2) - Alerts.sentiment_retention
                        < Alerts.entry_timestamp e)
         (Alerts.window (Alerts.sentiment_key (Some "acme") (Some "twitter")) s2).
Proof.
  cbv zeta.
  split; [vm_compute; reflexivity|].
  split; [vm_compute; reflexivity|].
  intros H. apply List.Forall_forall with (x := Alerts.SentimentEntry 0 0) in H.
  - vm_compute in H. discriminate H.
  - vm_compute. left. reflexivity.
Qed.

(** C7 (amended). Retention of the historical windows. After every
    volume-spike evaluation the (brand, platform) volume window holds only
    entries later than seven days before the clock reading the pruning
    took; after every sentiment-deterioration evaluation of a non-empty
    batch whose labels are positive, negative or neutral, the sentiment
    window holds only entries later than 24 hours before that reading.
    Whatever the window held before, and however many batches were fed, it
    is pruned before the baseline is computed. An empty batch leaves the
    sentiment window untouched. *)
Theorem window_retention
    (clock : nat -> Q) (rules : Alerts.alert_rules) (data : list Alerts.item)
    (platform brand_id : option string) (s : Alerts.state) :
  let now := clock (S (Alerts.ticks s)) in
  Forall (fun e => now - Alerts.volume_retention < Alerts.entry_timestamp e)
    (Alerts.window (Alerts.volume_key brand_id platform)
       (snd (Alerts._check_volume_spike clock rules data platform brand_id s)))
  /\ (data <> [] ->
      (exists counts, Alerts.count_sentiments Alerts.no_counts data = Py.Ok counts) ->
      Forall (fun e => now - Alerts.sentiment_retention < Alerts.entry_timestamp e)
        (Alerts.window (Alerts.sentiment_key brand_id platform)
           (snd (Alerts._check_sentiment_deterioration clock rules data
                   platform brand_id s))))
  /\ (data = [] ->
      snd (Alerts._check_sentiment_deterioration clock rules data
             platform brand_id s) = s).
Proof.
  intros now. split; [|split].
  - rewrite volume_window_pruned. apply recent_later.
  - intros Hdata [counts Hcounts].
    rewrite (sentiment_window_pruned _ _ _ _ _ _ counts Hdata Hcounts).
    apply recent_later.
  - intros Hdata.
    rewrite (proj1 (sentiment_rule_skipped clock rules data platform brand_id s) Hdata).
    reflexivity.
Qed.

Lemma window_retention_witness :
  let s' := snd (Alerts._check_sentiment_deterioration Samples.ticking
                   Alerts.default_rules [Samples.negative_item]
                   (Some "twitter") (Some "acme") Samples.calm_history) in
  [Samples.negative_item] <> []
  /\ (exists counts,
        Alerts.count_sentiments Alerts.no_counts [Samples.negative_item]
        = Py.Ok counts)
  /\ Forall (fun e => Samples.ticking 1 - Alerts.sentiment_retention
                      < Alerts.entry_timestamp e)
       (Alerts.window "acme_twitter_sentiment" s').
Proof.
  cbv zeta.
  assert (Hdata : [Samples.negative_item] <> []) by discriminate.
  assert (Hcounts : exists counts,
             Alerts.count_sentiments Alerts.no_counts [Samples.negative_item]
             = Py.Ok counts) by (eexists; reflexivity).
  split; [exact Hdata|]. split; [exact Hcounts|].
  exact (proj1 (proj2 (window_retention Samples.ticking Alerts.default_rules
                         [Samples.negative_item] (Some "twitter") (Some "acme")
                         Samples.calm_history)) Hdata Hcounts).
Defined.

(** ** Worker mailbox *)

(** An inbox reached from a new agent has capacity 1000 and never holds
    more than 1000 messages. *)
Lemma inbox_bounded {A} (self : Mailbox.agent A) :
  Mailbox.reachable self ->
  Mailbox.maxsize (Mailbox.message_queue self) = 1000%Z
  /\ (length (Mailbox.items (Mailbox.message_queue self)) <= 1000)%nat.
Proof.
  induction 1 as [|self message self' Hreach [IHmax IHlen] Hrecv
                  |self item q Hreach [IHmax IHlen] Hget].
  - split; [reflexivity|cbn; lia].
  - unfold Mailbox.receive_message, Mailbox.put, Mailbox.put_nowait in Hrecv.
    destruct (Mailbox.full (Mailbox.message_queue self)) eqn:Hfull;
      [discriminate|].
    injection Hrecv as <-. cbn.
    split; [exact IHmax|].
    unfold Mailbox.full, Mailbox.qsize in Hfull. rewrite IHmax in Hfull.
    cbn in Hfull. apply Z.leb_gt in Hfull.
    rewrite length_app. cbn. lia.
  - unfold Mailbox.get_nowait in Hget.
    destruct (Mailbox.items (Mailbox.message_queue self)) as [|x rest] eqn:Hitems;
      [discriminate|].
    injection Hget as _ <-. cbn.
    split; [exact IHmax|]. cbn in IHlen. lia.
Qed.

(** C5, as stated, fails: a delivery to a full inbox is not rejected and
    not logged; [receive_message] awaits [Queue.put], which suspends the
    sender. Here the inbox holds 1000 messages. *)
Lemma full_inbox_suspends_counterexample :
  let self : Mailbox.agent nat :=
    {| Mailbox.message_queue :=
         {| Mailbox.maxsize := 1000; Mailbox.items := repeat 0%nat 1000 |};
       Mailbox.log := [] |} in
  Mailbox.full (Mailbox.message_queue self) = true
  /\ Mailbox.receive_message self 7%nat = Mailbox.Suspended
  /\ (forall self', Mailbox.receive_message self 7%nat <> Mailbox.Rejected self').
Proof.
  cbv zeta.
  assert (H : Mailbox.receive_message
                {| Mailbox.message_queue :=
                     {| Mailbox.maxsize := 1000;
                        Mailbox.items := repeat 0%nat 1000 |};
                   Mailbox.log := [] |} 7%nat = Mailbox.Suspended)
    by (vm_compute; reflexivity).
  split; [vm_compute; reflexivity|].
  split; [exact H|].
  intros self'. rewrite H. discriminate.
Qed.

(** C5 (amended). Bounded mailbox: every worker's inbox has capacity 1000
    and never holds more; a message delivered via receive_message to an
    inbox that is not full is appended, and a delivery to a full inbox
    suspends the sender until a slot is free: the message is neither
    rejected nor logged. *)
Theorem inbox_bounded_and_blocking {A} (self : Mailbox.agent A) (message : A) :
  Mailbox.reachable self ->
  Mailbox.maxsize (Mailbox.message_queue self) = 1000%Z
  /\ (length (Mailbox.items (Mailbox.message_queue self)) <= 1000)%nat
  /\ match Mailbox.receive_message self message with
     | Mailbox.Delivered self' =>
         (length (Mailbox.items (Mailbox.message_queue self)) < 1000)%nat
         /\ Mailbox.items (Mailbox.message_queue self')
            = (Mailbox.items (Mailbox.message_queue self) ++ [message])%list
         /\ Mailbox.log self' = Mailbox.log self
     | Mailbox.Suspended =>
         length (Mailbox.items (Mailbox.message_queue self)) = 1000%nat
     | Mailbox.Rejected _ => False
     end.
Proof.
  intros Hreach. destruct (inbox_bounded self Hreach) as [Hmax Hlen].
  split; [exact Hmax|]. split; [exact Hlen|].
  unfold Mailbox.receive_message, Mailbox.put, Mailbox.put_nowait.
  destruct (Mailbox.full (Mailbox.message_queue self)) eqn:Hfull;
    unfold Mailbox.full, Mailbox.qsize in Hfull; rewrite Hmax in Hfull;
    cbn in Hfull.
  - apply Z.leb_le in Hfull. lia.
  - apply Z.leb_gt in Hfull. cbn. repeat split. lia.
Qed.

Lemma inbox_bounded_and_blocking_witness :
  match Mailbox.receive_message (@Mailbox.new_agent nat) 7%nat with
  | Mailbox.Delivered self' =>
      Mailbox.items (Mailbox.message_queue self') = [7%nat]
  | _ => False
  end.
Proof.
  pose proof (inbox_bounded_and_blocking (@Mailbox.new_agent nat) 7%nat
                Mailbox.reach_new) as (_ & _ & H).
  destruct (Mailbox.receive_message (@Mailbox.new_agent nat) 7%nat) as [self'| |self'].
  - destruct H as (_ & H & _). exact H.
  - discriminate H.
  - exact H.
Defined.

(** ** Workflow routing *)

(** C8. Routing after data collection: "abort" when collect_data is among
    the failed steps and the retry counter has reached its cap of 2;
    "retry_collection", with the counter advanced by one, when it failed
    and the counter is below 2; "abort" when it did not fail and no
    mention was collected; "analyze_sentiment" otherwise. *)
Theorem route_after_data_collection (state : Workflow.AgentWorkflowState) :
  let failed := Workflow.mem "collect_data" (Workflow.failed_steps state) in
  let retries :=
    Py.get (Workflow.data_collection_retries (Workflow.context state)) 0%Z in
  let collected :=
    length (Py.get (Workflow.mentions (Workflow.collected_data state)) []) in
  let '(route, state') := Workflow._route_after_data_collection state in
  (failed = true -> (2 <= retries)%Z -> route = "abort" /\ state' = state)
  /\ (failed = true -> (retries < 2)%Z ->
      route = "retry_collection"
      /\ Workflow.data_collection_retries (Workflow.context state')
         = Some (retries + 1)%Z
      /\ Workflow.failed_steps state' = Workflow.failed_steps state
      /\ Workflow.collected_data state' = Workflow.collected_data state)
  /\ (failed = false -> collected = 0%nat -> route = "abort" /\ state' = state)
  /\ (failed = false -> (0 < collected)%nat ->
      route = "analyze_sentiment" /\ state' = state).
Proof.
  cbv zeta. unfold Workflow._route_after_data_collection.
  destruct (Workflow.mem "collect_data" (Workflow.failed_steps state)).
  - destruct (Z.ltb_spec
                (Py.get (Workflow.data_collection_retries (Workflow.context state)) 0%Z)
                2);
      repeat split; intros; try discriminate; try lia.
  - destruct (Py.get (Workflow.mentions (Workflow.collected_data state)) [])
      as [|m l]; cbn [length];
      [|replace (Z.of_nat (S (length l)) >? 0)%Z with true
          by (symmetry; apply Z.gtb_lt; lia)];
      repeat split; intros; try discriminate; try lia.
Qed.

Lemma route_after_data_collection_witness :
  let state :=
    {| Workflow.goal := "monitor";
       Workflow.context :=
         {| Workflow.priority := None; Workflow.crisis_mode := None;
            Workflow.urgency := None;
            Workflow.data_collection_retries := Some 2%Z |};
       Workflow.current_step := "collect_data";
       Workflow.completed_steps := ["initialize_workflow"];
       Workflow.failed_steps := ["collect_data"];
       Workflow.collected_data := {| Workflow.mentions := None |};
       Workflow.quality_average := None;
       Workflow.crisis_score := None;
       Workflow.auto_approved := None;
       Workflow.requires_review := None |} in
  fst (Workflow._route_after_data_collection state) = "abort".
Proof.
  cbv zeta.
  match goal with
  | |- fst (Workflow._route_after_data_collection ?st) = _ =>
      pose proof (route_after_data_collection st) as H;
      cbv zeta in H;
      destruct (Workflow._route_after_data_collection st) as [route state'];
      destruct H as (H & _);
      exact (proj1 (H eq_refl ltac:(cbn; lia)))
  end.
Defined.

(** ** Running averages *)

Lemma inject_S (n : nat) :
  inject_Z (Z.of_nat (S n)) - 1 == inject_Z (Z.of_nat n).
Proof.
  rewrite Nat2Z.inj_succ. unfold Z.succ. rewrite inject_Z_plus. ring.
Qed.

Lemma inject_S_nonzero (n : nat) : ~ inject_Z (Z.of_nat (S n)) == 0.
Proof.
  intros H. unfold Qeq in H. cbn in H. lia.
Qed.

(** One update keeps "average times count = sum of the samples". *)
Lemma running_average_step (avg : Q) (n : nat) (sample sum : Q) :
  avg * inject_Z (Z.of_nat n) == sum ->
  Metrics.running_average avg (S n) sample * inject_Z (Z.of_nat (S n))
  == sum + sample.
Proof.
  intros H. unfold Metrics.running_average.
  rewrite inject_S, H.
  field. apply inject_S_nonzero.
Qed.

(** The invariant of the orchestration metrics along any run. *)
Lemma orchestration_invariant (tasks : list (bool * Q))
    (self : Metrics.orchestration_metrics) (sum : Q) :
  Metrics.avg_completion_time self * inject_Z (Z.of_nat (Metrics.total_tasks self))
    == sum ->
  let self' :=
    fold_left (fun self task =>
                 Metrics._update_orchestration_metrics self (fst task) (snd task))
              tasks self in
  Metrics.total_tasks self' = (Metrics.total_tasks self + length tasks)%nat
  /\ Metrics.avg_completion_time self'
     * inject_Z (Z.of_nat (Metrics.total_tasks self'))
     == sum + Metrics.history_total (map snd tasks).
Proof.
  revert self sum. induction tasks as [|[ok d] tasks IH]; intros self sum H;
    cbn [fold_left map length Metrics.history_total fold_right fst snd].
  - split; [lia|]. rewrite H. ring.
  - specialize (IH (Metrics._update_orchestration_metrics self ok d) (sum + d)).
    cbn in IH. destruct IH as [IHn IHavg].
    + apply running_average_step. exact H.
    + split; [rewrite IHn; lia|]. rewrite IHavg.
      unfold Metrics.history_total. ring.
Qed.

Lemma response_invariant (results : list (Metrics.generation_result * Q))
    (self : Metrics.response_metrics) (sum_time sum_quality : Q) :
  Metrics.avg_generation_time self
    * inject_Z (Z.of_nat (Metrics.total_responses_generated self)) == sum_time ->
  Metrics.avg_quality_score self
    * inject_Z (Z.of_nat (Metrics.total_responses_generated self)) == sum_quality ->
  let self' :=
    fold_left (fun self r => Metrics._update_response_metrics self (fst r) (snd r))
              results self in
  Metrics.total_responses_generated self'
  = (Metrics.total_responses_generated self + length results)%nat
  /\ Metrics.avg_generation_time self'
     * inject_Z (Z.of_nat (Metrics.total_responses_generated self'))
     == sum_time + Metrics.history_total (map snd results)
  /\ Metrics.avg_quality_score self'
     * inject_Z (Z.of_nat (Metrics.total_responses_generated self'))
     == sum_quality
        + Metrics.history_total
            (map (fun r => Py.get (Metrics.quality_score (fst r)) 0) results).
Proof.
  revert self sum_time sum_quality.
  induction results as [|[res t] results IH]; intros self st sq Ht Hq;
    cbn [fold_left map length Metrics.history_total fold_right fst snd].
  - split; [lia|]. rewrite Ht, Hq. split; ring.
  - specialize (IH (Metrics._update_response_metrics self res t)
                   (st + t) (sq + Py.get (Metrics.quality_score res) 0)).
    cbn in IH.
    assert (Hn : Metrics.total_responses_generated
                   (Metrics._update_response_metrics self res t)
                 = S (Metrics.total_responses_generated self))
      by (unfold Metrics._update_response_metrics;
          destruct (Py.get (Metrics.knowledge_retrieved res) false); reflexivity).
    assert (Hat : Metrics.avg_generation_time
                    (Metrics._update_response_metrics self res t)
                  = Metrics.running_average (Metrics.avg_generation_time self)
                      (S (Metrics.total_responses_generated self)) t)
      by (unfold Metrics._update_response_metrics;
          destruct (Py.get (Metrics.knowledge_retrieved res) false); reflexivity).
    assert (Haq : Metrics.avg_quality_score
                    (Metrics._update_response_metrics self res t)
                  = Metrics.running_average (Metrics.avg_quality_score self)
                      (S (Metrics.total_responses_generated self))
                      (Py.get (Metrics.quality_score res) 0))
      by (unfold Metrics._update_response_metrics;
          destruct (Py.get (Metrics.knowledge_retrieved res) false); reflexivity).
    rewrite Hn, Hat, Haq in IH.
    destruct IH as (IHn & IHt & IHq).
    + apply running_average_step. exact Ht.
    + apply running_average_step. exact Hq.
    + split; [rewrite IHn; lia|]. rewrite IHt, IHq.
      unfold Metrics.history_total. split; ring.
Qed.

Lemma mean_of_product (avg sum : Q) (n : nat) :
  (0 < n)%nat ->
  avg * inject_Z (Z.of_nat n) == sum ->
  avg == sum / inject_Z (Z.of_nat n).
Proof.
  intros Hn H. rewrite <- H. field.
  destruct n as [|n]; [lia|]. apply inject_S_nonzero.
Qed.

(** C9. The incremental running average equals the full-history mean:
    from an average of 0.0 and a count of 0, one update
    newAvg = (oldAvg * (n - 1) + sample) / n per completed task leaves,
    after every task, the arithmetic mean of all samples seen so far, in
    the orchestration metrics (completion time) and in the response
    metrics (generation time and quality score). *)
Theorem running_average_is_history_mean
    (tasks : list (bool * Q)) (results : list (Metrics.generation_result * Q)) :
  (tasks <> [] ->
   Metrics.total_tasks (Metrics.after_tasks tasks) = length tasks
   /\ Metrics.avg_completion_time (Metrics.after_tasks tasks)
      == Metrics.history_mean (map snd tasks))
  /\ (results <> [] ->
      Metrics.avg_generation_time (Metrics.after_responses results)
      == Metrics.history_mean (map snd results)
      /\ Metrics.avg_quality_score (Metrics.after_responses results)
         == Metrics.history_mean
              (map (fun r => Py.get (Metrics.quality_score (fst r)) 0) results)).
Proof.
  split.
  - intros Hne.
    destruct (orchestration_invariant tasks Metrics.initial_orchestration_metrics 0)
      as [Hn Havg]; [cbn; ring|].
    fold (Metrics.after_tasks tasks) in Hn, Havg. cbn in Hn.
    split; [exact Hn|].
    unfold Metrics.history_mean. rewrite length_map, <- Hn.
    apply mean_of_product.
    + rewrite Hn. destruct tasks; [congruence|cbn; lia].
    + rewrite Havg. ring.
  - intros Hne.
    destruct (response_invariant results Metrics.initial_response_metrics 0 0)
      as (Hn & Ht & Hq); [cbn; ring|cbn; ring|].
    fold (Metrics.after_responses results) in Hn, Ht, Hq. cbn in Hn.
    assert (Hpos : (0 < Metrics.total_responses_generated
                           (Metrics.after_responses results))%nat)
      by (rewrite Hn; destruct results; [congruence|cbn; lia]).
    unfold Metrics.history_mean. rewrite !length_map, <- Hn.
    split; apply mean_of_product; try exact Hpos.
    + rewrite Ht. ring.
    + rewrite Hq. ring.
Qed.

Lemma running_average_is_history_mean_witness :
  Metrics.avg_completion_time
    (Metrics.after_tasks [(true, 2); (false, 4); (true, 9)]) == 5.
Proof.
  destruct (running_average_is_history_mean
              [(true, 2); (false, 4); (true, 9)] []) as [H _].
  rewrite (proj2 (H ltac:(discriminate))).
  vm_compute. reflexivity.
Defined.

(** ** Sentiment deterioration *)

Lemma Qgtb_compat x x' y y' :
  x == x' -> y == y' -> Py.Qgtb x y = Py.Qgtb x' y'.
Proof.
  intros Hx Hy.
  destruct (Py.Qgtb x y) eqn:E; symmetry.
  - apply Qgtb_gt in E. apply Qgtb_gt. rewrite <- Hx, <- Hy. exact E.
  - apply Qgtb_le in E. apply Qgtb_le. rewrite <- Hx, <- Hy. exact E.
Qed.

(** The rounding at work: the floats nearest to 0.1 and to 0.3, the
    sums and differences Python prints as 0.30000000000000004, a tie
    below the smallest float, and the two roundings to decimals of
    2.675 and 0.8125. *)
Lemma binary64_examples :
  Py.fl 0.1 = 3602879701896397 # 36028797018963968
  /\ Py.fl 0.3 = 5404319552844595 # 18014398509481984
  /\ Py.fadd 0.1 0.2 = 1351079888211149 # 4503599627370496
  /\ Py.fsub 0.8 0.5 = 1351079888211149 # 4503599627370496
  /\ Py.fl 0.3 < Py.fsub 0.8 0.5
  /\ Py.fdiv (Py.fsum (repeat 0.8 15)) 15 = 7205759403792795 # 9007199254740992
  /\ Py.fl 0.8 < Py.fdiv (Py.fsum (repeat 0.8 15)) 15
  /\ Py.fl (Qpower 2 (-1075)) = 0
  /\ Py.round_to 2 2.675 = Py.fl 2.67
  /\ Py.round_to 3 0.8125 = Py.fl 0.812
  /\ Py.fl (Py.fl (1 # 3)) = Py.fl (1 # 3).
Proof.
  repeat (split; [vm_compute; reflexivity|]). vm_compute. reflexivity.
Qed.

(** On a window of sentiment entries the sum of the ratios is defined
    and is the float sum, taken from left to right. *)
Lemma fsum_of_ratios (w : list Alerts.entry) (acc : Q) :
  forallb Alerts.is_sentiment_entry w = true ->
  Alerts.fsum_from Alerts.entry_negative_ratio acc w
  = Py.Ok (fold_left Py.fadd (map Alerts.ratio_of w) acc).
Proof.
  revert acc. induction w as [|e w IH]; intros acc Hall; [reflexivity|].
  cbn [forallb] in Hall. apply andb_true_iff in Hall as [He Hw].
  destruct e as [v ts|r ts]; [discriminate He|].
  cbn [Alerts.fsum_from Alerts.entry_negative_ratio Py.bind map fold_left
       Alerts.ratio_of].
  apply IH. exact Hw.
Qed.

(** The last block of the rule, on a window whose entries before the
    last are sentiment entries. *)
Lemma deterioration_block clock rules platform current history last s :
  forallb Alerts.is_sentiment_entry history = true ->
  let w := (history ++ [last])%list in
  let historical_mean :=
    Py.fdiv (Py.fsum (map Alerts.ratio_of history))
            (inject_Z (Z.of_nat (length history))) in
  let deterioration := Py.fsub current historical_mean in
  let r := Alerts.deterioration_alerts clock rules platform current w s in
  ((length w < 5)%nat -> fst r = Py.Ok [])
  /\ ((5 <= length w)%nat ->
      (Py.fl (Alerts.threshold_change rules) < deterioration ->
       exists a, fst r = Py.Ok [a]
                 /\ Alerts.type a = Alerts.sentiment_deterioration
                 /\ Alerts.platform a = platform
                 /\ Alerts.timestamp a = clock (Alerts.ticks s)
                 /\ (Py.fl 0.5 < deterioration ->
                     Alerts.alert_severity a = Alerts.high)
                 /\ (deterioration <= Py.fl 0.5 ->
                     Alerts.alert_severity a = Alerts.medium))
      /\ (deterioration <= Py.fl (Alerts.threshold_change rules) ->
          fst r = Py.Ok [])).
Proof.
  intros Hall w historical_mean deterioration r. subst r.
  unfold Alerts.deterioration_alerts.
  assert (Hlen : length w = S (length history))
    by (subst w; rewrite length_app; cbn; lia).
  split.
  - intros Hshort. apply Nat.leb_gt in Hshort. rewrite Hshort. reflexivity.
  - intros Hlong.
    assert (Hleb : (5 <=? length w)%nat = true) by (apply Nat.leb_le; exact Hlong).
    rewrite Hleb.
    assert (Hbut : Alerts.all_but_last w = history)
      by (subst w; unfold Alerts.all_but_last; apply removelast_last).
    rewrite Hbut.
    assert (Hnz : ~ inject_Z (Z.of_nat (length history)) == 0).
    { intros H0. unfold Qeq in H0. cbn in H0. lia. }
    erewrite mbind_ok
      by (unfold Alerts.lift, Alerts.fsum_of;
          rewrite (fsum_of_ratios history 0 Hall); reflexivity).
    erewrite mbind_ok.
    2:{ unfold Alerts.lift, Alerts.fdiv.
        replace (Z.of_nat (length w) - 1)%Z with (Z.of_nat (length history))
          by lia.
        destruct (Qeq_bool (inject_Z (Z.of_nat (length history))) 0) eqn:Hz;
          [apply Qeq_bool_iff in Hz; contradiction|reflexivity]. }
    cbv beta zeta.
    fold (Py.fsum (map Alerts.ratio_of history)).
    fold historical_mean. fold deterioration.
    clearbody deterioration historical_mean.
    destruct (Py.Qgtb deterioration (Py.fl (Alerts.threshold_change rules))) eqn:Hthr;
      [apply Qgtb_gt in Hthr | apply Qgtb_le in Hthr];
      (destruct (Py.Qgtb deterioration (Py.fl 0.5)) eqn:H05;
       [apply Qgtb_gt in H05 | apply Qgtb_le in H05]);
      unfold Alerts.mbind, Alerts.time_time, Alerts.ret; cbn [fst];
      (split; [intros Hgt | intros Hle]);
      try (exfalso; lra); try reflexivity;
      (eexists; split; [reflexivity|];
       cbn [Alerts.type Alerts.platform Alerts.timestamp Alerts.alert_severity];
       repeat split; intros; try reflexivity; exfalso; lra).
Qed.

(** C6. Sentiment-deterioration rule. The current negative ratio is
    appended to the 24-hour window; when the window then holds at least 5
    samples the historical mean is taken over all its entries but the one
    just appended, and a sentiment_deterioration alert is emitted if and
    only if the current ratio exceeds that mean by more than the configured
    delta (0.3), with severity "high" when the difference exceeds 0.5 and
    "medium" otherwise. The ratio, the mean and the difference are the
    floats the program computes, each operation rounded, so the
    comparison is the one the program makes: four fifths against a mean of
    one half computes 0.30000000000000004 and raises a medium alert.
    Stated for a non-empty batch of known labels, a window of sentiment
    entries and a clock that has not advanced 24 hours between storing and
    pruning. *)
Theorem sentiment_deterioration_rule
    (clock : nat -> Q) (rules : Alerts.alert_rules) (data : list Alerts.item)
    (platform brand_id : option string) (s : Alerts.state)
    (counts : Alerts.sentiment_counts) :
  data <> [] ->
  Alerts.count_sentiments Alerts.no_counts data = Py.Ok counts ->
  let key := Alerts.sentiment_key brand_id platform in
  let stored_at := clock (Alerts.ticks s) in
  let now := clock (S (Alerts.ticks s)) in
  let current := Alerts.negative_ratio counts (length data) in
  let history :=
    Alerts.recent (now - Alerts.sentiment_retention) (Alerts.window key s) in
  now - Alerts.sentiment_retention < stored_at ->
  forallb Alerts.is_sentiment_entry history = true ->
  let r :=
    Alerts._check_sentiment_deterioration clock rules data platform brand_id s in
  let historical_mean :=
    Py.fdiv (Py.fsum (map Alerts.ratio_of history))
            (inject_Z (Z.of_nat (length history))) in
  let deterioration := Py.fsub current historical_mean in
  current = Py.fdiv (inject_Z (Z.of_nat (Alerts.negative counts)))
                    (inject_Z (Z.of_nat (length data)))
  /\ Alerts.window key (snd r)
     = (history ++ [Alerts.SentimentEntry current stored_at])%list
  /\ ((5 <= length (Alerts.window key (snd r)))%nat ->
      (Py.fl (Alerts.threshold_change rules) < deterioration ->
       exists a, fst r = Py.Ok [a]
                 /\ Alerts.type a = Alerts.sentiment_deterioration
                 /\ (Py.fl 0.5 < deterioration ->
                     Alerts.alert_severity a = Alerts.high)
                 /\ (deterioration <= Py.fl 0.5 ->
                     Alerts.alert_severity a = Alerts.medium))
      /\ (deterioration <= Py.fl (Alerts.threshold_change rules) ->
          fst r = Py.Ok []))
  /\ ((length (Alerts.window key (snd r)) < 5)%nat -> fst r = Py.Ok []).
Proof.
  intros Hdata Hcounts key stored_at now current history Hclock Hall r
    historical_mean deterioration.
  assert (Hcurrent : current
                     = Py.fdiv (inject_Z (Z.of_nat (Alerts.negative counts)))
                               (inject_Z (Z.of_nat (length data)))).
  { subst current. unfold Alerts.negative_ratio.
    destruct data as [|it data]; [congruence|reflexivity]. }
  split; [exact Hcurrent|]. clear Hcurrent.
  assert (Hpruned :
            Alerts.recent (now - Alerts.sentiment_retention)
              (Alerts.window key s ++ [Alerts.SentimentEntry current stored_at])
            = (history ++ [Alerts.SentimentEntry current stored_at])%list).
  { rewrite recent_app. f_equal.
    unfold Alerts.recent. cbn [List.filter Alerts.entry_timestamp].
    replace (Py.Qgtb stored_at (now - Alerts.sentiment_retention)) with true
      by (symmetry; apply Qgtb_gt; exact Hclock).
    reflexivity. }
  destruct (sentiment_rule_prefix clock rules data platform brand_id s counts
              Hdata Hcounts) as (s_p & Heq & Hwp & _).
  fold key stored_at now current in Heq, Hwp.
  rewrite Hpruned in Heq, Hwp.
  assert (Hw : Alerts.window key (snd r)
               = (history ++ [Alerts.SentimentEntry current stored_at])%list).
  { subst r. rewrite Heq. rewrite <- Hwp at 2.
    unfold Alerts.window. rewrite deterioration_alerts_windows. reflexivity. }
  split; [exact Hw|].
  rewrite Hw. subst r. rewrite Heq.
  destruct (deterioration_block clock rules platform current history
              (Alerts.SentimentEntry current stored_at) s_p Hall)
    as (Hshort & Hlong).
  split.
  - intros H5. destruct (Hlong H5) as (Hemit & Hquiet).
    split; [|exact Hquiet].
    intros Hgt. destruct (Hemit Hgt) as (a & Ha & Hty & _ & _ & Hhi & Hmed).
    exists a. repeat split; assumption.
  - exact Hshort.
Qed.

Lemma sentiment_deterioration_rule_witness :
  exists a,
    fst (Alerts._check_sentiment_deterioration Samples.ticking Alerts.default_rules
           Samples.four_in_five_negative (Some "twitter") (Some "acme")
           Samples.steady_history) = Py.Ok [a]
    /\ Alerts.type a = Alerts.sentiment_deterioration
    /\ Alerts.alert_severity a = Alerts.medium.
Proof.
  assert (Hdata : Samples.four_in_five_negative <> []) by discriminate.
  assert (Hcounts :
            Alerts.count_sentiments Alerts.no_counts Samples.four_in_five_negative
            = Py.Ok {| Alerts.positive := 0; Alerts.negative := 4;
                       Alerts.neutral := 1 |}) by reflexivity.
  pose proof (sentiment_deterioration_rule Samples.ticking Alerts.default_rules
                Samples.four_in_five_negative (Some "twitter") (Some "acme")
                Samples.steady_history _ Hdata Hcounts) as H.
  cbv zeta in H.
  assert (Hclock : Samples.ticking (S (Alerts.ticks Samples.steady_history))
                   - Alerts.sentiment_retention
                   < Samples.ticking (Alerts.ticks Samples.steady_history))
    by (vm_compute; reflexivity).
  assert (Hall : forallb Alerts.is_sentiment_entry
                   (Alerts.recent
                      (Samples.ticking (S (Alerts.ticks Samples.steady_history))
                       - Alerts.sentiment_retention)
                      (Alerts.window
                         (Alerts.sentiment_key (Some "acme") (Some "twitter"))
                         Samples.steady_history)) = true)
    by (vm_compute; reflexivity).
  destruct (H Hclock Hall) as (_ & Hw & Hlong & _).
  destruct Hlong as (Hemit & _).
  { rewrite Hw. vm_compute. lia. }
  destruct Hemit as (a & Ha & Hty & _ & Hmedium).
  { vm_compute. reflexivity. }
  exists a. split; [exact Ha|]. split; [exact Hty|].
  apply Hmedium. vm_compute. intros Habs. discriminate Habs.
Defined.

(* ================================================================== *)
(** * Further properties of the modelled code *)

(** ** Suggested reviewers *)

(** What [list(set(l))] guarantees: the elements of [l], each once. *)
Lemma list_of_set_spec (l : list string) :
  NoDup (Py.list_of_set l)
  /\ (forall x, In x (Py.list_of_set l) <-> In x l)
  /\ (NoDup l -> Permutation (Py.list_of_set l) l).
Proof.
  unfold Py.list_of_set. split; [apply NoDup_elements|]. split.
  - intros x. rewrite <- !list_elem_of_In, elem_of_elements, elem_of_list_to_set.
    reflexivity.
  - intros Hnodup. apply elements_list_to_set. exact Hnodup.
Qed.

(** X1. The reviewer list is never empty and has no duplicates, in
    whatever order the set yields it; crisis tags bring in the crisis
    reviewers, and factors that match no category get exactly the two
    default reviewers. *)
Theorem suggested_reviewers_nonempty_nodup (risk_factors : list string) :
  let reviewers := Approval._suggest_appropriate_reviewers risk_factors in
  reviewers <> []
  /\ NoDup reviewers
  /\ (Py.any (Py.contains "crisis") risk_factors = true ->
      In "crisis_manager" reviewers /\ In "brand_director" reviewers
      /\ In "ceo" reviewers)
  /\ (Py.any (Py.contains "crisis") risk_factors = false ->
      Py.any (Py.contains "legal") risk_factors = false ->
      Py.any (fun factor => Py.contains "medical" factor
                            || Py.contains "health" factor) risk_factors = false ->
      Py.any (Py.contains "financial") risk_factors = false ->
      Py.any (Py.contains "high_visibility") risk_factors = false ->
      Permutation reviewers ["social_media_manager"; "customer_service_manager"]).
Proof.
  cbv zeta. unfold Approval._suggest_appropriate_reviewers.
  destruct (Py.any (Py.contains "crisis") risk_factors),
           (Py.any (Py.contains "legal") risk_factors),
           (Py.any (fun factor => Py.contains "medical" factor
                                  || Py.contains "health" factor) risk_factors),
           (Py.any (Py.contains "financial") risk_factors),
           (Py.any (Py.contains "high_visibility") risk_factors);
    cbn [app];
    match goal with
    | |- Py.list_of_set (?x :: ?l) <> [] /\ _ =>
        destruct (list_of_set_spec (x :: l)) as (Hnodup & Hin & Hperm);
        assert (Hx : In x (Py.list_of_set (x :: l)))
          by (apply (proj2 (Hin x)); left; reflexivity)
    end;
    (split; [intros Hnil; rewrite Hnil in Hx; exact Hx|]);
    (split; [exact Hnodup|]);
    (split;
     [intros Hcrisis;
      first [discriminate Hcrisis
            | split; [|split]; apply (proj2 (Hin _)); cbn [In]; tauto]
     |intros H1 H2 H3 H4 H5;
      first [discriminate H1 | discriminate H2 | discriminate H3
            | discriminate H4 | discriminate H5 | idtac]]).
  apply Hperm.
  apply NoDup_cons. split; [|apply NoDup_singleton].
  rewrite list_elem_of_singleton. discriminate.
Qed.

Lemma suggested_reviewers_nonempty_nodup_witness :
  In "ceo" (Approval._suggest_appropriate_reviewers ["crisis_situation_detected"]).
Proof.
  apply (suggested_reviewers_nonempty_nodup ["crisis_situation_detected"]).
  vm_compute. reflexivity.
Defined.

(** ** The contextual decision *)

(** The two outcomes of the contextual decision. *)
Lemma contextual_decision_cases
    (cfg : Approval.Settings) (now : Approval.local_time) (response : string)
    (m : RiskScorer.mention) (ra : RiskScorer.risk_assessment)
    (bc : option RiskScorer.brand_dict) :
  let cd := Approval._make_contextual_risk_decision cfg now response m ra bc in
  let risk := RiskScorer.overall_risk_score ra in
  let auto := Approval.AUTO_RESPONSE_RISK_THRESHOLD cfg in
  Approval.factors cd <> []
  /\ ((Approval.status cd = "approved_contextual"
       /\ Approval.requires_review cd = false
       /\ Approval.action cd = "publish_immediately"
       /\ risk < auto + 0.2)
      \/ (Approval.status cd = "pending_approval"
          /\ Approval.requires_review cd = true
          /\ Approval.action cd = "escalate_for_approval"
          /\ auto - 0.35 <= risk)).
Proof.
  cbv zeta. unfold Approval._make_contextual_risk_decision.
  destruct (String.eqb (Py.lower (Py.get (RiskScorer.platform m) "unknown")) "twitter"),
           (String.eqb (Py.lower (Py.get (RiskScorer.platform m) "unknown")) "linkedin"),
           (((9 <=? Approval.hour now)%Z && (Approval.hour now <=? 17)%Z)
            && negb (Approval.weekday now >=? 5)%Z);
    (destruct bc as [b|]; [destruct (Py.get (RiskScorer.crisis_mode b) false)|]);
    cbv beta iota zeta;
    match goal with
    | |- context [Py.Qltb ?x ?y] =>
        destruct (Py.Qltb x y) eqn:E;
        [apply Qltb_lt in E | apply Qltb_ge in E]
    end;
    cbn [Approval.factors Approval.status Approval.requires_review Approval.action];
    (split; [cbn; discriminate|]);
    first
      [ left; split; [reflexivity | split; [reflexivity | split; [reflexivity | lra]]]
      | right; split; [reflexivity | split; [reflexivity | split; [reflexivity | lra]]] ].
Qed.

(** X2. The adjustments move the threshold by at most +0.2 and -0.35: the
    contextual decision never approves a risk of AUTO + 0.2 or more, and
    it asks for review exactly when it does not approve. *)
Theorem contextual_decision_bounds
    (cfg : Approval.Settings) (now : Approval.local_time) (response : string)
    (m : RiskScorer.mention) (ra : RiskScorer.risk_assessment)
    (bc : option RiskScorer.brand_dict) :
  let cd := Approval._make_contextual_risk_decision cfg now response m ra bc in
  let risk := RiskScorer.overall_risk_score ra in
  let auto := Approval.AUTO_RESPONSE_RISK_THRESHOLD cfg in
  Approval.factors cd <> []
  /\ ((Approval.status cd = "approved_contextual"
       /\ Approval.requires_review cd = false
       /\ Approval.action cd = "publish_immediately"
       /\ risk < auto + 0.2)
      \/ (Approval.status cd = "pending_approval"
          /\ Approval.requires_review cd = true
          /\ Approval.action cd = "escalate_for_approval"
          /\ auto - 0.35 <= risk)).
Proof. exact (contextual_decision_cases cfg now response m ra bc). Qed.

(** In crisis mode the threshold is never raised: whatever the platform
    and the hour, a contextual decision on a risk at or above the
    auto-approval threshold asks for review. *)
Lemma contextual_crisis_mode_pending
    (cfg : Approval.Settings) (now : Approval.local_time) (response : string)
    (m : RiskScorer.mention) (ra : RiskScorer.risk_assessment)
    (b : RiskScorer.brand_dict) :
  RiskScorer.crisis_mode b = Some true ->
  Approval.AUTO_RESPONSE_RISK_THRESHOLD cfg <= RiskScorer.overall_risk_score ra ->
  Approval._make_contextual_risk_decision cfg now response m ra (Some b)
  = {| Approval.status := "pending_approval";
       Approval.requires_review := true;
       Approval.action := "escalate_for_approval";
       Approval.factors :=
         Approval.factors
           (Approval._make_contextual_risk_decision cfg now response m ra (Some b)) |}.
Proof.
  intros Hcrisis Hrisk. unfold Approval._make_contextual_risk_decision.
  rewrite Hcrisis. cbn [Py.get].
  destruct (String.eqb (Py.lower (Py.get (RiskScorer.platform m) "unknown")) "twitter"),
           (String.eqb (Py.lower (Py.get (RiskScorer.platform m) "unknown")) "linkedin"),
           (((9 <=? Approval.hour now)%Z && (Approval.hour now <=? 17)%Z)
            && negb (Approval.weekday now >=? 5)%Z);
    cbv beta iota zeta;
    match goal with
    | |- context [Py.Qltb ?x ?y] =>
        destruct (Py.Qltb x y) eqn:E;
        [apply Qltb_lt in E; exfalso; lra | reflexivity]
    end.
Qed.

(** X3. Crisis mode forces review: with the brand in crisis mode, the agent
    never approves a response whose risk is at or above the auto-approval
    threshold, in any band and for any thresholds. *)
Theorem crisis_mode_requires_review
    (cfg : Approval.Settings) (now : Approval.local_time) (response : string)
    (m : RiskScorer.mention) (qa : RiskScorer.quality_dict)
    (b : RiskScorer.brand_dict) (ra : RiskScorer.risk_assessment) :
  RiskScorer.crisis_mode b = Some true ->
  RiskScorer._calculate_comprehensive_risk_score response m qa (Some b) = Py.Ok ra ->
  Approval.AUTO_RESPONSE_RISK_THRESHOLD cfg <= RiskScorer.overall_risk_score ra ->
  let d := Approval._make_autonomous_approval_decision
             (Approval.agent cfg now) cfg response m qa (Some b) in
  Approval.approval_status d = "pending_approval"
  /\ Approval.requires_human_review d = true
  /\ Approval.recommended_action d = "escalate_for_approval".
Proof.
  intros Hcrisis Hra Hrisk d. subst d.
  unfold Approval._make_autonomous_approval_decision, Approval.approval_try.
  cbn [Approval.agent Approval.calculate_comprehensive_risk_score
       Approval.suggest_appropriate_reviewers Approval.trigger_human_review_alert
       Approval.make_contextual_risk_decision].
  rewrite Hra. cbn [Py.bind].
  apply Qltb_ge in Hrisk. rewrite Hrisk.
  destruct (Py.Qgtb (RiskScorer.overall_risk_score ra)
              (Approval.HUMAN_REVIEW_RISK_THRESHOLD cfg)); cbn [Py.bind].
  - repeat split.
  - apply Qltb_ge in Hrisk.
    rewrite (contextual_crisis_mode_pending cfg now response m ra b Hcrisis Hrisk).
    repeat split.
Qed.

Lemma crisis_mode_requires_review_witness :
  let b := {| RiskScorer.crisis_mode := Some true |} in
  let cfg := {| Approval.AUTO_RESPONSE_RISK_THRESHOLD := 0.2;
                Approval.HUMAN_REVIEW_RISK_THRESHOLD := 0.7 |} in
  Approval.requires_human_review
    (Approval._make_autonomous_approval_decision
       (Approval.agent cfg Samples.noon) cfg
       Samples.reply Samples.complaint Samples.average_quality (Some b)) = true.
Proof.
  cbv zeta.
  refine (proj1 (proj2 (crisis_mode_requires_review
            {| Approval.AUTO_RESPONSE_RISK_THRESHOLD := 0.2;
               Approval.HUMAN_REVIEW_RISK_THRESHOLD := 0.7 |}
            Samples.noon Samples.reply Samples.complaint Samples.average_quality
            {| RiskScorer.crisis_mode := Some true |}
            Samples.complaint_assessment eq_refl _ _))).
  - vm_compute. reflexivity.
  - vm_compute. discriminate.
Defined.

(** ** The decision as a whole *)

(** X4. Every decision of the agent, computed or failed, carries one of the
    three statuses, and asks for human review exactly when the status is
    "pending_approval"; the recommended action agrees with it, and only a
    failed decision is marked as not autonomous, with low confidence. *)
Theorem decision_status_consistent
    (cfg : Approval.Settings) (now : Approval.local_time) (response : string)
    (m : RiskScorer.mention) (qa : RiskScorer.quality_dict)
    (bc : option RiskScorer.brand_dict) :
  let d := Approval._make_autonomous_approval_decision
             (Approval.agent cfg now) cfg response m qa bc in
  (Approval.approval_status d = "approved_auto"
   \/ Approval.approval_status d = "approved_contextual"
   \/ Approval.approval_status d = "pending_approval")
  /\ (Approval.requires_human_review d = true
      <-> Approval.approval_status d = "pending_approval")
  /\ (Approval.recommended_action d = "escalate_for_approval"
      <-> Approval.approval_status d = "pending_approval")
  /\ (Approval.autonomous_decision d = false <-> Approval.confidence d = "low")
  /\ (Approval.error d = None <-> Approval.autonomous_decision d = true).
Proof.
  cbv zeta.
  unfold Approval._make_autonomous_approval_decision, Approval.approval_try.
  cbn [Approval.agent Approval.calculate_comprehensive_risk_score
       Approval.suggest_appropriate_reviewers Approval.trigger_human_review_alert
       Approval.make_contextual_risk_decision].
  destruct (RiskScorer._calculate_comprehensive_risk_score response m qa bc)
    as [ra|e]; cbn [Py.bind].
  - destruct (Py.Qltb (RiskScorer.overall_risk_score ra)
                (Approval.AUTO_RESPONSE_RISK_THRESHOLD cfg)); cbn [Py.bind].
    + cbn. intuition (try discriminate; auto).
    + destruct (Py.Qgtb (RiskScorer.overall_risk_score ra)
                  (Approval.HUMAN_REVIEW_RISK_THRESHOLD cfg)); cbn [Py.bind].
      * cbn. intuition (try discriminate; auto).
      * destruct (contextual_decision_cases cfg now response m ra bc)
          as (_ & [(Hs & Hr & Ha & _) | (Hs & Hr & Ha & _)]);
          cbn; rewrite Hs, Hr, Ha; intuition (try discriminate; auto).
  - cbn. intuition (try discriminate; auto).
Qed.

(** ** Content risk and the range of the risk score *)

(** Clamping to the unit interval keeps a value between bounds that lie
    in it. *)
Lemma clamp_between (lo hi x : Q) :
  0 <= lo -> hi <= 1 -> lo <= x <= hi ->
  lo <= Py.min 1 (Py.max 0 x) <= hi.
Proof.
  intros Hlo Hhi [Hl Hh].
  unfold Py.min, Py.max, Py.Qgtb.
  destruct (Py.Qltb 0 x) eqn:E0; [apply Qltb_lt in E0 | apply Qltb_ge in E0].
  - destruct (Py.Qltb x 1) eqn:E1; [apply Qltb_lt in E1 | apply Qltb_ge in E1]; lra.
  - destruct (Py.Qltb 0 1) eqn:E1; [apply Qltb_lt in E1 | apply Qltb_ge in E1]; lra.
Qed.

Lemma min_one_range (x : Q) : 0 <= x -> 0 <= Py.min 1 x <= 1.
Proof.
  intros Hx. unfold Py.min.
  destruct (Py.Qltb x 1) eqn:E; [apply Qltb_lt in E | apply Qltb_ge in E]; lra.
Qed.

Lemma scored_with_tags_add (acc : Q * list string) (delta : Q) (tag : string) :
  0 < delta -> RiskScorer.scored_with_tags acc ->
  RiskScorer.scored_with_tags (fst acc + delta, (snd acc ++ [tag])%list).
Proof.
  intros Hd [[H0 _]|[Hpos _]]; right; cbn [fst snd]; split;
    try lra; intros Hnil; apply app_eq_nil in Hnil as [_ Hnil]; discriminate.
Qed.

Lemma scored_with_tags_fold (hit : string -> bool) (delta : Q)
    (tag : string -> string) (words : list string) (acc : Q * list string) :
  0 < delta -> RiskScorer.scored_with_tags acc ->
  RiskScorer.scored_with_tags
    (fold_left (fun (acc : Q * list string) word =>
                  if hit word
                  then (fst acc + delta, (snd acc ++ [tag word])%list)
                  else acc)
               words acc).
Proof.
  intros Hd. revert acc. induction words as [|w words IH]; intros acc Hacc.
  - exact Hacc.
  - cbn [fold_left]. apply IH.
    destruct (hit w); [apply scored_with_tags_add; assumption|exact Hacc].
Qed.

Lemma content_hits_scored (response : string) (m : RiskScorer.mention) :
  RiskScorer.scored_with_tags (RiskScorer.content_hits response m).
Proof.
  unfold RiskScorer.content_hits.
  set (topics :=
         fold_left _ RiskScorer.high_risk_topics (0, [])).
  assert (Htopics : RiskScorer.scored_with_tags topics).
  { subst topics.
    apply (scored_with_tags_fold
             (fun topic => Py.contains topic (Py.lower response)
                           || Py.contains topic
                                (Py.lower (Py.get (RiskScorer.content m) "")))
             0.1 (fun topic => ("high_risk_topic_" ++ topic)%string));
      [lra|left; split; [reflexivity|reflexivity]]. }
  set (words := fold_left _ RiskScorer.commitment_words topics).
  assert (Hwords : RiskScorer.scored_with_tags words).
  { subst words.
    apply (scored_with_tags_fold
             (fun word => Py.contains word (Py.lower response))
             0.05 (fun _ => "strong_commitment_language"));
      [lra|exact Htopics]. }
  destruct (Py.len response <? 20)%Z;
    [apply scored_with_tags_add; [lra|exact Hwords]|].
  destruct (Py.len response >? 500)%Z;
    [apply scored_with_tags_add; [lra|exact Hwords]|exact Hwords].
Qed.

(** X5. The content risk lies in [0,1]; it is zero exactly when no risk factor
    was recorded, and a response shorter than 20 characters scores at
    least 0.1. *)
Theorem content_risk_zero_iff_no_factor (response : string) (m : RiskScorer.mention) :
  let r := RiskScorer._analyze_content_risk response m in
  0 <= RiskScorer.risk_score r <= 1
  /\ (RiskScorer.risk_score r == 0 <-> RiskScorer.risk_factors r = [])
  /\ ((Py.len response < 20)%Z -> 0.1 <= RiskScorer.risk_score r).
Proof.
  cbv zeta. unfold RiskScorer._analyze_content_risk.
  pose proof (content_hits_scored response m) as Hinv.
  assert (Hshort : (Py.len response < 20)%Z ->
                   0.1 <= fst (RiskScorer.content_hits response m)).
  { intros Hlen. unfold RiskScorer.content_hits.
    apply Z.ltb_lt in Hlen. rewrite Hlen. cbn [fst].
    match goal with
    | |- 0.1 <= fst ?acc + 0.1 =>
        assert (Hacc : RiskScorer.scored_with_tags acc)
    end.
    { apply (scored_with_tags_fold
               (fun word => Py.contains word (Py.lower response))
               0.05 (fun _ => "strong_commitment_language")); [lra|].
      apply (scored_with_tags_fold
               (fun topic => Py.contains topic (Py.lower response)
                             || Py.contains topic
                                  (Py.lower (Py.get (RiskScorer.content m) "")))
               0.1 (fun topic => ("high_risk_topic_" ++ topic)%string));
        [lra|left; split; reflexivity]. }
    destruct Hacc as [[H0 _]|[Hpos _]]; lra. }
  destruct (RiskScorer.content_hits response m) as [score tags].
  cbn [RiskScorer.risk_score RiskScorer.risk_factors fst snd] in *.
  unfold RiskScorer.scored_with_tags in Hinv. cbn [fst snd] in Hinv.
  assert (Hnonneg : 0 <= score) by (destruct Hinv as [[H0 _]|[Hpos _]]; lra).
  pose proof (min_one_range score Hnonneg) as Hrange.
  split; [exact Hrange|]. split; [split|].
  - intros Hzero. destruct Hinv as [[_ Hnil]|[Hpos _]]; [exact Hnil|].
    exfalso. unfold Py.min in Hzero.
    destruct (Py.Qltb score 1) eqn:E; [apply Qltb_lt in E | apply Qltb_ge in E]; lra.
  - intros Hnil. destruct Hinv as [[H0 _]|[_ Hne]]; [|contradiction].
    unfold Py.min.
    destruct (Py.Qltb score 1) eqn:E; [apply Qltb_lt in E | apply Qltb_ge in E]; lra.
  - intros Hlen. specialize (Hshort Hlen). unfold Py.min.
    destruct (Py.Qltb score 1) eqn:E; [apply Qltb_lt in E | apply Qltb_ge in E]; lra.
Qed.

Lemma content_risk_zero_iff_no_factor_witness :
  0.1 <= RiskScorer.risk_score
           (RiskScorer._analyze_content_risk "Sorry!" Samples.complaint).
Proof.
  apply (content_risk_zero_iff_no_factor "Sorry!" Samples.complaint).
  vm_compute. reflexivity.
Defined.

Lemma content_risk_range (response : string) (m : RiskScorer.mention) :
  0 <= RiskScorer.risk_score (RiskScorer._analyze_content_risk response m) <= 1.
Proof.
  unfold RiskScorer._analyze_content_risk.
  pose proof (content_hits_scored response m) as Hinv.
  destruct (RiskScorer.content_hits response m) as [score tags].
  cbn [RiskScorer.risk_score]. apply min_one_range.
  destruct Hinv as [[H0 _]|[Hpos _]]; cbn [fst] in *; lra.
Qed.

(** The quality score of the tool lies in the unit interval. *)
Lemma quality_score_range (response original_mention brand_name : string) :
  0 <= ResponseQuality.quality_score
         (ResponseQuality._run response original_mention brand_name) <= 1.
Proof.
  unfold ResponseQuality._run.
  destruct (ResponseQuality.length_ok response),
           (ResponseQuality.tone_ok response),
           (ResponseQuality.professional_ok response),
           (ResponseQuality.brand_ok response brand_name),
           (ResponseQuality.action_ok response);
    cbn [ResponseQuality.quality_score]; lra.
Qed.

(** X6. Validation followed by scoring. With the quality score of the
    evaluation tool, the risk scorer always produces an assessment, its
    overall score lies between 0.0375 and 0.6 (the clamp never acts), and
    with the default thresholds it is never in the high band. *)
Theorem validated_risk_range
    (response : string) (m : RiskScorer.mention) (brand_name : string)
    (bc : option RiskScorer.brand_dict) :
  exists ra,
    RiskScorer._calculate_comprehensive_risk_score response m
      (ResponseAgent._validate_response_quality response m brand_name) bc
    = Py.Ok ra
    /\ 0.0375 <= RiskScorer.overall_risk_score ra <= 0.6
    /\ Approval.band_of Approval.settings (RiskScorer.overall_risk_score ra)
       <> Approval.High.
Proof.
  unfold RiskScorer._calculate_comprehensive_risk_score,
    ResponseAgent._validate_response_quality.
  cbn [RiskScorer.quality_score Py.get RiskScorer.one_minus Py.bind].
  pose proof (quality_score_range response
                (Py.get (RiskScorer.content m) "") brand_name) as Hq.
  set (q := ResponseQuality.quality_score _) in *.
  pose proof (content_risk_range response m) as Hc.
  set (c := RiskScorer.risk_score (RiskScorer._analyze_content_risk response m)) in *.
  assert (Hband : forall x, x <= 0.6 ->
            Approval.band_of Approval.settings x <> Approval.High).
  { intros x Hx. unfold Approval.band_of.
    destruct (Py.Qltb x _); [discriminate|].
    destruct (Py.Qgtb x _) eqn:E; [|discriminate].
    apply Qgtb_gt in E. cbn in E. lra. }
  destruct (String.eqb (Py.get (RiskScorer.sentiment m) "neutral") "negative"),
           (String.eqb (Py.get (RiskScorer.sentiment m) "neutral") "positive"),
           (RiskScorer.high_engagement m), (RiskScorer.crisis_flag m);
    eexists; (split; [reflexivity|]);
    cbn [RiskScorer.overall_risk_score];
    match goal with
    | |- _ <= Py.min 1 (Py.max 0 ?x) <= _ /\ _ =>
        assert (Hx : 0.0375 <= Py.min 1 (Py.max 0 x) <= 0.6)
          by (apply clamp_between; lra);
        split; [exact Hx | apply Hband; lra]
    end.
Qed.

(** ** Urgency and the response history *)

(** X7. The urgency is "high", "medium" or "low"; a mention that the risk
    scorer counts as high-engagement is always of high urgency, and the
    recommendations for it start with the advice to escalate. *)
Theorem high_engagement_is_high_urgency (m : RiskScorer.mention) (response : string) :
  (ResponseAgent._assess_urgency m = "high"
   \/ ResponseAgent._assess_urgency m = "medium"
   \/ ResponseAgent._assess_urgency m = "low")
  /\ (RiskScorer.high_engagement m = true ->
      ResponseAgent._assess_urgency m = "high"
      /\ head (ResponseAgent._generate_response_recommendations m response)
         = Some "Consider escalating to human agent due to high urgency level").
Proof.
  assert (Hrange : ResponseAgent._assess_urgency m = "high"
                   \/ ResponseAgent._assess_urgency m = "medium"
                   \/ ResponseAgent._assess_urgency m = "low").
  { unfold ResponseAgent._assess_urgency.
    repeat match goal with
           | |- context [if ?b then _ else _] => destruct b
           end; auto. }
  split; [exact Hrange|].
  intros Hhigh.
  assert (Hurgent : ResponseAgent._assess_urgency m = "high").
  { unfold ResponseAgent._assess_urgency.
    unfold RiskScorer.high_engagement in Hhigh. rewrite Hhigh.
    destruct (Py.any _ ResponseAgent.high_urgency_keywords); reflexivity. }
  split; [exact Hurgent|].
  unfold ResponseAgent._generate_response_recommendations.
  rewrite Hurgent. cbn [String.eqb Ascii.eqb Bool.eqb app].
  repeat match goal with
         | |- context [if ?b then _ else _] => destruct b
         end; reflexivity.
Qed.

Lemma high_engagement_is_high_urgency_witness :
  let viral :=
    {| RiskScorer.content := Some "nice";
       RiskScorer.sentiment := None;
       RiskScorer.platform := None;
       RiskScorer.engagement_metrics := Some (<["likes" := 101%Z]> ∅);
       RiskScorer.crisis_indicators := None |} in
  ResponseAgent._assess_urgency viral = "high".
Proof.
  cbv zeta.
  refine (proj1 (proj2 (high_engagement_is_high_urgency _ "") _)).
  vm_compute. reflexivity.
Defined.

Lemma last_n_length {A} (n : nat) (l : list A) :
  (n <= length l)%nat -> length (ResponseAgent.last_n n l) = n.
Proof.
  intros H. unfold ResponseAgent.last_n. rewrite length_skipn. lia.
Qed.

(** X8. The response history never grows beyond 1000 entries: the new entry
    always ends up last, and when the addition would make 1001 entries the
    history is cut to the 500 most recent (the 499 newest old entries and
    the new one). *)
Theorem response_history_bounded
    (response_history : list ResponseAgent.history_entry) (now : Q)
    (result : ResponseAgent.final_result) :
  (length response_history <= 1000)%nat ->
  let h := ResponseAgent._add_to_response_history response_history now result in
  exists e,
    ResponseAgent.timestamp e = now
    /\ ResponseAgent.entry_mention_id e = ResponseAgent.mention_id result
    /\ ResponseAgent.response_quality e
       = Py.get (ResponseAgent.result_quality_score result) 0
    /\ (length h <= 1000)%nat
    /\ ((length response_history < 1000)%nat ->
        h = (response_history ++ [e])%list)
    /\ (length response_history = 1000%nat ->
        h = (skipn 501 response_history ++ [e])%list /\ length h = 500%nat).
Proof.
  intros Hlen. cbv zeta. unfold ResponseAgent._add_to_response_history.
  set (e := {| ResponseAgent.timestamp := now |}).
  exists e. split; [reflexivity|]. split; [reflexivity|]. split; [reflexivity|].
  assert (Hall : length (response_history ++ [e]) = S (length response_history))
    by (rewrite length_app; cbn; lia).
  destruct (Nat.ltb_spec 1000 (length (response_history ++ [e]))) as [Hbig|Hsmall].
  - assert (Hfull : length response_history = 1000%nat) by lia.
    assert (H500 : length (ResponseAgent.last_n 500 (response_history ++ [e]))
                   = 500%nat) by (apply last_n_length; lia).
    split; [lia|]. split; [intros; lia|].
    intros _. split; [|exact H500].
    unfold ResponseAgent.last_n. rewrite Hall, Hfull.
    replace (1001 - 500)%nat with 501%nat by lia.
    rewrite skipn_app, Hfull.
    replace (501 - 1000)%nat with 0%nat by lia. reflexivity.
  - split; [lia|]. split; [intros; reflexivity|intros; lia].
Qed.

Lemma response_history_bounded_witness :
  length (ResponseAgent._add_to_response_history [] 5
            {| ResponseAgent.mention_id := Some "m1";
               ResponseAgent.result_platform := None;
               ResponseAgent.result_quality_score := Some 0.9;
               ResponseAgent.generation_time := None;
               ResponseAgent.knowledge_retrieved := None |}) = 1%nat.
Proof.
  destruct (response_history_bounded [] 5
              {| ResponseAgent.mention_id := Some "m1";
                 ResponseAgent.result_platform := None;
                 ResponseAgent.result_quality_score := Some 0.9;
                 ResponseAgent.generation_time := None;
                 ResponseAgent.knowledge_retrieved := None |})
    as (e & _ & _ & _ & _ & Hsmall & _).
  - cbn. lia.
  - rewrite Hsmall by (cbn; lia). reflexivity.
Defined.

(** ** The alert task as a whole *)

Lemma raises_after {A B} (c : Alerts.M A) (k : A -> Alerts.M B) :
  (forall a s, exists e s', k a s = (Py.Raise e, s')) ->
  forall s, exists e s', Alerts.mbind c k s = (Py.Raise e, s').
Proof.
  intros Hk s. unfold Alerts.mbind.
  destruct (c s) as [[a|e] s']; [apply Hk|eauto].
Qed.

(** The body of [process_task] cannot complete: past the rules it
    reaches [self.metrics["tasks_processed"] += 1]. *)
Lemma process_task_try_raises clock rules t s :
  exists e s', Alerts.process_task_try clock rules t s = (Py.Raise e, s').
Proof.
  unfold Alerts.process_task_try.
  revert s. do 5 (apply raises_after; intros ?).
  intros s. eexists _, _. unfold Alerts.mbind, Alerts.metrics_increment, Alerts.raise.
  reflexivity.
Qed.

(** X9. [process_task] never returns a result, neither a success nor an error
    dictionary: every call, whatever the task and the state, ends with the
    TypeError of subscripting [self.metrics], raised in the body and again
    in the handler, after the first error has been logged. *)
Theorem process_task_never_returns
    (clock : nat -> Q) (rules : Alerts.alert_rules) (t : Alerts.task)
    (s : Alerts.state) :
  let r := Alerts.process_task clock rules t s in
  fst r = Py.Raise (Py.TypeError "'AgentMetrics' object is not subscriptable")
  /\ exists e,
       List.last (Alerts.log (snd r)) (Alerts.INFO, "")
       = (Alerts.ERROR, ("Error in alert management task: " ++ Py.str_exn e)%string).
Proof.
  cbv zeta. unfold Alerts.process_task, Alerts.try_except.
  destruct (process_task_try_raises clock rules t s) as (e & s' & ->).
  unfold Alerts.mbind, Alerts.logger, Alerts.metrics_increment, Alerts.raise.
  cbn [fst snd Alerts.log]. split; [reflexivity|].
  exists e. apply last_last.
Qed.

(** ** Processing of the alerts *)

Lemma key_le_spec a b :
  Alerts.key_le a b = true <->
  (Alerts.severity_order (Alerts.alert_severity b)
   < Alerts.severity_order (Alerts.alert_severity a))%Z
  \/ (Alerts.severity_order (Alerts.alert_severity a)
      = Alerts.severity_order (Alerts.alert_severity b)
      /\ Alerts.timestamp b <= Alerts.timestamp a).
Proof.
  unfold Alerts.key_le. rewrite orb_true_iff, andb_true_iff.
  rewrite Z.ltb_lt, Z.eqb_eq, Qle_bool_iff.
  split; intros [H|[H1 H2]]; [left; lia|right; split; [lia|lra]
                             |left; lia|right; split; [lia|lra]].
Qed.

Lemma before_total a b : Alerts.key_le a b = false -> Alerts.before b a.
Proof.
  intros H. unfold Alerts.before. apply key_le_spec.
  destruct (Z.lt_trichotomy
              (Alerts.severity_order (Alerts.alert_severity a))
              (Alerts.severity_order (Alerts.alert_severity b))) as [Hlt|[Heq|Hgt]].
  - left. exact Hlt.
  - right. split; [symmetry; exact Heq|].
    destruct (Qlt_le_dec (Alerts.timestamp b) (Alerts.timestamp a)) as [Hts|Hts].
    + exfalso. assert (Ht : Alerts.key_le a b = true)
        by (apply key_le_spec; right; split; [exact Heq|lra]).
      congruence.
    + exact Hts.
  - exfalso. assert (Ht : Alerts.key_le a b = true)
      by (apply key_le_spec; left; exact Hgt).
    congruence.
Qed.

Lemma before_trans a b c : Alerts.before a b -> Alerts.before b c -> Alerts.before a c.
Proof.
  unfold Alerts.before. rewrite !key_le_spec.
  intros [H1|[H1 H1']] [H2|[H2 H2']];
    [left; lia | left; lia | left; lia | right; split; [lia|lra]].
Qed.

Lemma insert_sorted_perm a l : Permutation (a :: l) (Alerts.insert_sorted a l).
Proof.
  induction l as [|b l IH]; cbn [Alerts.insert_sorted].
  - apply Permutation_refl.
  - destruct (Alerts.key_le a b).
    + apply Permutation_refl.
    + eapply perm_trans; [apply perm_swap|]. apply perm_skip. exact IH.
Qed.

Lemma sort_alerts_perm l : Permutation l (Alerts.sort_alerts l).
Proof.
  unfold Alerts.sort_alerts. induction l as [|a l IH]; cbn [fold_right].
  - apply perm_nil.
  - eapply perm_trans; [apply perm_skip; exact IH|]. apply insert_sorted_perm.
Qed.

Lemma insert_sorted_sorted a l :
  StronglySorted Alerts.before l -> StronglySorted Alerts.before (Alerts.insert_sorted a l).
Proof.
  induction 1 as [|b l Hsorted IH Hall]; cbn [Alerts.insert_sorted].
  - constructor; constructor.
  - destruct (Alerts.key_le a b) eqn:E.
    + constructor; [constructor; assumption|].
      constructor; [exact E|].
      apply List.Forall_forall. intros c Hc.
      apply before_trans with b; [exact E|].
      apply (proj1 (List.Forall_forall _ _) Hall c Hc).
    + constructor; [exact IH|].
      apply List.Forall_forall. intros c Hc.
      apply (Permutation_in _ (Permutation_sym (insert_sorted_perm a l))) in Hc.
      destruct Hc as [<-|Hc]; [apply before_total; exact E|].
      apply (proj1 (List.Forall_forall _ _) Hall c Hc).
Qed.

Lemma sort_alerts_sorted l : StronglySorted Alerts.before (Alerts.sort_alerts l).
Proof.
  unfold Alerts.sort_alerts. induction l as [|a l IH]; cbn [fold_right].
  - constructor.
  - apply insert_sorted_sorted. exact IH.
Qed.

Lemma before_by_severity l :
  StronglySorted Alerts.before l ->
  StronglySorted
    (fun a b =>
       (Alerts.severity_order (Alerts.alert_severity b)
        <= Alerts.severity_order (Alerts.alert_severity a))%Z
       /\ (Alerts.alert_severity a = Alerts.alert_severity b ->
           Alerts.timestamp b <= Alerts.timestamp a)) l.
Proof.
  induction 1 as [|x l Hs IH Hall]; constructor; [exact IH|].
  apply List.Forall_forall. intros y Hy.
  pose proof (proj1 (List.Forall_forall _ _) Hall y Hy) as Hxy.
  apply key_le_spec in Hxy. destruct Hxy as [Hlt|[Heqs Hts]].
  - split; [lia|]. intros Hsame. rewrite Hsame in Hlt. lia.
  - split; [lia|]. intros _. exact Hts.
Qed.

(** Stamping never fails and keeps type, severity and timestamp. *)
Lemma stamp_alerts_ok clock brand_id alerts s :
  exists out s',
    Alerts.stamp_alerts clock brand_id alerts s = (Py.Ok out, s')
    /\ Alerts.historical_data s' = Alerts.historical_data s
    /\ map Alerts.type out = map Alerts.type alerts
    /\ map Alerts.alert_severity out = map Alerts.alert_severity alerts
    /\ List.Forall (fun o => Alerts.brand_id o = Some brand_id
                             /\ Alerts.alert_id o <> None) out.
Proof.
  revert s. induction alerts as [|a alerts IH]; intros s.
  - exists [], s. repeat split. constructor.
  - cbn [Alerts.stamp_alerts]. unfold Alerts.mbind at 1, Alerts.time_time.
    match goal with
    | |- context [Alerts.mbind (Alerts.stamp_alerts _ _ _) _ ?st] =>
        destruct (IH st) as (out & s' & Heq & Hh & Hty & Hsev & Hids)
    end.
    unfold Alerts.mbind. rewrite Heq. unfold Alerts.ret.
    eexists _, _. split; [reflexivity|].
    split; [rewrite Hh; reflexivity|].
    cbn [map Alerts.set_ids Alerts.type Alerts.alert_severity].
    split; [rewrite Hty; reflexivity|].
    split; [rewrite Hsev; reflexivity|].
    constructor; [|exact Hids].
    cbn. split; [reflexivity|discriminate].
Qed.

(** X10. [_process_alerts] never fails. It returns as many alerts as it was
    given, each with its brand and an alert id, ordered by severity from
    critical down to low whatever the input order (and by newest first
    within a severity), and it leaves the historical windows alone. *)
Theorem process_alerts_sorted
    (clock : nat -> Q) (alerts : list Alerts.alert) (brand_id : option string)
    (s : Alerts.state) :
  exists out s',
    Alerts._process_alerts clock alerts brand_id s = (Py.Ok out, s')
    /\ length out = length alerts
    /\ Permutation (map Alerts.type alerts) (map Alerts.type out)
    /\ StronglySorted
         (fun a b =>
            (Alerts.severity_order (Alerts.alert_severity b)
             <= Alerts.severity_order (Alerts.alert_severity a))%Z
            /\ (Alerts.alert_severity a = Alerts.alert_severity b ->
                Alerts.timestamp b <= Alerts.timestamp a)) out
    /\ List.Forall (fun o => Alerts.brand_id o = Some brand_id
                             /\ Alerts.alert_id o <> None) out
    /\ Alerts.historical_data s' = Alerts.historical_data s.
Proof.
  unfold Alerts._process_alerts.
  destruct alerts as [|a alerts].
  - exists [], s. repeat split; constructor.
  - destruct (stamp_alerts_ok clock brand_id (a :: alerts) s)
      as (stamped & s1 & Heq & Hh & Hty & Hsev & Hids).
    unfold Alerts.mbind at 1. rewrite Heq.
    unfold Alerts.mbind, Alerts.store_active, Alerts.ret.
    eexists _, _. split; [reflexivity|].
    pose proof (sort_alerts_perm stamped) as Hperm.
    split.
    { rewrite <- (Permutation_length Hperm).
      rewrite <- (length_map Alerts.type stamped), Hty, length_map. reflexivity. }
    split.
    { rewrite <- Hty. apply Permutation_map. exact Hperm. }
    split.
    { apply before_by_severity, sort_alerts_sorted. }
    split.
    { apply List.Forall_forall. intros o Ho.
      apply (Permutation_in _ (Permutation_sym Hperm)) in Ho.
      apply (proj1 (List.Forall_forall _ _) Hids o Ho). }
    cbn. exact Hh.
Qed.

(** ** The negative-sentiment spike rule *)

(** A sum over items on which the summand is defined is the naive
    total. *)
Lemma sum_from_total {A} (f : A -> Py.result Q) (g : A -> Q) (l : list A) (acc : Q) :
  List.Forall (fun x => f x = Py.Ok (g x)) l ->
  exists t, Alerts.sum_from f acc l = Py.Ok t
            /\ t == acc + Alerts.total (map g l).
Proof.
  revert acc. induction l as [|x l IH]; intros acc Hall.
  - exists acc. split; [reflexivity|]. unfold Alerts.total. cbn. ring.
  - inversion Hall as [|? ? Hx Hl]; subst.
    cbn [Alerts.sum_from]. rewrite Hx. cbn [Py.bind].
    destruct (IH (acc + g x) Hl) as (t & Ht & Heq).
    exists t. split; [exact Ht|].
    rewrite Heq. unfold Alerts.total. cbn [map fold_right]. ring.
Qed.





(** ** The crisis-keyword rule *)

Lemma group_add_keys level it groups k :
  In k (map fst (Alerts.group_add level it groups))
  <-> k = level \/ In k (map fst groups).
Proof.
  induction groups as [|[k0 members] groups IH]; cbn [Alerts.group_add map fst In].
  - split; [intros [H|[]]; left; symmetry; exact H|intros [H|[]]; left; symmetry; exact H].
  - destruct (String.eqb_spec k0 level) as [->|Hne]; cbn [map fst In].
    + split; [intros [H|H]; [left; symmetry; exact H|right; right; exact H]
             |intros [H|[H|H]]; [left; symmetry; exact H|left; exact H|right; exact H]].
    + rewrite IH.
      split; [intros [H|[H|H]]; [right; left; exact H|left; exact H|right; right; exact H]
             |intros [H|[H|H]]; [right; left; exact H|left; exact H|right; right; exact H]].
Qed.

Lemma risk_groups_keys_from crisis_mentions groups k :
  In k (map fst
          (fold_left (fun groups mention =>
                        Alerts.group_add (Alerts.level_of mention) mention groups)
                     crisis_mentions groups))
  <-> In k (map fst groups) \/ In k (map Alerts.level_of crisis_mentions).
Proof.
  revert groups. induction crisis_mentions as [|it l IH]; intros groups;
    cbn [fold_left map In].
  - tauto.
  - rewrite IH, group_add_keys. split; intros H; intuition auto.
Qed.

(** The keys of the groups are the risk levels that occur. *)
Lemma risk_groups_keys crisis_mentions k :
  In k (map fst (Alerts.risk_groups_of crisis_mentions))
  <-> In k (map Alerts.level_of crisis_mentions).
Proof.
  unfold Alerts.risk_groups_of.
  change (fun groups mention =>
            Alerts.group_add
              (Py.get (Alerts.risk_level
                         (Py.get (Alerts.crisis_indicators mention) Alerts.no_crisis))
                      "low") mention groups)
    with (fun groups mention =>
            Alerts.group_add (Alerts.level_of mention) mention groups).
  rewrite risk_groups_keys_from. cbn [map In]. tauto.
Qed.

Lemma severity_of_raises k e : Alerts.severity_of k = Py.Raise e -> e = Py.KeyError k.
Proof.
  unfold Alerts.severity_of.
  repeat match goal with
         | |- context [if ?b then _ else _] => destruct b
         end; intros H; try discriminate H.
  injection H as <-. reflexivity.
Qed.

Lemma max_from_known best keys :
  (forall k, In k keys -> exists sk, Alerts.severity_of k = Py.Ok sk) ->
  exists sv,
    Alerts.max_from best keys = Py.Ok sv
    /\ (Alerts.severity_order best <= Alerts.severity_order sv)%Z
    /\ (forall k sk, In k keys -> Alerts.severity_of k = Py.Ok sk ->
                     (Alerts.severity_order sk <= Alerts.severity_order sv)%Z)
    /\ (sv = best \/ exists k, In k keys /\ Alerts.severity_of k = Py.Ok sv).
Proof.
  revert best. induction keys as [|k keys IH]; intros best Hknown.
  - exists best. cbn. repeat split; [lia|intros ? ? []|left; reflexivity].
  - destruct (Hknown k (or_introl eq_refl)) as (sk & Hsk).
    cbn [Alerts.max_from]. rewrite Hsk. cbn [Py.bind].
    set (best' := if (Alerts.severity_order best <? Alerts.severity_order sk)%Z
                  then sk else best).
    destruct (IH best' (fun k' Hk' => Hknown k' (or_intror Hk')))
      as (sv & Hsv & Hbest & Hall & Hattained).
    assert (Hb : (Alerts.severity_order best <= Alerts.severity_order best')%Z
                 /\ (Alerts.severity_order sk <= Alerts.severity_order best')%Z
                 /\ (best' = best \/ best' = sk)).
    { subst best'.
      destruct (Z.ltb_spec (Alerts.severity_order best) (Alerts.severity_order sk));
        repeat split; try lia; auto. }
    destruct Hb as (Hb1 & Hb2 & Hb3).
    exists sv. split; [exact Hsv|]. split; [lia|]. split.
    + intros k' sk' [<-|Hk'] Hsk'.
      * rewrite Hsk in Hsk'. injection Hsk' as <-. lia.
      * apply (Hall k' sk' Hk' Hsk').
    + destruct Hattained as [->|(k' & Hk' & Hsv')].
      * destruct Hb3 as [->| ->]; [left; reflexivity|].
        right. exists k. split; [left; reflexivity|exact Hsk].
      * right. exists k'. split; [right; exact Hk'|exact Hsv'].
Qed.

Lemma max_from_unknown best keys :
  (exists k, In k keys /\ forall sk, Alerts.severity_of k <> Py.Ok sk) ->
  exists k', Alerts.max_from best keys = Py.Raise (Py.KeyError k').
Proof.
  revert best. induction keys as [|k keys IH]; intros best (k0 & Hin & Hbad).
  - destruct Hin.
  - cbn [Alerts.max_from].
    destruct (Alerts.severity_of k) as [sk|e] eqn:Hk; cbn [Py.bind].
    + destruct Hin as [<-|Hin]; [exfalso; apply (Hbad sk Hk)|].
      apply IH. exists k0. split; assumption.
    + exists k. rewrite (severity_of_raises k e Hk). reflexivity.
Qed.

(** X12. The crisis-keyword rule. Without a crisis mention it returns nothing
    and reads no clock. With crisis mentions whose risk levels are all
    known it emits exactly one alert, for all of them, whose severity is
    the highest risk level present, and which asks for immediate attention
    exactly when that level is high or critical. A crisis mention with any
    other risk level makes the rule raise a KeyError. *)
Theorem crisis_keyword_rule
    (clock : nat -> Q) (data : list Alerts.item)
    (platform brand_id : option string) (s : Alerts.state) :
  let crisis_mentions := List.filter Alerts.crisis_mention data in
  let r := Alerts._check_crisis_keywords clock data platform brand_id s in
  (crisis_mentions = [] -> r = (Py.Ok [], s))
  /\ (crisis_mentions <> [] ->
      (forall it, In it crisis_mentions ->
                  exists sk, Alerts.severity_of (Alerts.level_of it) = Py.Ok sk) ->
      exists a distribution keywords,
        fst r = Py.Ok [a]
        /\ Alerts.type a = Alerts.crisis_keywords_detected
        /\ Alerts.metrics a
           = Alerts.CrisisMetrics (length crisis_mentions) distribution keywords
               (match Alerts.alert_severity a with
                | Alerts.high | Alerts.critical => true
                | _ => false
                end)
        /\ (forall it sk, In it crisis_mentions ->
              Alerts.severity_of (Alerts.level_of it) = Py.Ok sk ->
              (Alerts.severity_order sk
               <= Alerts.severity_order (Alerts.alert_severity a))%Z)
        /\ (exists it, In it crisis_mentions
                       /\ Alerts.severity_of (Alerts.level_of it)
                          = Py.Ok (Alerts.alert_severity a)))
  /\ ((exists it, In it crisis_mentions
                  /\ forall sk, Alerts.severity_of (Alerts.level_of it) <> Py.Ok sk) ->
      exists k, r = (Py.Raise (Py.KeyError k), s)).
Proof.
  intros crisis_mentions r. subst r.
  unfold Alerts._check_crisis_keywords. fold crisis_mentions.
  clearbody crisis_mentions.
  destruct crisis_mentions as [|it0 rest].
  { split; [reflexivity|]. split; [congruence|]. intros (it & [] & _). }
  split; [discriminate|].
  cbv iota. set (cm := it0 :: rest).
  assert (Hit0 : In (Alerts.level_of it0) (map fst (Alerts.risk_groups_of cm)))
    by (apply risk_groups_keys; left; reflexivity).
  split.
  - intros _ Hknown.
    assert (Hkeys : forall k, In k (map fst (Alerts.risk_groups_of cm))
                              -> exists sk, Alerts.severity_of k = Py.Ok sk).
    { intros k Hk. apply risk_groups_keys in Hk.
      apply in_map_iff in Hk as (it & <- & Hit). apply Hknown. exact Hit. }
    assert (Hmax : exists sv,
               Alerts.max_risk_of (map fst (Alerts.risk_groups_of cm)) = Py.Ok sv
               /\ (forall k sk,
                     In k (map fst (Alerts.risk_groups_of cm)) ->
                     Alerts.severity_of k = Py.Ok sk ->
                     (Alerts.severity_order sk <= Alerts.severity_order sv)%Z)
               /\ exists k, In k (map fst (Alerts.risk_groups_of cm))
                            /\ Alerts.severity_of k = Py.Ok sv).
    { unfold Alerts.max_risk_of.
      destruct (map fst (Alerts.risk_groups_of cm)) as [|k keys]; [destruct Hit0|].
      destruct (Hkeys k (or_introl eq_refl)) as (sk & Hsk).
      rewrite Hsk. cbn [Py.bind].
      destruct (max_from_known sk keys (fun k' Hk' => Hkeys k' (or_intror Hk')))
        as (sv & Hsv & Hbest & Hall & Hattained).
      exists sv. split; [exact Hsv|]. split.
      + intros k' sk' [<-|Hk'] Hsk'.
        * rewrite Hsk in Hsk'. injection Hsk' as <-. exact Hbest.
        * apply (Hall k' sk' Hk' Hsk').
      + destruct Hattained as [->|(k' & Hk' & Hsv')].
        * exists k. split; [left; reflexivity|exact Hsk].
        * exists k'. split; [right; exact Hk'|exact Hsv']. }
    destruct Hmax as (sv & Hsv & Hall & (k & Hk & Hksv)).
    erewrite mbind_ok by (unfold Alerts.lift; rewrite Hsv; reflexivity).
    unfold Alerts.mbind, Alerts.time_time, Alerts.ret. cbn [fst].
    eexists _, _, _. split; [reflexivity|].
    cbn [Alerts.type Alerts.metrics Alerts.alert_severity].
    split; [reflexivity|]. split; [reflexivity|]. split.
    + intros it sk Hit Hsk. apply (Hall (Alerts.level_of it) sk); [|exact Hsk].
      apply risk_groups_keys. apply in_map. exact Hit.
    + apply risk_groups_keys in Hk. apply in_map_iff in Hk as (it & <- & Hit).
      exists it. split; assumption.
  - intros (it & Hit & Hbad).
    assert (Hkey : exists k, In k (map fst (Alerts.risk_groups_of cm))
                             /\ forall sk, Alerts.severity_of k <> Py.Ok sk).
    { exists (Alerts.level_of it). split; [|exact Hbad].
      apply risk_groups_keys. apply in_map. exact Hit. }
    assert (Hraise : exists k',
               Alerts.max_risk_of (map fst (Alerts.risk_groups_of cm))
               = Py.Raise (Py.KeyError k')).
    { unfold Alerts.max_risk_of.
      destruct (map fst (Alerts.risk_groups_of cm)) as [|k keys];
        [destruct Hkey as (? & [] & _)|].
      destruct (Alerts.severity_of k) as [sk|e] eqn:Hk; cbn [Py.bind].
      - apply max_from_unknown.
        destruct Hkey as (k0 & [<-|Hin] & Hk0); [exfalso; apply (Hk0 sk Hk)|].
        exists k0. split; assumption.
      - exists k. rewrite (severity_of_raises k e Hk). reflexivity. }
    destruct Hraise as (k' & Hk').
    exists k'.
    apply mbind_raise. unfold Alerts.lift. rewrite Hk'. reflexivity.
Qed.

Lemma crisis_keyword_rule_witness :
  exists a,
    fst (Alerts._check_crisis_keywords Samples.ticking [Samples.mixed_crisis_item]
           (Some "twitter") (Some "acme") Alerts.initial_state) = Py.Ok [a]
    /\ Alerts.type a = Alerts.crisis_keywords_detected.
Proof.
  destruct (crisis_keyword_rule Samples.ticking [Samples.mixed_crisis_item]
              (Some "twitter") (Some "acme") Alerts.initial_state)
    as (_ & Hfire & _).
  destruct Hfire as (a & distribution & keywords & Ha & Hty & _).
  - vm_compute. discriminate.
  - intros it [<-|[]]. exists Alerts.high. reflexivity.
  - exists a. split; assumption.
Defined.

(** ** The volume-spike rule *)

Lemma total_volumes_nonneg (w : list Alerts.entry) :
  0 <= Alerts.total (map Alerts.volume_of w).
Proof.
  unfold Alerts.total. induction w as [|e w IH]; cbn [map fold_right].
  - lra.
  - assert (0 <= Alerts.volume_of e).
    { destruct e as [v ts|r ts]; cbn [Alerts.volume_of]; [|lra].
      unfold Qle. cbn. lia. }
    lra.
Qed.

Lemma volume_entries_sum (w : list Alerts.entry) :
  forallb Alerts.is_volume_entry w = true ->
  List.Forall (fun e => Alerts.entry_volume e = Py.Ok (Alerts.volume_of e)) w.
Proof.
  intros Hall. apply List.Forall_forall. intros e He.
  apply (proj1 (forallb_forall _ _) Hall) in He.
  destruct e; [reflexivity|discriminate He].
Qed.

Lemma total_app (l1 l2 : list Q) :
  Alerts.total (l1 ++ l2) == Alerts.total l1 + Alerts.total l2.
Proof.
  unfold Alerts.total. induction l1 as [|x l1 IH]; cbn [app fold_right].
  - ring.
  - rewrite IH. ring.
Qed.

(** The last block of the volume rule, on a pruned window of volume
    entries that ends with the current batch. *)
Lemma volume_block clock rules platform current history stored_at s :
  forallb Alerts.is_volume_entry history = true ->
  let w := (history ++ [Alerts.VolumeEntry current stored_at])%list in
  let volume := inject_Z (Z.of_nat current) in
  let baseline := Alerts.mean (map Alerts.volume_of w) in
  let r := Alerts.volume_spike_alerts clock rules platform current w s in
  ((length w < 10)%nat -> fst r = Py.Ok [])
  /\ ((10 <= length w)%nat ->
      (baseline * Alerts.multiplier rules < volume ->
       exists a spike_factor,
         fst r = Py.Ok [a]
         /\ Alerts.type a = Alerts.volume_spike
         /\ spike_factor == volume / baseline
         /\ (5 < spike_factor -> Alerts.alert_severity a = Alerts.critical)
         /\ (3 < spike_factor -> spike_factor <= 5 ->
             Alerts.alert_severity a = Alerts.high)
         /\ (spike_factor <= 3 -> Alerts.alert_severity a = Alerts.medium))
      /\ (volume <= baseline * Alerts.multiplier rules -> fst r = Py.Ok [])).
Proof.
  intros Hall w volume baseline r. subst r volume.
  set (volume := inject_Z (Z.of_nat current)).
  assert (Hvoldef : volume = inject_Z (Z.of_nat current)) by reflexivity.
  clearbody volume. rewrite <- ?Hvoldef.
  unfold Alerts.volume_spike_alerts.
  split.
  - intros Hshort. apply Nat.leb_gt in Hshort. rewrite Hshort. reflexivity.
  - intros Hlong.
    assert (Hleb : (10 <=? length w)%nat = true) by (apply Nat.leb_le; exact Hlong).
    rewrite Hleb.
    assert (Hw : forallb Alerts.is_volume_entry w = true).
    { subst w. rewrite forallb_app, Hall. reflexivity. }
    destruct (sum_from_total _ _ w 0 (volume_entries_sum w Hw)) as (t & Ht & Heq).
    assert (Hnz : ~ inject_Z (Z.of_nat (length w)) == 0).
    { intros H0. unfold Qeq in H0. cbn in H0. lia. }
    assert (Hlenpos : 0 < inject_Z (Z.of_nat (length w))).
    { unfold Qlt. cbn. lia. }
    erewrite mbind_ok
      by (unfold Alerts.lift, Alerts.sum_of; rewrite Ht; reflexivity).
    erewrite mbind_ok.
    2:{ unfold Alerts.lift, Alerts.div.
        destruct (Qeq_bool (inject_Z (Z.of_nat (length w))) 0) eqn:Hz;
          [apply Qeq_bool_iff in Hz; contradiction|reflexivity]. }
    cbv beta zeta.
    set (avg := t / inject_Z (Z.of_nat (length w))).
    assert (Havg : avg == baseline).
    { subst avg baseline. unfold Alerts.mean.
      rewrite Heq, length_map. field. exact Hnz. }
    (* the current batch is part of the window, so a batch that exceeds
       the baseline has a positive baseline *)
    assert (Hvol : 0 <= volume) by (rewrite Hvoldef; unfold Qle; cbn; lia).
    assert (Htotal : volume <= Alerts.total (map Alerts.volume_of w)).
    { subst w. rewrite map_app, total_app.
      pose proof (total_volumes_nonneg history) as Hh.
      unfold Alerts.total at 2. cbn [map fold_right Alerts.volume_of].
      rewrite <- Hvoldef. lra. }
    assert (Hprod : baseline * inject_Z (Z.of_nat (length w))
                    == Alerts.total (map Alerts.volume_of w)).
    { subst baseline. unfold Alerts.mean. rewrite length_map. field. exact Hnz. }
    rewrite <- ?Hvoldef.
    rewrite (Qgtb_compat volume volume (avg * Alerts.multiplier rules)
               (baseline * Alerts.multiplier rules) (Qeq_refl _))
      by (rewrite Havg; reflexivity).
    destruct (Py.Qgtb volume (baseline * Alerts.multiplier rules)) eqn:Hfire;
      [apply Qgtb_gt in Hfire | apply Qgtb_le in Hfire].
    + split; [intros _|intros Hle; exfalso; lra].
      assert (Hpos : 0 < baseline).
      { destruct (Qlt_le_dec 0 baseline) as [H|H]; [exact H|exfalso].
        set (L := inject_Z (Z.of_nat (length w))) in *.
        set (T := Alerts.total (map Alerts.volume_of w)) in *.
        assert (HbL : baseline * L <= 0) by nra.
        assert (Hvz : volume == 0) by lra.
        assert (HTz : T == 0) by lra.
        assert (Hbz : baseline == 0) by nra.
        rewrite Hbz in Hfire. lra. }
      erewrite mbind_ok.
      2:{ unfold Alerts.lift, Alerts.div.
          destruct (Qeq_bool avg 0) eqn:Hz; [|reflexivity].
          apply Qeq_bool_iff in Hz. exfalso. lra. }
      cbv beta zeta.
      unfold Alerts.mbind, Alerts.time_time, Alerts.ret. cbn [fst].
      eexists _, (volume / avg). split; [reflexivity|].
      cbn [Alerts.type Alerts.alert_severity].
      split; [reflexivity|]. split; [rewrite Havg; reflexivity|].
      split; [|split].
      * intros H5. apply Qgtb_gt in H5. rewrite H5. reflexivity.
      * intros H3 H5. apply Qgtb_gt in H3. apply Qgtb_le in H5.
        rewrite H5, H3. reflexivity.
      * intros H3.
        assert (H5 : volume / avg <= 5) by lra.
        apply Qgtb_le in H3. apply Qgtb_le in H5. rewrite H5, H3. reflexivity.
    + split; [intros Hgt; exfalso; lra|intros _; reflexivity].
Qed.

(** X13. The volume-spike rule, for a window of volume entries and a clock that
    has not advanced seven days between storing and pruning. The batch
    size is appended to the pruned 7-day window; with fewer than 10
    samples nothing is emitted; otherwise the baseline is the mean of the
    whole window, the current batch included, and a volume_spike alert is
    emitted exactly when the batch size exceeds the baseline times the
    multiplier, with severity "critical" above a spike factor of 5, "high"
    above 3 and "medium" otherwise. The rule does not raise: a batch that
    exceeds the baseline has a positive baseline. *)
Theorem volume_spike_rule
    (clock : nat -> Q) (rules : Alerts.alert_rules) (data : list Alerts.item)
    (platform brand_id : option string) (s : Alerts.state) :
  let key := Alerts.volume_key brand_id platform in
  let stored_at := clock (Alerts.ticks s) in
  let now := clock (S (Alerts.ticks s)) in
  let history :=
    Alerts.recent (now - Alerts.volume_retention) (Alerts.window key s) in
  now - Alerts.volume_retention < stored_at ->
  forallb Alerts.is_volume_entry history = true ->
  let r := Alerts._check_volume_spike clock rules data platform brand_id s in
  let volume := inject_Z (Z.of_nat (length data)) in
  let baseline := Alerts.mean (map Alerts.volume_of (Alerts.window key (snd r))) in
  Alerts.window key (snd r)
  = (history ++ [Alerts.VolumeEntry (length data) stored_at])%list
  /\ ((length (Alerts.window key (snd r)) < 10)%nat -> fst r = Py.Ok [])
  /\ ((10 <= length (Alerts.window key (snd r)))%nat ->
      (baseline * Alerts.multiplier rules < volume ->
       exists a spike_factor,
         fst r = Py.Ok [a]
         /\ Alerts.type a = Alerts.volume_spike
         /\ spike_factor == volume / baseline
         /\ (5 < spike_factor -> Alerts.alert_severity a = Alerts.critical)
         /\ (3 < spike_factor -> spike_factor <= 5 ->
             Alerts.alert_severity a = Alerts.high)
         /\ (spike_factor <= 3 -> Alerts.alert_severity a = Alerts.medium))
      /\ (volume <= baseline * Alerts.multiplier rules -> fst r = Py.Ok [])).
Proof.
  intros key stored_at now history Hclock Hall r volume baseline.
  assert (Hpruned :
            Alerts.recent (now - Alerts.volume_retention)
              (Alerts.window key s ++ [Alerts.VolumeEntry (length data) stored_at])
            = (history ++ [Alerts.VolumeEntry (length data) stored_at])%list).
  { rewrite recent_app. f_equal.
    unfold Alerts.recent. cbn [List.filter Alerts.entry_timestamp].
    replace (Py.Qgtb stored_at (now - Alerts.volume_retention)) with true
      by (symmetry; apply Qgtb_gt; exact Hclock).
    reflexivity. }
  destruct (volume_rule_prefix clock rules data platform brand_id s)
    as (s_p & Heq & Hwp & _).
  fold key stored_at now in Heq, Hwp.
  rewrite Hpruned in Heq, Hwp.
  assert (Hw : Alerts.window key (snd r)
               = (history ++ [Alerts.VolumeEntry (length data) stored_at])%list).
  { subst r. rewrite Heq. rewrite <- Hwp at 2.
    unfold Alerts.window. rewrite volume_spike_alerts_windows. reflexivity. }
  split; [exact Hw|].
  subst baseline. rewrite Hw. subst r. rewrite Heq.
  destruct (volume_block clock rules platform (length data) history stored_at s_p Hall)
    as (Hshort & Hlong).
  split; [exact Hshort|exact Hlong].
Qed.

Lemma volume_spike_rule_witness :
  fst (Alerts._check_volume_spike Samples.ticking Alerts.default_rules
         [Samples.negative_item] (Some "twitter") (Some "acme")
         Alerts.initial_state) = Py.Ok [].
Proof.
  destruct (volume_spike_rule Samples.ticking Alerts.default_rules
              [Samples.negative_item] (Some "twitter") (Some "acme")
              Alerts.initial_state) as (Hw & Hshort & _).
  - vm_compute. reflexivity.
  - vm_compute. reflexivity.
  - apply Hshort. rewrite Hw. vm_compute. lia.
Defined.
(** ** The crisis score of the workflow *)

Lemma count_label_le label sentiments :
  (Pipeline.count_label label sentiments <= length sentiments)%nat.
Proof. unfold Pipeline.count_label. apply List.filter_length_le. Qed.

Lemma ratio_range (n total : nat) :
  (n <= total)%nat -> 0 <= Pipeline.ratio n total /\ Pipeline.ratio n total <= 1.
Proof.
  intros Hle. unfold Pipeline.ratio.
  destruct (0 <? total)%nat eqn:Hpos; [|split; lra].
  apply Nat.ltb_lt in Hpos.
  assert (Ht : 0 < inject_Z (Z.of_nat total)).
  { change 0 with (inject_Z 0). rewrite <- Zlt_Qlt. lia. }
  assert (Hn : 0 <= inject_Z (Z.of_nat n)).
  { change 0 with (inject_Z 0). rewrite <- Zle_Qle. lia. }
  assert (Hnt : inject_Z (Z.of_nat n) <= inject_Z (Z.of_nat total)).
  { rewrite <- Zle_Qle. lia. }
  split.
  - apply Qle_shift_div_l; [exact Ht|]. lra.
  - apply Qle_shift_div_r; [exact Ht|]. lra.
Qed.

Lemma capped_share_range (count : nat) (per : Q) :
  0 < per ->
  0 <= Py.min (inject_Z (Z.of_nat count) / per) 1
  /\ Py.min (inject_Z (Z.of_nat count) / per) 1 <= 1.
Proof.
  intros Hper.
  assert (Hn : 0 <= inject_Z (Z.of_nat count)).
  { change 0 with (inject_Z 0). rewrite <- Zle_Qle. lia. }
  assert (Hq : 0 <= inject_Z (Z.of_nat count) / per).
  { apply Qle_shift_div_l; [exact Hper|]. lra. }
  unfold Py.min.
  destruct (Py.Qltb 1 (inject_Z (Z.of_nat count) / per)) eqn:Hc.
  - split; lra.
  - apply Qltb_ge in Hc. split; lra.
Qed.

(** The score of a summarized batch, bounded by its negative share. *)
Lemma crisis_score_bounds (results : list Pipeline.analysis_result) :
  let sentiments :=
    map (fun r => Py.get (Pipeline.sentiment r) "neutral") results in
  let negative :=
    Pipeline.ratio (Pipeline.count_label "negative" sentiments) (length results) in
  let score := Pipeline.crisis_score_of (Pipeline._summarize_sentiment_analysis results) in
  0 <= score /\ score <= 1 /\ score <= negative * 0.4 + 0.6
  /\ (results = [] -> score == 0).
Proof.
  intros sentiments negative score. subst score.
  destruct results as [|r results].
  - subst negative sentiments.
    split; [|split; [|split]];
      [vm_compute; intro H; discriminate H ..|intros _; vm_compute; reflexivity].
  - assert (Hs : Pipeline._summarize_sentiment_analysis (r :: results)
                 = Some {| Pipeline.total_analyzed := length sentiments;
                           Pipeline.positive_ratio :=
                             Pipeline.ratio (Pipeline.count_label "positive" sentiments)
                                            (length sentiments);
                           Pipeline.negative_ratio :=
                             Pipeline.ratio (Pipeline.count_label "negative" sentiments)
                                            (length sentiments);
                           Pipeline.neutral_ratio :=
                             Pipeline.ratio (Pipeline.count_label "neutral" sentiments)
                                            (length sentiments);
                           Pipeline.crisis_keywords :=
                             Z.of_nat (length (List.filter Pipeline.mentions_crisis
                                                           (r :: results)));
                           Pipeline.high_engagement_negative :=
                             Z.of_nat (length (List.filter Pipeline.negative_and_engaging
                                                           (r :: results))) |})
      by reflexivity.
    rewrite Hs. unfold Pipeline.crisis_score_of.
    cbn [Pipeline.negative_ratio Pipeline.crisis_keywords
         Pipeline.high_engagement_negative].
    assert (Hlen : length sentiments = length (r :: results))
      by (subst sentiments; apply length_map).
    rewrite Hlen. fold negative.
    assert (Hneg : 0 <= negative /\ negative <= 1).
    { apply ratio_range. rewrite <- Hlen. apply count_label_le. }
    pose proof (capped_share_range
                  (length (List.filter Pipeline.mentions_crisis (r :: results))) 5
                  ltac:(lra)) as Hk.
    pose proof (capped_share_range
                  (length (List.filter Pipeline.negative_and_engaging (r :: results))) 3
                  ltac:(lra)) as He.
    set (k := Py.min _ 1) in *. clearbody k.
    set (e := Py.min _ 1) in *. clearbody e.
    clearbody negative.
    repeat split; try lra. intros Habs. discriminate Habs.
Qed.

(** X14. The crisis score [_crisis_assessment_node] stores for a summarized
    batch of analysis results lies between 0 and 1, a batch with nothing
    to summarize scores 0, and the flag and the level the node stores
    agree with the score: "severe" above 0.8, "moderate" above 0.6 and up
    to 0.8, "low" otherwise, and [crisis_detected] exactly when the level
    is not "low". *)
Theorem crisis_assessment_consistent (results : list Pipeline.analysis_result) :
  let risk :=
    Pipeline._crisis_assessment_node (Pipeline._summarize_sentiment_analysis results) in
  exists score,
    Pipeline.crisis_score risk = Some score
    /\ 0 <= score /\ score <= 1
    /\ (results = [] -> score == 0)
    /\ (0.8 < score <-> Pipeline.crisis_level risk = Some "severe")
    /\ (0.6 < score /\ score <= 0.8 <-> Pipeline.crisis_level risk = Some "moderate")
    /\ (score <= 0.6 <-> Pipeline.crisis_level risk = Some "low")
    /\ (Pipeline.crisis_detected risk = Some true
        <-> Pipeline.crisis_level risk <> Some "low").
Proof.
  intros risk.
  destruct (crisis_score_bounds results) as (H0 & H1 & _ & Hempty).
  subst risk. unfold Pipeline._crisis_assessment_node.
  set (score := Pipeline.crisis_score_of _) in *. clearbody score.
  exists score. cbn [Pipeline.crisis_score Pipeline.crisis_level Pipeline.crisis_detected].
  split; [reflexivity|]. split; [exact H0|]. split; [exact H1|].
  split; [exact Hempty|].
  destruct (Py.Qgtb score 0.8) eqn:H8; destruct (Py.Qgtb score 0.6) eqn:H6;
    try apply Qgtb_gt in H8; try apply Qgtb_le in H8;
    try apply Qgtb_gt in H6; try apply Qgtb_le in H6;
    repeat split; intros; try discriminate; try congruence; try lra.
Qed.

(** X15. The router sends the workflow to crisis escalation only when more
    than half of the analysed results are negative; the level stored is
    then "severe" and the escalation node lists the four actions of the
    top tier, never the three of the tier for scores between 0.6 and
    0.8. *)
Theorem escalation_needs_negative_majority
    (results : list Pipeline.analysis_result) (mentions : list Workflow.mention) :
  let risk :=
    Pipeline._crisis_assessment_node (Pipeline._summarize_sentiment_analysis results) in
  let sentiments :=
    map (fun r => Py.get (Pipeline.sentiment r) "neutral") results in
  Pipeline._route_after_crisis_assessment risk mentions = "escalate_crisis" ->
  (length results < 2 * Pipeline.count_label "negative" sentiments)%nat
  /\ Pipeline.crisis_level risk = Some "severe"
  /\ Pipeline.escalation_actions (Pipeline._crisis_escalation_node risk)
     = ["notify_ceo_immediately"; "activate_crisis_team";
        "prepare_press_statement"; "monitor_social_sentiment_hourly"].
Proof.
  intros risk sentiments Hroute.
  destruct (crisis_score_bounds results) as (H0 & H1 & Hneg & Hempty).
  fold sentiments in Hneg.
  subst risk.
  unfold Pipeline._route_after_crisis_assessment, Pipeline._crisis_escalation_node,
    Pipeline._crisis_assessment_node in *.
  cbn [Pipeline.crisis_score Pipeline.crisis_level Pipeline.escalation_actions Py.get] in *.
  set (score := Pipeline.crisis_score_of _) in *. clearbody score.
  destruct (Py.Qgtb score 0.8) eqn:H8.
  - split; [|split; reflexivity].
    apply Qgtb_gt in H8.
    set (c := Pipeline.count_label "negative" sentiments) in *.
    unfold Pipeline.ratio in Hneg.
    destruct (0 <? length results)%nat eqn:Hpos; [|lra].
    apply Nat.ltb_lt in Hpos.
    assert (Ht : 0 < inject_Z (Z.of_nat (length results))).
    { change 0 with (inject_Z 0). rewrite <- Zlt_Qlt. lia. }
    set (t := inject_Z (Z.of_nat (length results))) in *.
    set (n := inject_Z (Z.of_nat c)) in *.
    assert (Hhalf : 1 # 2 < n / t) by lra.
    assert (Hn : t < 2 * n).
    { assert (Hnt : n / t * t == n) by (field; lra).
      assert ((1 # 2) * t < n / t * t) by (apply Qmult_lt_compat_r; assumption).
      lra. }
    subst t n.
    assert (H2 : 2 * inject_Z (Z.of_nat c) == inject_Z (2 * Z.of_nat c)).
    { rewrite inject_Z_mult. reflexivity. }
    rewrite H2 in Hn. rewrite <- Zlt_Qlt in Hn. lia.
  - exfalso.
    destruct (0 <? length (Pipeline._identify_mentions_needing_response mentions))%nat;
      discriminate Hroute.
Qed.

Lemma escalation_needs_negative_majority_witness :
  Pipeline.crisis_level
    (Pipeline._crisis_assessment_node
       (Pipeline._summarize_sentiment_analysis Samples.boycott_batch))
  = Some "severe".
Proof.
  apply (escalation_needs_negative_majority Samples.boycott_batch []).
  vm_compute. reflexivity.
Defined.

(** ** Quality and approval summaries of the workflow *)

Lemma quality_fold (responses : list Pipeline.response_result)
    (scores : gmap string Q) (total : Q) (count : nat) :
  exists scores' total',
    fold_left Pipeline.quality_step responses (scores, total, count)
    = (scores', total', (count + length responses)%nat)
    /\ total' == total
                 + Metrics.history_total
                     (map (fun r => Py.get (Pipeline.quality_score r) 0.5) responses).
Proof.
  revert scores total count.
  induction responses as [|r responses IH]; intros scores total count.
  - exists scores, total. cbn. split; [f_equal; lia|]. lra.
  - change (fold_left Pipeline.quality_step (r :: responses) (scores, total, count))
      with (fold_left Pipeline.quality_step responses
              (<[Py.get (Pipeline.mention_id r) "unknown"
                 := Py.get (Pipeline.quality_score r) 0.5]> scores,
               total + Py.get (Pipeline.quality_score r) 0.5, S count)).
    destruct (IH (<[Py.get (Pipeline.mention_id r) "unknown"
                    := Py.get (Pipeline.quality_score r) 0.5]> scores)
                 (total + Py.get (Pipeline.quality_score r) 0.5) (S count))
      as (scores' & total' & Heq & Htotal).
    exists scores', total'. split.
    + rewrite Heq. f_equal. cbn [length]. lia.
    + rewrite Htotal. cbn [map]. unfold Metrics.history_total.
      cbn [fold_right]. ring.
Qed.

Lemma history_total_lower (samples : list Q) (bound : Q) :
  (forall x, In x samples -> bound <= x) ->
  bound * inject_Z (Z.of_nat (length samples)) <= Metrics.history_total samples.
Proof.
  induction samples as [|x samples IH]; intros Hall.
  - unfold Metrics.history_total. cbn [length fold_right].
    change (inject_Z (Z.of_nat 0)) with 0. lra.
  - cbn [length]. pose proof (inject_S (length samples)) as HS.
    unfold Metrics.history_total in *. cbn [fold_right].
    assert (bound <= x) by (apply Hall; left; reflexivity).
    assert (bound * inject_Z (Z.of_nat (length samples))
            <= fold_right Qplus 0 samples)
      by (apply IH; intros y Hy; apply Hall; right; exact Hy).
    set (k := inject_Z (Z.of_nat (length samples))) in *.
    set (k1 := inject_Z (Z.of_nat (S (length samples)))) in *.
    assert (Hk : k1 == k + 1) by lra.
    rewrite Hk. lra.
Qed.

(** X16. [_quality_assessment_node] always leaves an "average" entry: 0.5
    when there is no generated response, otherwise the mean of the
    responses' quality scores with 0.5 standing in for a missing one.
    The approval router answers "regenerate" exactly when that average
    is below 0.5, so never for an empty batch and never when every
    response scores at least 0.5. *)
Theorem quality_average_gate
    (quality_scores : gmap string Q) (responses : list Pipeline.response_result)
    (performance : option Pipeline.performance_dict) :
  let scores' := Pipeline._quality_assessment_node quality_scores responses in
  let samples := map (fun r => Py.get (Pipeline.quality_score r) 0.5) responses in
  exists average,
    scores' !! "average" = Some average
    /\ (responses = [] -> average == 0.5)
    /\ (responses <> [] -> average == Metrics.history_mean samples)
    /\ (Pipeline._route_approval_decision scores' performance = "regenerate"
        <-> average < 0.5)
    /\ ((forall r, In r responses -> 0.5 <= Py.get (Pipeline.quality_score r) 0.5) ->
        Pipeline._route_approval_decision scores' performance <> "regenerate").
Proof.
  intros scores' samples.
  destruct (quality_fold responses quality_scores 0 0%nat)
    as (m & total & Heq & Htotal).
  fold samples in Htotal.
  assert (Hnode : scores'
                  = if (0 <? length responses)%nat
                    then <["average" := total / inject_Z (Z.of_nat (length responses))]> m
                    else <["average" := 0.5]> m).
  { subst scores'. unfold Pipeline._quality_assessment_node. rewrite Heq.
    reflexivity. }
  assert (Hroute : forall average,
             scores' !! "average" = Some average ->
             (Pipeline._route_approval_decision scores' performance = "regenerate"
              <-> average < 0.5)).
  { intros average Hlook. unfold Pipeline._route_approval_decision.
    rewrite Hlook. cbn [Py.get].
    destruct (Py.Qltb average 0.5) eqn:Hlt.
    - apply Qltb_lt in Hlt. split; [intros _; exact Hlt|reflexivity].
    - apply Qltb_ge in Hlt. split.
      + intros Habs. exfalso.
        destruct performance as [p|];
          repeat match goal with
                 | H : context [if ?c then _ else _] |- _ => destruct c
                 end; discriminate Habs.
      + intros Habs. lra. }
  destruct responses as [|r responses].
  - exists 0.5. cbn [length Nat.ltb Nat.leb] in Hnode.
    assert (Hlook : scores' !! "average" = Some 0.5)
      by (rewrite Hnode; apply lookup_insert_eq).
    split; [exact Hlook|].
    split; [intros _; reflexivity|].
    split; [intros Habs; exfalso; apply Habs; reflexivity|].
    split; [apply Hroute; exact Hlook|].
    intros _ Habs. apply (Hroute _ Hlook) in Habs. lra.
  - set (n := length (r :: responses)) in *.
    assert (Hpos : (0 <? n)%nat = true) by (apply Nat.ltb_lt; subst n; cbn; lia).
    rewrite Hpos in Hnode.
    exists (total / inject_Z (Z.of_nat n)).
    assert (Hlook : scores' !! "average" = Some (total / inject_Z (Z.of_nat n)))
      by (rewrite Hnode; apply lookup_insert_eq).
    assert (Hn : 0 < inject_Z (Z.of_nat n)).
    { change 0 with (inject_Z 0). rewrite <- Zlt_Qlt. apply Nat.ltb_lt in Hpos. lia. }
    assert (Hlen : length samples = n) by (subst samples n; apply length_map).
    assert (Hmean : total / inject_Z (Z.of_nat n) == Metrics.history_mean samples).
    { unfold Metrics.history_mean. rewrite Hlen, Htotal. field. lra. }
    split; [exact Hlook|].
    split; [intros Habs; discriminate Habs|].
    split; [intros _; exact Hmean|].
    split; [apply Hroute; exact Hlook|].
    intros Hall Habs. apply (Hroute _ Hlook) in Habs.
    assert (Hlow : 0.5 * inject_Z (Z.of_nat (length samples))
                   <= Metrics.history_total samples).
    { apply history_total_lower. intros x Hx. subst samples.
      apply in_map_iff in Hx. destruct Hx as (r' & <- & Hr'). apply Hall, Hr'. }
    rewrite Hlen in Hlow.
    assert (Hge : 0.5 <= total / inject_Z (Z.of_nat n)).
    { apply Qle_shift_div_l; [exact Hn|]. lra. }
    lra.
Qed.

Lemma approval_counts_le (f : Pipeline.decision_dict -> bool)
    (decisions : list Pipeline.decision_dict) :
  (length (List.filter f decisions) <= length decisions)%nat.
Proof. apply List.filter_length_le. Qed.

(** X17. [_approval_decision_node] appends one decision for each generated
    response to the decisions already in the state and counts over all
    of them: neither count exceeds the number of decisions and the
    efficiency is the auto-approved share, between 0 and 1. The router
    then answers "human_review" only when no decision at all was
    auto-approved: one auto-approved decision sends the workflow to
    auto-publishing even when other responses require review. *)
Theorem approval_summary
    (approval_decisions : list Pipeline.decision_dict)
    (responses : list Pipeline.response_result) (quality_scores : gmap string Q) :
  let r := Pipeline._approval_decision_node approval_decisions responses in
  let decisions := fst r in
  let performance := snd r in
  length decisions = (length approval_decisions + length responses)%nat
  /\ (Pipeline.auto_approved performance <= length decisions)%nat
  /\ (Pipeline.requires_review performance <= length decisions)%nat
  /\ 0 <= Pipeline.approval_efficiency performance
  /\ Pipeline.approval_efficiency performance <= 1
  /\ Pipeline.approval_efficiency performance * inject_Z (Z.of_nat (length decisions))
     == inject_Z (Z.of_nat (Pipeline.auto_approved performance))
  /\ (Pipeline._route_approval_decision quality_scores (Some performance)
      = "human_review" ->
      Pipeline.auto_approved performance = 0%nat
      /\ (0 < Pipeline.requires_review performance)%nat
      /\ Pipeline.approval_efficiency performance == 0).
Proof.
  intros r decisions performance.
  subst performance decisions r. unfold Pipeline._approval_decision_node.
  cbn [fst snd Pipeline.auto_approved Pipeline.requires_review
       Pipeline.approval_efficiency].
  set (decisions := (approval_decisions ++ map _ responses)%list).
  set (auto := length (List.filter Pipeline.is_auto_approved decisions)).
  set (review := length (List.filter Pipeline.needs_review decisions)).
  assert (Hauto : (auto <= length decisions)%nat) by apply approval_counts_le.
  assert (Hreview : (review <= length decisions)%nat) by apply approval_counts_le.
  assert (Hlen : length decisions = (length approval_decisions + length responses)%nat).
  { subst decisions. rewrite length_app, length_map. reflexivity. }
  assert (Heff : match decisions with
                 | [] => 0
                 | _ => inject_Z (Z.of_nat auto) / inject_Z (Z.of_nat (length decisions))
                 end
                 = Pipeline.ratio auto (length decisions)
                 \/ (decisions = [] /\ auto = 0%nat)).
  { destruct decisions as [|d decisions'] eqn:Hd.
    - right. split; [reflexivity|]. reflexivity.
    - left. unfold Pipeline.ratio. reflexivity. }
  clearbody auto review.
  assert (Hrange : 0 <= match decisions with
                        | [] => 0
                        | _ => inject_Z (Z.of_nat auto)
                               / inject_Z (Z.of_nat (length decisions))
                        end
                   /\ match decisions with
                      | [] => 0
                      | _ => inject_Z (Z.of_nat auto)
                             / inject_Z (Z.of_nat (length decisions))
                      end <= 1
                   /\ match decisions with
                      | [] => 0
                      | _ => inject_Z (Z.of_nat auto)
                             / inject_Z (Z.of_nat (length decisions))
                      end * inject_Z (Z.of_nat (length decisions))
                      == inject_Z (Z.of_nat auto)).
  { destruct Heff as [Heff|[Hd ->]].
    - rewrite Heff. destruct (ratio_range auto (length decisions) Hauto) as [H0 H1].
      split; [exact H0|]. split; [exact H1|].
      unfold Pipeline.ratio.
      destruct (0 <? length decisions)%nat eqn:Hpos.
      + apply Nat.ltb_lt in Hpos. field.
        assert (0 < inject_Z (Z.of_nat (length decisions))).
        { change 0 with (inject_Z 0). rewrite <- Zlt_Qlt. lia. }
        lra.
      + apply Nat.ltb_ge in Hpos.
        assert (auto = 0%nat) as -> by lia. cbn. ring.
    - rewrite Hd. cbn. repeat split; try lra. }
  destruct Hrange as (H0 & H1 & Hprod).
  split; [exact Hlen|]. split; [exact Hauto|]. split; [exact Hreview|].
  split; [exact H0|]. split; [exact H1|]. split; [exact Hprod|].
  unfold Pipeline._route_approval_decision.
  cbn [Pipeline.auto_approved Pipeline.requires_review].
  destruct (Py.Qltb _ 0.5); [intros Habs; discriminate Habs|].
  destruct (0 <? auto)%nat eqn:Ha; [intros Habs; discriminate Habs|].
  destruct (0 <? review)%nat eqn:Hr; [|intros Habs; discriminate Habs].
  intros _. apply Nat.ltb_ge in Ha. apply Nat.ltb_lt in Hr.
  assert (auto = 0%nat) as Hz by lia.
  split; [exact Hz|]. split; [exact Hr|].
  subst auto. destruct decisions; [reflexivity|]. cbn. unfold Qdiv. ring.
Qed.

(** ** The retry loop of data collection *)

Lemma mem_app_l name (steps more : list string) :
  Workflow.mem name steps = true -> Workflow.mem name (steps ++ more) = true.
Proof.
  unfold Workflow.mem. intros H. rewrite existsb_app, H. reflexivity.
Qed.

(** The node never removes a failed step and never touches the
    context. *)
Lemma data_collection_node_keeps outcome state :
  Workflow.context (Pipeline._data_collection_node outcome state)
  = Workflow.context state
  /\ (Workflow.mem "collect_data" (Workflow.failed_steps state) = true ->
      Workflow.mem "collect_data"
        (Workflow.failed_steps (Pipeline._data_collection_node outcome state)) = true).
Proof.
  unfold Pipeline._data_collection_node.
  destruct outcome as [| |success data];
    [| |destruct (Py.get success false)];
    unfold Pipeline.append_failed, Pipeline.append_completed,
      Pipeline.set_step_and_data;
    cbn [Workflow.context Workflow.failed_steps];
    (split; [reflexivity|]); intros H;
    solve [exact H | apply mem_app_l; exact H].
Qed.

(** A failed run of the node records the failure. *)
Lemma data_collection_node_fails outcome state :
  match outcome with
  | Pipeline.NoAgent => False
  | Pipeline.AgentRaised => True
  | Pipeline.AgentResult success _ => Py.get success false = false
  end ->
  Workflow.mem "collect_data"
    (Workflow.failed_steps (Pipeline._data_collection_node outcome state)) = true.
Proof.
  unfold Pipeline._data_collection_node.
  destruct outcome as [| |success data].
  - intros [].
  - intros _.
    unfold Pipeline.append_failed, Pipeline.set_step_and_data.
    cbn [Workflow.failed_steps].
    unfold Workflow.mem. rewrite existsb_app.
    apply orb_true_iff. right. reflexivity.
  - intros ->.
    unfold Pipeline.append_failed, Pipeline.set_step_and_data.
    cbn [Workflow.failed_steps].
    unfold Workflow.mem. rewrite existsb_app.
    apply orb_true_iff. right. reflexivity.
Qed.

Lemma route_on_failure state :
  Workflow.mem "collect_data" (Workflow.failed_steps state) = true ->
  Workflow._route_after_data_collection state
  = let retry_count :=
      Py.get (Workflow.data_collection_retries (Workflow.context state)) 0%Z in
    if (retry_count <? 2)%Z
    then ("retry_collection",
          Workflow.set_context
            (Workflow.set_retries (retry_count + 1) (Workflow.context state)) state)
    else ("abort", state).
Proof.
  intros H. unfold Workflow._route_after_data_collection. rewrite H. reflexivity.
Qed.

(** One unrolling of the loop at a state whose next run of the node
    leaves "collect_data" among the failed steps. *)
Lemma collect_loop_failed outcome later state runs :
  Workflow.mem "collect_data"
    (Workflow.failed_steps (Pipeline._data_collection_node outcome state)) = true ->
  let retry_count :=
    Py.get (Workflow.data_collection_retries (Workflow.context state)) 0%Z in
  Pipeline.collect_loop (outcome :: later) state runs
  = if (retry_count <? 2)%Z
    then Pipeline.collect_loop later
           (Workflow.set_context
              (Workflow.set_retries (retry_count + 1) (Workflow.context state))
              (Pipeline._data_collection_node outcome state))
           (S runs)
    else Some ("abort", Pipeline._data_collection_node outcome state, S runs).
Proof.
  intros Hfailed retry_count. cbn [Pipeline.collect_loop].
  rewrite (route_on_failure _ Hfailed).
  destruct (data_collection_node_keeps outcome state) as [Hctx _].
  rewrite Hctx. fold retry_count. clearbody retry_count. cbv zeta.
  destruct (retry_count <? 2)%Z; reflexivity.
Qed.

(** X18. A first failure of data collection is never recovered from: the
    failed step stays recorded, so whatever the two retries bring, even
    a successful collection with mentions, the router answers "abort"
    after the third run of the node and never "analyze_sentiment". *)
Theorem collection_failure_always_aborts
    (state : Workflow.AgentWorkflowState)
    (first second third : Pipeline.collection_outcome)
    (later : list Pipeline.collection_outcome) :
  Workflow.data_collection_retries (Workflow.context state) = None ->
  match first with
  | Pipeline.NoAgent => False
  | Pipeline.AgentRaised => True
  | Pipeline.AgentResult success _ => Py.get success false = false
  end ->
  exists final,
    Pipeline.collect_loop (first :: second :: third :: later) state 0
    = Some ("abort", final, 3%nat)
    /\ Workflow.data_collection_retries (Workflow.context final) = Some 2%Z
    /\ Workflow.collected_data final
       = Workflow.collected_data
           (Pipeline._data_collection_node third
              (Pipeline._data_collection_node second
                 (Pipeline._data_collection_node first state))).
Proof.
  intros Hfresh Hfirst.
  pose proof (data_collection_node_fails first state Hfirst) as H1.
  rewrite (collect_loop_failed first _ state 0 H1).
  rewrite Hfresh. cbn [Py.get Z.ltb Z.compare Z.add].
  set (s1 := Workflow.set_context _ (Pipeline._data_collection_node first state)).
  assert (Hs1 : Workflow.mem "collect_data" (Workflow.failed_steps s1) = true)
    by exact H1.
  assert (Hc1 : Workflow.data_collection_retries (Workflow.context s1) = Some 1%Z)
    by reflexivity.
  pose proof (proj2 (data_collection_node_keeps second s1) Hs1) as H2.
  rewrite (collect_loop_failed second _ s1 1 H2).
  rewrite Hc1. cbn [Py.get Z.ltb Z.compare Z.add Pos.compare Pos.compare_cont Pos.add].
  set (s2 := Workflow.set_context _ (Pipeline._data_collection_node second s1)).
  assert (Hs2 : Workflow.mem "collect_data" (Workflow.failed_steps s2) = true)
    by exact H2.
  assert (Hc2 : Workflow.data_collection_retries (Workflow.context s2) = Some 2%Z)
    by reflexivity.
  pose proof (proj2 (data_collection_node_keeps third s2) Hs2) as H3.
  rewrite (collect_loop_failed third _ s2 2 H3).
  rewrite Hc2. cbn [Py.get Z.ltb Z.compare Pos.compare Pos.compare_cont].
  eexists. split; [reflexivity|].
  split.
  - rewrite (proj1 (data_collection_node_keeps third s2)). exact Hc2.
  - subst s2 s1. unfold Pipeline._data_collection_node.
    destruct third as [| |s3 d3], second as [| |s2 d2], first as [| |s1 d1];
      try destruct (Py.get s3 false); try destruct (Py.get s2 false);
      try destruct (Py.get s1 false); reflexivity.
Qed.

Lemma collection_failure_always_aborts_witness :
  exists final,
    Pipeline.collect_loop
      [Pipeline.AgentRaised; Samples.found_one_mention; Samples.found_one_mention]
      Samples.new_workflow 0
    = Some ("abort", final, 3%nat)
    /\ Workflow.mentions (Workflow.collected_data final) <> None.
Proof.
  destruct (collection_failure_always_aborts Samples.new_workflow
              Pipeline.AgentRaised Samples.found_one_mention
              Samples.found_one_mention [] eq_refl I)
    as (final & Hloop & _ & Hdata).
  exists final. split; [exact Hloop|].
  rewrite Hdata. discriminate.
Defined.

(** ** The alert store *)

(** X19. Two alerts of the same type raised for one brand within the same
    second get the same alert id: both are returned to their callers,
    but the second replaces the first among the active alerts, which
    hold one entry for the two. *)
Theorem same_second_alerts_collide
    (clock : nat -> Q) (brand_id : option string) (first second : Alerts.alert)
    (s : Alerts.state) :
  Alerts.type first = Alerts.type second ->
  Alerts.int (clock (Alerts.ticks s)) = Alerts.int (clock (S (Alerts.ticks s))) ->
  let r1 := Alerts._process_alerts clock [first] brand_id s in
  let r2 := Alerts._process_alerts clock [second] brand_id (snd r1) in
  exists stored1 stored2 id,
    fst r1 = Py.Ok [stored1] /\ fst r2 = Py.Ok [stored2]
    /\ Alerts.alert_id stored1 = Some id /\ Alerts.alert_id stored2 = Some id
    /\ Alerts.platform stored1 = Alerts.platform first
    /\ Alerts.platform stored2 = Alerts.platform second
    /\ Alerts.active_alerts (snd r1) = <[id := stored1]> (Alerts.active_alerts s)
    /\ Alerts.active_alerts (snd r2) = <[id := stored2]> (Alerts.active_alerts s).
Proof.
  intros Htype Hsecond r1 r2.
  set (id := (Alerts.fmt brand_id ++ "_" ++ Alerts.type_name (Alerts.type first)
              ++ "_" ++ Py.str_of_Z (Alerts.int (clock (Alerts.ticks s))))%string).
  exists (Alerts.set_ids brand_id (clock (Alerts.ticks s)) first),
         (Alerts.set_ids brand_id (clock (S (Alerts.ticks s))) second), id.
  assert (H1 : r1 = (Py.Ok [Alerts.set_ids brand_id (clock (Alerts.ticks s)) first],
                     {| Alerts.historical_data := Alerts.historical_data s;
                        Alerts.active_alerts :=
                          <[id := Alerts.set_ids brand_id (clock (Alerts.ticks s)) first]>
                            (Alerts.active_alerts s);
                        Alerts.alert_stats := Alerts.alert_stats s;
                        Alerts.log := Alerts.log s;
                        Alerts.ticks := S (Alerts.ticks s) |}))
    by reflexivity.
  assert (H2 : r2 = (Py.Ok [Alerts.set_ids brand_id (clock (S (Alerts.ticks s))) second],
                     {| Alerts.historical_data := Alerts.historical_data s;
                        Alerts.active_alerts :=
                          <[(Alerts.fmt brand_id ++ "_"
                             ++ Alerts.type_name (Alerts.type second) ++ "_"
                             ++ Py.str_of_Z (Alerts.int (clock (S (Alerts.ticks s)))))%string
                            := Alerts.set_ids brand_id (clock (S (Alerts.ticks s))) second]>
                            (<[id := Alerts.set_ids brand_id (clock (Alerts.ticks s)) first]>
                               (Alerts.active_alerts s));
                        Alerts.alert_stats := Alerts.alert_stats s;
                        Alerts.log := Alerts.log s;
                        Alerts.ticks := S (S (Alerts.ticks s)) |})).
  { subst r2. rewrite H1. reflexivity. }
  rewrite H1, H2. cbn [fst snd Alerts.active_alerts].
  split; [reflexivity|]. split; [reflexivity|].
  split; [reflexivity|].
  split; [cbn [Alerts.set_ids Alerts.alert_id Alerts.type]; subst id;
          rewrite <- Htype, <- Hsecond; reflexivity|].
  split; [reflexivity|]. split; [reflexivity|].
  split; [reflexivity|].
  rewrite <- Htype, <- Hsecond. fold id. apply insert_insert_eq.
Qed.

Lemma same_second_alerts_collide_witness :
  let r1 := Alerts._process_alerts Samples.next_day [Samples.twitter_crisis]
              (Some "acme") Alerts.initial_state in
  let r2 := Alerts._process_alerts Samples.next_day [Samples.facebook_crisis]
              (Some "acme") (snd r1) in
  exists stored2 id,
    Alerts.active_alerts (snd r2) = <[id := stored2]> ∅
    /\ Alerts.platform stored2 = Some "facebook".
Proof.
  intros r1 r2.
  destruct (same_second_alerts_collide Samples.next_day (Some "acme")
              Samples.twitter_crisis Samples.facebook_crisis Alerts.initial_state
              eq_refl eq_refl)
    as (stored1 & stored2 & id & _ & _ & _ & _ & _ & Hp & _ & Hactive).
  exists stored2, id. split; [exact Hactive|exact Hp].
Defined.

(** X20. Resolving an active alert that carries its brand moves it from the
    active alerts to the end of that brand's history, marked resolved
    and keeping its payload and any acknowledgement; no other active
    alert and no other brand's history changes. Afterwards the id is
    unknown: resolving or acknowledging it again returns [False] and
    changes nothing. *)
Theorem resolve_alert_archives
    (self : AlertStore.store) (alert_id resolved_by notes : string) (now : Q)
    (a : AlertStore.stored_alert) (brand : option string) :
  AlertStore.active_alerts self !! alert_id = Some a ->
  Alerts.brand_id (AlertStore.payload a) = Some brand ->
  let r := AlertStore.resolve_alert self alert_id resolved_by notes now in
  let archived := AlertStore.set_resolved resolved_by now notes a in
  fst r = Py.Ok true
  /\ AlertStore.active_alerts (snd r) = delete alert_id (AlertStore.active_alerts self)
  /\ AlertStore.alert_history (snd r) !! brand
     = Some (Py.get (AlertStore.alert_history self !! brand) [] ++ [archived])%list
  /\ (forall other, other <> brand ->
        AlertStore.alert_history (snd r) !! other
        = AlertStore.alert_history self !! other)
  /\ AlertStore.payload archived = AlertStore.payload a
  /\ AlertStore.acknowledged archived = AlertStore.acknowledged a
  /\ AlertStore.resolved archived = Some true
  /\ (forall by_whom notes' now',
        AlertStore.resolve_alert (snd r) alert_id by_whom notes' now'
        = (Py.Ok false, snd r))
  /\ (forall by_whom now',
        AlertStore.acknowledge_alert (snd r) alert_id by_whom now'
        = (false, snd r)).
Proof.
  intros Hactive Hbrand r archived.
  assert (Hr : r = (Py.Ok true,
                    {| AlertStore.active_alerts :=
                         delete alert_id (AlertStore.active_alerts self);
                       AlertStore.alert_history :=
                         <[brand := (Py.get
                                       (match AlertStore.alert_history self !! brand with
                                        | Some _ => AlertStore.alert_history self
                                        | None => <[brand := []]>
                                                    (AlertStore.alert_history self)
                                        end !! brand) [] ++ [archived])%list]>
                           (match AlertStore.alert_history self !! brand with
                            | Some _ => AlertStore.alert_history self
                            | None => <[brand := []]> (AlertStore.alert_history self)
                            end) |})).
  { subst r. unfold AlertStore.resolve_alert. rewrite Hactive.
    cbn [AlertStore.set_resolved AlertStore.payload]. rewrite Hbrand. reflexivity. }
  rewrite Hr. cbn [fst snd AlertStore.active_alerts AlertStore.alert_history].
  split; [reflexivity|]. split; [reflexivity|].
  split.
  { rewrite lookup_insert_eq. f_equal. f_equal.
    destruct (AlertStore.alert_history self !! brand) as [old|] eqn:Hold.
    - rewrite Hold. reflexivity.
    - rewrite lookup_insert_eq. reflexivity. }
  split.
  { intros other Hother. rewrite lookup_insert_ne by congruence.
    destruct (AlertStore.alert_history self !! brand) as [old|] eqn:Hold.
    - reflexivity.
    - rewrite lookup_insert_ne by congruence. reflexivity. }
  split; [reflexivity|]. split; [reflexivity|]. split; [reflexivity|].
  split.
  - intros by_whom notes' now'. unfold AlertStore.resolve_alert.
    cbn [AlertStore.active_alerts]. rewrite lookup_delete_eq. reflexivity.
  - intros by_whom now'. unfold AlertStore.acknowledge_alert.
    cbn [AlertStore.active_alerts]. rewrite lookup_delete_eq. reflexivity.
Qed.

Lemma resolve_alert_archives_witness :
  fst (AlertStore.resolve_alert Samples.one_active
         "acme_crisis_keywords_detected_0" "ops" "handled" 5)
  = Py.Ok true.
Proof.
  apply (resolve_alert_archives Samples.one_active
           "acme_crisis_keywords_detected_0" "ops" "handled" 5
           (AlertStore.fresh (Alerts.set_ids (Some "acme") 0 Samples.twitter_crisis))
           (Some "acme")).
  - vm_compute. reflexivity.
  - reflexivity.
Defined.

(** X21. Acknowledging never removes, adds or archives an alert: it returns
    [True] exactly when the id is active, marks that alert acknowledged
    and leaves every payload, every other alert and the history as they
    were. *)
Theorem acknowledge_alert_keeps_active
    (self : AlertStore.store) (alert_id acknowledged_by : string) (now : Q) :
  let r := AlertStore.acknowledge_alert self alert_id acknowledged_by now in
  (fst r = true <-> is_Some (AlertStore.active_alerts self !! alert_id))
  /\ AlertStore.alert_history (snd r) = AlertStore.alert_history self
  /\ (forall id, AlertStore.payload <$> (AlertStore.active_alerts (snd r) !! id)
                 = AlertStore.payload <$> (AlertStore.active_alerts self !! id))
  /\ (forall id, id <> alert_id ->
        AlertStore.active_alerts (snd r) !! id = AlertStore.active_alerts self !! id)
  /\ (forall a, AlertStore.active_alerts self !! alert_id = Some a ->
        exists a', AlertStore.active_alerts (snd r) !! alert_id = Some a'
                   /\ AlertStore.acknowledged a' = Some true
                   /\ AlertStore.acknowledged_by a' = Some acknowledged_by
                   /\ AlertStore.resolved a' = AlertStore.resolved a).
Proof.
  intros r. subst r. unfold AlertStore.acknowledge_alert.
  destruct (AlertStore.active_alerts self !! alert_id) as [a|] eqn:Hactive;
    cbn [fst snd AlertStore.active_alerts AlertStore.alert_history].
  - split; [split; [intros _; eexists; reflexivity|reflexivity]|].
    split; [reflexivity|].
    split.
    { intros id. destruct (decide (id = alert_id)) as [->|Hne].
      - rewrite lookup_insert_eq, Hactive. reflexivity.
      - rewrite lookup_insert_ne by congruence. reflexivity. }
    split.
    { intros id Hne. rewrite lookup_insert_ne by congruence. reflexivity. }
    intros a0 Ha0. injection Ha0 as <-.
    eexists. rewrite lookup_insert_eq. split; [reflexivity|].
    repeat split.
  - split; [split; [discriminate|intros [x Hx]; discriminate Hx]|].
    split; [reflexivity|].
    split; [reflexivity|].
    split; [reflexivity|].
    intros a Ha. discriminate Ha.
Qed.

(** ** Agent metrics *)

Lemma agent_metrics_invariant (events : list BaseAgent.event)
    (self : BaseAgent.AgentMetrics) (sum : Q) :
  BaseAgent.avg_thinking_time self
    * inject_Z (Z.of_nat (BaseAgent.reasoning_cycles self)) == sum ->
  let self' := fold_left BaseAgent.apply_event events self in
  BaseAgent.successful_actions self'
  = (BaseAgent.successful_actions self
     + length (List.filter (fun ok => ok) (BaseAgent.outcomes events)))%nat
  /\ BaseAgent.failed_actions self'
     = (BaseAgent.failed_actions self
        + length (List.filter negb (BaseAgent.outcomes events)))%nat
  /\ BaseAgent.reasoning_cycles self'
     = (BaseAgent.reasoning_cycles self + length (BaseAgent.durations events))%nat
  /\ BaseAgent.avg_thinking_time self'
     * inject_Z (Z.of_nat (BaseAgent.reasoning_cycles self'))
     == sum + Metrics.history_total (BaseAgent.durations events)
  /\ BaseAgent.start_time self' = BaseAgent.start_time self.
Proof.
  revert self sum. induction events as [|e events IH]; intros self sum Hsum.
  - cbn [fold_left BaseAgent.outcomes BaseAgent.durations flat_map List.filter length].
    unfold Metrics.history_total. cbn [fold_right].
    repeat split; try lia. rewrite Hsum. ring.
  - cbn [fold_left]. destruct e as [duration now|success tokens now].
    + destruct (IH (BaseAgent.update_thinking_time self duration now) (sum + duration))
        as (Hs & Hf & Hc & Ha & Ht).
      { cbn [BaseAgent.update_thinking_time BaseAgent.avg_thinking_time
             BaseAgent.reasoning_cycles].
        apply (running_average_step _ _ duration sum Hsum). }
      cbn [BaseAgent.apply_event].
      change (BaseAgent.outcomes (BaseAgent.Thought duration now :: events))
        with (BaseAgent.outcomes events).
      change (BaseAgent.durations (BaseAgent.Thought duration now :: events))
        with (duration :: BaseAgent.durations events).
      cbn [BaseAgent.update_thinking_time BaseAgent.successful_actions
           BaseAgent.failed_actions BaseAgent.reasoning_cycles
           BaseAgent.start_time] in Hs, Hf, Hc, Ht.
      split; [exact Hs|]. split; [exact Hf|].
      split; [rewrite Hc; cbn [length]; lia|].
      split; [|exact Ht].
      rewrite Ha. unfold Metrics.history_total. cbn [fold_right]. ring.
    + destruct (IH (BaseAgent.record_action self success tokens now) sum)
        as (Hs & Hf & Hc & Ha & Ht).
      { cbn [BaseAgent.record_action BaseAgent.avg_thinking_time
             BaseAgent.reasoning_cycles]. exact Hsum. }
      cbn [BaseAgent.apply_event].
      change (BaseAgent.outcomes (BaseAgent.Action success tokens now :: events))
        with (success :: BaseAgent.outcomes events).
      change (BaseAgent.durations (BaseAgent.Action success tokens now :: events))
        with (BaseAgent.durations events).
      cbn [BaseAgent.record_action BaseAgent.successful_actions
           BaseAgent.failed_actions BaseAgent.reasoning_cycles
           BaseAgent.start_time] in Hs, Hf, Hc, Ht.
      split; [|split; [|split; [exact Hc|split; [exact Ha|exact Ht]]]].
      * rewrite Hs. destruct success; cbn [List.filter length]; lia.
      * rewrite Hf. destruct success; cbn [List.filter negb length]; lia.
Qed.

Lemma outcomes_split (outcomes : list bool) :
  (length (List.filter (fun ok => ok) outcomes)
   + length (List.filter negb outcomes))%nat = length outcomes.
Proof.
  induction outcomes as [|[] outcomes IH]; cbn [List.filter negb length]; lia.
Qed.

(** X22. Whatever an agent reports, in whatever order, its metrics stay
    consistent: the successes and failures counted add up to the actions
    recorded, the success rate is the share of successes (between 0 and
    1, and 0 while no action has been recorded), and the average
    thinking time is the mean of the durations reported. *)
Theorem agent_metrics_consistent (start : Q) (events : list BaseAgent.event) :
  let self := BaseAgent.after_events start events in
  let outcomes := BaseAgent.outcomes events in
  let durations := BaseAgent.durations events in
  (BaseAgent.successful_actions self + BaseAgent.failed_actions self)%nat
  = length outcomes
  /\ BaseAgent.successful_actions self = length (List.filter (fun ok => ok) outcomes)
  /\ 0 <= BaseAgent.get_success_rate self /\ BaseAgent.get_success_rate self <= 1
  /\ BaseAgent.get_success_rate self * inject_Z (Z.of_nat (length outcomes))
     == inject_Z (Z.of_nat (BaseAgent.successful_actions self))
  /\ (outcomes = [] -> BaseAgent.get_success_rate self == 0)
  /\ BaseAgent.reasoning_cycles self = length durations
  /\ (durations <> [] ->
      BaseAgent.avg_thinking_time self == Metrics.history_mean durations).
Proof.
  intros self outcomes durations.
  destruct (agent_metrics_invariant events (BaseAgent.new_metrics start) 0)
    as (Hs & Hf & Hc & Ha & _).
  { cbn. ring. }
  fold (BaseAgent.after_events start events) in Hs, Hf, Hc, Ha.
  fold self outcomes durations in Hs, Hf, Hc, Ha.
  cbn [BaseAgent.new_metrics BaseAgent.successful_actions BaseAgent.failed_actions
       BaseAgent.reasoning_cycles Nat.add] in Hs, Hf, Hc.
  pose proof (outcomes_split outcomes) as Hsplit.
  assert (Htotal : (BaseAgent.successful_actions self
                    + BaseAgent.failed_actions self)%nat = length outcomes)
    by (rewrite Hs, Hf; exact Hsplit).
  assert (Hrate : BaseAgent.get_success_rate self
                  = Pipeline.ratio (BaseAgent.successful_actions self) (length outcomes)).
  { unfold BaseAgent.get_success_rate, Pipeline.ratio. rewrite Htotal. reflexivity. }
  assert (Hle : (BaseAgent.successful_actions self <= length outcomes)%nat) by lia.
  destruct (ratio_range _ _ Hle) as [H0 H1].
  split; [exact Htotal|]. split; [exact Hs|].
  rewrite Hrate.
  split; [exact H0|]. split; [exact H1|].
  split.
  { unfold Pipeline.ratio. destruct (0 <? length outcomes)%nat eqn:Hpos.
    - apply Nat.ltb_lt in Hpos. field.
      assert (0 < inject_Z (Z.of_nat (length outcomes))).
      { change 0 with (inject_Z 0). rewrite <- Zlt_Qlt. lia. }
      lra.
    - apply Nat.ltb_ge in Hpos.
      assert (BaseAgent.successful_actions self = 0%nat) as -> by lia.
      assert (length outcomes = 0%nat) as -> by lia. cbn. ring. }
  split.
  { intros Hnil. rewrite Hnil. unfold Pipeline.ratio. cbn. reflexivity. }
  split; [exact Hc|].
  intros Hne. unfold Metrics.history_mean.
  rewrite Hc in Ha. rewrite Qplus_0_l in Ha.
  assert (Hpos : 0 < inject_Z (Z.of_nat (length durations))).
  { change 0 with (inject_Z 0). rewrite <- Zlt_Qlt.
    destruct durations; [congruence|cbn [length]; lia]. }
  rewrite <- Ha. field. lra.
Qed.

(** ** Agent selection *)

Lemma dict_set_fresh {V} (key : string) (v : V) (d : list (string * V)) :
  ~ In key (map fst d) -> Registry.dict_set key v d = (d ++ [(key, v)])%list.
Proof.
  induction d as [|[k w] d IH]; intros Hfresh; [reflexivity|].
  cbn [Registry.dict_set].
  destruct (String.eqb k key) eqn:Hk.
  - apply String.eqb_eq in Hk. exfalso. apply Hfresh. left. exact Hk.
  - cbn [app]. f_equal. apply IH. intros Hin. apply Hfresh. right. exact Hin.
Qed.

Lemma dict_set_forall {V} (P : string * V -> Prop) (key : string) (v : V)
    (d : list (string * V)) :
  (forall k, P (k, v)) -> List.Forall P d -> List.Forall P (Registry.dict_set key v d).
Proof.
  intros Hv. induction 1 as [|[k w] d Hkw Hd IH]; cbn [Registry.dict_set].
  - constructor; [apply Hv|constructor].
  - destruct (String.eqb k key).
    + constructor; [apply Hv|exact Hd].
    + constructor; [exact Hkw|exact IH].
Qed.

Lemma capability_enums_no_crisis (capabilities : list string) :
  existsb (BaseAgent.capability_eqb BaseAgent.CRISIS_DETECTION)
          (BaseAgent.capability_enums capabilities) = false.
Proof.
  induction capabilities as [|cap capabilities IH]; [reflexivity|].
  cbn [BaseAgent.capability_enums map existsb].
  fold (BaseAgent.capability_enums capabilities). rewrite IH, orb_false_r.
  unfold BaseAgent.capability_enum.
  destruct (String.eqb cap "data_collection"); [reflexivity|].
  destruct (String.eqb cap "sentiment_analysis"); [reflexivity|].
  destruct (String.eqb cap "alert_management"); reflexivity.
Qed.

Lemma register_legacy_no_crisis (agents : list (string * list string))
    (self : Registry.orchestrator) :
  List.Forall
    (fun entry =>
       existsb (BaseAgent.capability_eqb BaseAgent.CRISIS_DETECTION) (snd entry) = false)
    (Registry.agent_capabilities self) ->
  List.Forall
    (fun entry =>
       existsb (BaseAgent.capability_eqb BaseAgent.CRISIS_DETECTION) (snd entry) = false)
    (Registry.agent_capabilities (Registry.register_legacy self agents)).
Proof.
  revert self. induction agents as [|[id caps] agents IH]; intros self Hself.
  - exact Hself.
  - unfold Registry.register_legacy. cbn [fold_left].
    apply IH. cbn [Registry.register_agent Registry.agent_capabilities fst snd].
    apply dict_set_forall; [|exact Hself].
    intros k. apply capability_enums_no_crisis.
Qed.

(** X23. No agent built on the legacy [BaseAgent] is ever selected for crisis
    detection: its constructor turns every capability string it does
    not know, "crisis_detection" among them, into STRATEGIC_REASONING,
    so an orchestrator that registered only such agents, the alert
    manager included, selects nobody when CRISIS_DETECTION is
    required. *)
Theorem legacy_agents_lack_crisis_detection (agents : list (string * list string)) :
  Registry._select_agents_by_capability
    (Registry.register_legacy Registry.new_orchestrator agents)
    [BaseAgent.CRISIS_DETECTION] = []
  /\ (forall capabilities,
        In "crisis_detection" capabilities ->
        In BaseAgent.STRATEGIC_REASONING (BaseAgent.capability_enums capabilities))
  /\ BaseAgent.capability_enums BaseAgent.alert_manager_capabilities
     = [BaseAgent.ALERT_MANAGEMENT; BaseAgent.STRATEGIC_REASONING;
        BaseAgent.STRATEGIC_REASONING; BaseAgent.STRATEGIC_REASONING].
Proof.
  split; [|split; [|reflexivity]].
  - pose proof (register_legacy_no_crisis agents Registry.new_orchestrator
                  (List.Forall_nil _)) as Hall.
    unfold Registry._select_agents_by_capability.
    set (self := Registry.register_legacy Registry.new_orchestrator agents) in *.
    induction Hall as [|entry entries Hentry Hentries IH]; [reflexivity|].
    cbn [List.filter]. unfold Registry.has_any at 1. cbn [Py.any existsb].
    unfold Py.any in *.
    cbn [existsb]. rewrite Hentry. cbn [orb andb]. exact IH.
  - intros capabilities Hin. unfold BaseAgent.capability_enums.
    apply in_map_iff. exists "crisis_detection". split; [reflexivity|exact Hin].
Qed.

Lemma eligible_after_register self agent_id capabilities key :
  Registry.eligible (Registry.register_agent self agent_id capabilities) key
  = if String.eqb agent_id key then true else Registry.eligible self key.
Proof.
  unfold Registry.eligible, Registry.register_agent.
  cbn [Registry.agent_availability Registry.agent_performance].
  destruct (String.eqb agent_id key) eqn:Hk.
  - apply String.eqb_eq in Hk. subst key.
    rewrite !lookup_insert_eq. reflexivity.
  - apply String.eqb_neq in Hk.
    rewrite !lookup_insert_ne by exact Hk. reflexivity.
Qed.

(** X24. The selection keeps the five agents registered first. For an agent
    that registers under a new id: while fewer than five agents are
    selected for the required capabilities it joins the end of the
    selection exactly when it has one of them (a new agent is available
    and starts above the success-rate bar); once five are selected it
    is left out, whatever its capabilities. *)
Theorem selection_keeps_first_five
    (self : Registry.orchestrator) (agent_id : string)
    (capabilities required : list BaseAgent.AgentCapability) :
  ~ In agent_id (map fst (Registry.agent_capabilities self)) ->
  let before := Registry._select_agents_by_capability self required in
  let after :=
    Registry._select_agents_by_capability
      (Registry.register_agent self agent_id capabilities) required in
  (length after <= 5)%nat
  /\ ((length before < 5)%nat ->
      after = if Registry.has_any required capabilities
              then (before ++ [agent_id])%list else before)
  /\ (length before = 5%nat -> after = before).
Proof.
  intros Hfresh before after.
  subst before after. unfold Registry._select_agents_by_capability.
  set (entries := Registry.agent_capabilities self) in *.
  assert (Hentries :
            Registry.agent_capabilities
              (Registry.register_agent self agent_id capabilities)
            = (entries ++ [(agent_id, capabilities)])%list).
  { cbn [Registry.register_agent Registry.agent_capabilities].
    apply dict_set_fresh. exact Hfresh. }
  rewrite Hentries. rewrite List.filter_app, map_app.
  assert (Hold :
            List.filter
              (fun entry =>
                 Registry.has_any required (snd entry)
                 && Registry.eligible
                      (Registry.register_agent self agent_id capabilities) (fst entry))
              entries
            = List.filter
                (fun entry =>
                   Registry.has_any required (snd entry)
                   && Registry.eligible self (fst entry))
                entries).
  { apply List.filter_ext_in. intros [k caps] Hin. cbn [fst snd].
    rewrite eligible_after_register.
    destruct (String.eqb agent_id k) eqn:Hk; [|reflexivity].
    apply String.eqb_eq in Hk. subst k. exfalso. apply Hfresh.
    apply in_map_iff. exists (agent_id, caps). split; [reflexivity|exact Hin]. }
  rewrite Hold.
  set (selected :=
         map fst (List.filter
                    (fun entry =>
                       Registry.has_any required (snd entry)
                       && Registry.eligible self (fst entry)) entries)).
  assert (Hnew :
            map fst
              (List.filter
                 (fun entry =>
                    Registry.has_any required (snd entry)
                    && Registry.eligible
                         (Registry.register_agent self agent_id capabilities)
                         (fst entry))
                 [(agent_id, capabilities)])
            = if Registry.has_any required capabilities then [agent_id] else []).
  { cbn [List.filter fst snd]. rewrite eligible_after_register.
    rewrite String.eqb_refl, andb_true_r.
    destruct (Registry.has_any required capabilities); reflexivity. }
  rewrite Hnew. clearbody selected.
  split; [apply List.firstn_le_length|].
  split.
  - intros Hlt.
    assert (Hshort : (length selected < 5)%nat).
    { rewrite List.length_firstn in Hlt. lia. }
    rewrite (List.firstn_all2 selected) by lia.
    destruct (Registry.has_any required capabilities).
    + apply List.firstn_all2. rewrite length_app. cbn [length]. lia.
    + rewrite app_nil_r. apply List.firstn_all2. lia.
  - intros Hfull.
    assert (Hlong : (5 <= length selected)%nat).
    { rewrite List.length_firstn in Hfull. lia. }
    rewrite List.firstn_app.
    replace (5 - length selected)%nat with 0%nat by lia.
    cbn [firstn]. apply app_nil_r.
Qed.

Lemma selection_keeps_first_five_witness :
  Registry._select_agents_by_capability
    (Registry.register_agent Registry.new_orchestrator "alert_manager"
       (BaseAgent.capability_enums BaseAgent.alert_manager_capabilities))
    [BaseAgent.ALERT_MANAGEMENT]
  = ["alert_manager"].
Proof.
  destruct (selection_keeps_first_five Registry.new_orchestrator "alert_manager"
              (BaseAgent.capability_enums BaseAgent.alert_manager_capabilities)
              [BaseAgent.ALERT_MANAGEMENT])
    as (_ & Hjoin & _).
  - cbn. intros [].
  - apply Hjoin. cbn. lia.
Defined.

(** ** Counters of the response metrics *)

Lemma response_counters (results : list (Metrics.generation_result * Q))
    (self : Metrics.response_metrics) :
  let retrievals (m : Metrics.response_metrics) :=
    Py.get (Metrics.successful_knowledge_retrievals m) 0%nat in
  let rate := Metrics.knowledge_retrieval_success_rate in
  let total := Metrics.total_responses_generated in
  (Metrics.successful_responses self <= total self)%nat ->
  (retrievals self <= total self)%nat ->
  0 <= rate self -> rate self <= 1 ->
  inject_Z (Z.of_nat (retrievals self)) <= rate self * inject_Z (Z.of_nat (total self)) ->
  let self' :=
    fold_left (fun self r => Metrics._update_response_metrics self (fst r) (snd r))
              results self in
  total self' = (total self + length results)%nat
  /\ Metrics.successful_responses self'
     = (Metrics.successful_responses self
        + length (List.filter (fun r => Metrics.success (fst r)) results))%nat
  /\ retrievals self'
     = (retrievals self
        + length (List.filter
                    (fun r => Py.get (Metrics.knowledge_retrieved (fst r)) false)
                    results))%nat
  /\ (Metrics.successful_responses self' <= total self')%nat
  /\ (retrievals self' <= total self')%nat
  /\ 0 <= rate self' /\ rate self' <= 1
  /\ inject_Z (Z.of_nat (retrievals self')) <= rate self' * inject_Z (Z.of_nat (total self')).
Proof.
  intros retrievals rate total. revert self.
  induction results as [|[r t] results IH];
    intros self Hsucc Hret H0 H1 Hrate self'.
  - subst self'. cbn [fold_left List.filter length].
    rewrite !Nat.add_0_r. repeat split; assumption.
  - subst self'. cbn [fold_left fst snd].
    set (next := Metrics._update_response_metrics self r t).
    assert (Htotal : total next = S (total self)).
    { subst next total. unfold Metrics._update_response_metrics.
      destruct (Py.get (Metrics.knowledge_retrieved r) false); reflexivity. }
    assert (Hsuccess : Metrics.successful_responses next
                       = (Metrics.successful_responses self
                          + if Metrics.success r then 1 else 0)%nat).
    { subst next. unfold Metrics._update_response_metrics.
      destruct (Py.get (Metrics.knowledge_retrieved r) false), (Metrics.success r);
        cbn [Metrics.successful_responses]; lia. }
    assert (Hnext : retrievals next
                    = (retrievals self
                       + if Py.get (Metrics.knowledge_retrieved r) false
                         then 1 else 0)%nat
                    /\ 0 <= rate next /\ rate next <= 1
                    /\ inject_Z (Z.of_nat (retrievals next))
                       <= rate next * inject_Z (Z.of_nat (total next))).
    { rewrite Htotal. subst next retrievals rate total.
      unfold Metrics._update_response_metrics. cbv beta in *.
      pose proof (inject_S (Metrics.total_responses_generated self)) as HS.
      assert (Ht : 0 <= inject_Z (Z.of_nat (Metrics.total_responses_generated self))).
      { change 0 with (inject_Z 0). rewrite <- Zle_Qle. lia. }
      destruct (Py.get (Metrics.knowledge_retrieved r) false).
      - cbn [Metrics.successful_knowledge_retrievals
             Metrics.knowledge_retrieval_success_rate Py.get].
        set (k := S (Py.get (Metrics.successful_knowledge_retrievals self) 0%nat)).
        assert (Hk : (k <= S (Metrics.total_responses_generated self))%nat)
          by (subst k; lia).
        destruct (ratio_range k (S (Metrics.total_responses_generated self)) Hk)
          as [Hr0 Hr1].
        unfold Pipeline.ratio in Hr0, Hr1. cbn [Nat.ltb Nat.leb] in Hr0, Hr1.
        split; [subst k; lia|]. split; [exact Hr0|]. split; [exact Hr1|].
        apply Qle_lteq. right. field.
        apply inject_S_nonzero.
      - cbn [Metrics.successful_knowledge_retrievals
             Metrics.knowledge_retrieval_success_rate].
        split; [lia|]. split; [exact H0|]. split; [exact H1|].
        set (t1 := inject_Z (Z.of_nat (S (Metrics.total_responses_generated self)))) in *.
        set (t0 := inject_Z (Z.of_nat (Metrics.total_responses_generated self))) in *.
        set (q := Metrics.knowledge_retrieval_success_rate self) in *.
        assert (Ht1 : t1 == t0 + 1) by lra.
        rewrite Ht1. nra. }
    destruct Hnext as (Hretr & Hn0 & Hn1 & Hnrate).
    destruct (IH next) as (Ht' & Hs' & Hr' & Hsle & Hrle & Hq0 & Hq1 & Hqrate).
    + rewrite Hsuccess, Htotal. destruct (Metrics.success r); lia.
    + rewrite Hretr, Htotal.
      destruct (Py.get (Metrics.knowledge_retrieved r) false); lia.
    + exact Hn0.
    + exact Hn1.
    + exact Hnrate.
    + split; [rewrite Ht', Htotal; cbn [length]; lia|].
      split.
      { rewrite Hs', Hsuccess. cbn [List.filter fst].
        destruct (Metrics.success r); cbn [length]; lia. }
      split.
      { rewrite Hr', Hretr. cbn [List.filter fst].
        destruct (Py.get (Metrics.knowledge_retrieved r) false); cbn [length]; lia. }
      repeat split; assumption.
Qed.

(** X25. Along any run of the response agent the counters stay consistent:
    the responses counted are the results seen, the successful ones and
    the knowledge retrievals are the results that report them, and
    neither exceeds the total. The stored knowledge-retrieval rate stays
    between 0 and 1 but is only refreshed by a result that retrieved
    knowledge, so it never understates the true share of retrievals and
    can overstate it. *)
Theorem response_counters_consistent (results : list (Metrics.generation_result * Q)) :
  let self := Metrics.after_responses results in
  let retrieved :=
    length (List.filter (fun r => Py.get (Metrics.knowledge_retrieved (fst r)) false)
                        results) in
  Metrics.total_responses_generated self = length results
  /\ Metrics.successful_responses self
     = length (List.filter (fun r => Metrics.success (fst r)) results)
  /\ Py.get (Metrics.successful_knowledge_retrievals self) 0%nat = retrieved
  /\ (Metrics.successful_responses self <= length results)%nat
  /\ (retrieved <= length results)%nat
  /\ 0 <= Metrics.knowledge_retrieval_success_rate self
  /\ Metrics.knowledge_retrieval_success_rate self <= 1
  /\ inject_Z (Z.of_nat retrieved)
     <= Metrics.knowledge_retrieval_success_rate self
        * inject_Z (Z.of_nat (length results)).
Proof.
  intros self retrieved.
  assert (Hle0 : (0 <= 0)%nat) by lia.
  assert (Hq0 : 0 <= 0) by lra.
  assert (Hq1 : 0 <= 1) by lra.
  assert (Hq2 : inject_Z (Z.of_nat 0) <= 0 * inject_Z (Z.of_nat 0))
    by (vm_compute; intro Habs; discriminate Habs).
  destruct (response_counters results Metrics.initial_response_metrics
              Hle0 Hle0 Hq0 Hq1 Hq2)
    as (Ht & Hs & Hr & Hsle & Hrle & H0 & H1 & Hrate).
  fold (Metrics.after_responses results) in Ht, Hs, Hr, Hsle, Hrle, H0, H1, Hrate.
  fold self in Ht, Hs, Hr, Hsle, Hrle, H0, H1, Hrate.
  cbn [Metrics.initial_response_metrics Metrics.total_responses_generated
       Metrics.successful_responses Metrics.successful_knowledge_retrievals
       Py.get Nat.add] in Ht, Hs, Hr.
  fold retrieved in Hr.
  rewrite Ht in Hsle, Hrle, Hrate. rewrite Hr in Hrle, Hrate.
  repeat split; assumption.
Qed.

(** ** Response type and urgency *)

(** X26. A mention typed "complaint" because of its wording, not because of a
    negative sentiment label, is never of low urgency: the four complaint
    words are among the medium-urgency keywords. *)
Theorem worded_complaints_are_not_low_urgency (m : RiskScorer.mention) :
  Py.get (RiskScorer.sentiment m) "neutral" <> "negative" ->
  ResponseAgent._determine_response_type m = "complaint" ->
  ResponseAgent._assess_urgency m = "high"
  \/ ResponseAgent._assess_urgency m = "medium".
Proof.
  intros Hsent Htype.
  unfold ResponseAgent._determine_response_type in Htype.
  unfold ResponseAgent._assess_urgency.
  set (content := Py.lower (Py.get (RiskScorer.content m) "")) in *.
  apply String.eqb_neq in Hsent. rewrite Hsent in Htype.
  cbn [orb] in Htype.
  assert (Hwords :
            Py.any (fun word => Py.contains word content)
                   ["complaint"; "problem"; "issue"; "disappointed"] = true).
  { destruct (Py.any _ ["complaint"; "problem"; "issue"; "disappointed"]);
      [reflexivity|].
    repeat match type of Htype with
           | context [if ?c then _ else _] => destruct c
           end; discriminate Htype. }
  assert (Hmedium :
            Py.any (fun keyword => Py.contains keyword content)
                   ResponseAgent.medium_urgency_keywords = true).
  { unfold Py.any, ResponseAgent.medium_urgency_keywords in *.
    cbn [existsb] in *.
    rewrite orb_false_r in Hwords. rewrite !orb_assoc in *.
    rewrite Hwords. reflexivity. }
  rewrite Hmedium.
  destruct (Py.any _ ResponseAgent.high_urgency_keywords); [left; reflexivity|].
  match goal with |- context [if ?c then _ else _] => destruct c end;
    [left; reflexivity|right; reflexivity].
Qed.

Lemma worded_complaints_are_not_low_urgency_witness :
  ResponseAgent._assess_urgency Samples.billing_problem = "medium".
Proof.
  assert (Hsent : Py.get (RiskScorer.sentiment Samples.billing_problem) "neutral"
                  <> "negative") by (vm_compute; discriminate).
  assert (Htype : ResponseAgent._determine_response_type Samples.billing_problem
                  = "complaint") by (vm_compute; reflexivity).
  destruct (worded_complaints_are_not_low_urgency Samples.billing_problem Hsent Htype)
    as [Hhigh|Hmedium].
  - vm_compute in Hhigh. discriminate Hhigh.
  - exact Hmedium.
Defined.

(** ** Generating responses *)

Lemma tools_used_empty (r : Generation.think_result) : Generation.tools_used r = [].
Proof. destruct r; reflexivity. Qed.

(** What one generation does to the agent, by the outcome of the
    thinking step. *)
Lemma generate_cases
    (extract : string -> string)
    (prompt : RiskScorer.mention -> option Generation.brand_context -> string)
    (cfg : Approval.Settings) (agent_id : string)
    (self : Generation.agent_state)
    (llm : option (string -> Py.result string)) (m : RiskScorer.mention)
    (mention_id : option string) (brand_context : option Generation.brand_context)
    (t : Generation.readings) :
  let r := Generation.generate_intelligent_response extract prompt cfg agent_id
             self llm m mention_id brand_context t in
  (fst r = Generation._generate_fallback_response m brand_context
   /\ Generation.response_metrics (snd r) = Generation.response_metrics self
   /\ Generation.response_history (snd r) = Generation.response_history self
   /\ (exists ainvoke e,
         llm = Some ainvoke /\ ainvoke (prompt m brand_context) = Py.Raise e)
   /\ BaseAgent.failed_actions (Generation.metrics (snd r))
      = S (BaseAgent.failed_actions (Generation.metrics self)))
  \/ (Generation.fallback_mode (fst r) = None
      /\ Generation.knowledge_retrieved (fst r) = Some false
      /\ (exists d, Generation.approval_decision (fst r) = Some d)
      /\ (exists entry,
            Generation.response_metrics (snd r)
            = Metrics._update_response_metrics (Generation.response_metrics self)
                {| Metrics.success := true;
                   Metrics.quality_score := Some (Generation.quality_score (fst r));
                   Metrics.knowledge_retrieved := Some false |}
                (Generation.finish_time t - Generation.start_time t)
            /\ ResponseAgent.knowledge_retrieved entry = Some false
            /\ Generation.response_history (snd r)
               = ResponseAgent._add_to_response_history
                   (Generation.response_history self) (Generation.utcnow t) entry)
      /\ BaseAgent.failed_actions (Generation.metrics (snd r))
         = BaseAgent.failed_actions (Generation.metrics self)
      /\ (forall ainvoke e, llm = Some ainvoke ->
            ainvoke (prompt m brand_context) <> Py.Raise e)).
Proof.
  intros r. subst r. unfold Generation.generate_intelligent_response,
    Generation.think_and_act.
  destruct llm as [ainvoke|].
  - destruct (ainvoke (prompt m brand_context)) as [text|e] eqn:Hreply.
    + right. cbn [fst snd Generation.fallback_mode Generation.knowledge_retrieved
                  Generation.approval_decision Generation.response_metrics
                  Generation.response_history Generation.metrics
                  Generation.quality_score].
      rewrite tools_used_empty. cbn [existsb].
      split; [reflexivity|]. split; [reflexivity|].
      split; [eexists; reflexivity|].
      split; [eexists; split; [reflexivity|split; [|reflexivity]]; reflexivity|].
      split; [reflexivity|].
      intros ainvoke' e' Heq. injection Heq as <-. rewrite Hreply. discriminate.
    + left. cbn [fst snd Generation.response_metrics Generation.response_history
                 Generation.metrics].
      split; [reflexivity|]. split; [reflexivity|]. split; [reflexivity|].
      split; [exists ainvoke, e; split; [reflexivity|exact Hreply]|].
      reflexivity.
  - right. cbn [fst snd Generation.fallback_mode Generation.knowledge_retrieved
                Generation.approval_decision Generation.response_metrics
                Generation.response_history Generation.metrics
                Generation.quality_score].
    rewrite tools_used_empty. cbn [existsb].
    split; [reflexivity|]. split; [reflexivity|].
    split; [eexists; reflexivity|].
    split; [eexists; split; [reflexivity|split; [|reflexivity]]; reflexivity|].
    split; [reflexivity|].
    intros ainvoke' e' Heq. discriminate Heq.
Qed.

Lemma serve_cons
    (extract : string -> string)
    (prompt : RiskScorer.mention -> option Generation.brand_context -> string)
    (cfg : Approval.Settings) (agent_id : string)
    (self : Generation.agent_state) (r : Generation.request)
    (later : list Generation.request) :
  let first :=
    Generation.generate_intelligent_response extract prompt cfg agent_id self
      (Generation.llm r) (Generation.request_mention r) (Generation.request_id r)
      (Generation.request_context r) (Generation.request_readings r) in
  let rest := Generation.serve extract prompt cfg agent_id (snd first) later in
  Generation.serve extract prompt cfg agent_id self (r :: later)
  = (fst first :: fst rest, snd rest).
Proof.
  intros first rest. cbn [Generation.serve]. fold first.
  destruct first as [result self1] eqn:Hfirst. cbn [snd fst] in *.
  subst rest. destruct (Generation.serve extract prompt cfg agent_id self1 later).
  reflexivity.
Qed.

Lemma add_to_history_forall (P : ResponseAgent.history_entry -> Prop)
    (history : list ResponseAgent.history_entry) (now : Q)
    (entry : ResponseAgent.final_result) :
  List.Forall P history ->
  (forall h, ResponseAgent.knowledge_used h
             = Py.get (ResponseAgent.knowledge_retrieved entry) false -> P h) ->
  List.Forall P (ResponseAgent._add_to_response_history history now entry).
Proof.
  intros Hall Hnew. unfold ResponseAgent._add_to_response_history.
  assert (Happ : List.Forall P
                   (history ++
                    [{| ResponseAgent.timestamp := now;
                        ResponseAgent.entry_mention_id := ResponseAgent.mention_id entry;
                        ResponseAgent.entry_platform :=
                          ResponseAgent.result_platform entry;
                        ResponseAgent.response_quality :=
                          Py.get (ResponseAgent.result_quality_score entry) 0;
                        ResponseAgent.entry_generation_time :=
                          Py.get (ResponseAgent.generation_time entry) 0;
                        ResponseAgent.knowledge_used :=
                          Py.get (ResponseAgent.knowledge_retrieved entry) false |}])%list).
  { apply List.Forall_app. split; [exact Hall|].
    constructor; [apply Hnew; reflexivity|constructor]. }
  match goal with |- context [if ?c then _ else _] => destruct c end;
    [|exact Happ].
  unfold ResponseAgent.last_n.
  apply List.Forall_forall. intros h Hin.
  apply (proj1 (List.Forall_forall _ _) Happ).
  match type of Hin with
  | In _ (skipn ?k ?l) => rewrite <- (firstn_skipn k l)
  end.
  apply in_or_app. right. exact Hin.
Qed.

Lemma serve_invariant
    (extract : string -> string)
    (prompt : RiskScorer.mention -> option Generation.brand_context -> string)
    (cfg : Approval.Settings) (agent_id : string)
    (requests : list Generation.request)
    (self : Generation.agent_state) :
  List.Forall (fun h => ResponseAgent.knowledge_used h = false)
              (Generation.response_history self) ->
  let r := Generation.serve extract prompt cfg agent_id self requests in
  let generated :=
    List.filter (fun res => match Generation.fallback_mode res with
                            | None => true
                            | Some _ => false
                            end) (fst r) in
  length (fst r) = length requests
  /\ Metrics.total_responses_generated (Generation.response_metrics (snd r))
     = (Metrics.total_responses_generated (Generation.response_metrics self)
        + length generated)%nat
  /\ Metrics.successful_responses (Generation.response_metrics (snd r))
     = (Metrics.successful_responses (Generation.response_metrics self)
        + length generated)%nat
  /\ Metrics.knowledge_retrieval_success_rate (Generation.response_metrics (snd r))
     = Metrics.knowledge_retrieval_success_rate (Generation.response_metrics self)
  /\ Metrics.successful_knowledge_retrievals (Generation.response_metrics (snd r))
     = Metrics.successful_knowledge_retrievals (Generation.response_metrics self)
  /\ List.Forall (fun res => Generation.knowledge_retrieved res <> Some true) (fst r)
  /\ List.Forall (fun h => ResponseAgent.knowledge_used h = false)
                 (Generation.response_history (snd r)).
Proof.
  revert self. induction requests as [|q requests IH]; intros self Hhist r generated.
  - subst generated r. cbn. rewrite !Nat.add_0_r.
    repeat split; try assumption; constructor.
  - subst generated r. rewrite serve_cons. cbn [fst snd].
    pose proof (generate_cases extract prompt cfg agent_id self (Generation.llm q) (Generation.request_mention q)
                  (Generation.request_id q) (Generation.request_context q)
                  (Generation.request_readings q)) as Hcase.
    cbv zeta in Hcase.
    set (first := Generation.generate_intelligent_response extract prompt cfg agent_id
                    self (Generation.llm q) (Generation.request_mention q)
                    (Generation.request_id q) (Generation.request_context q)
                    (Generation.request_readings q)) in *.
    destruct Hcase as [(Hres & Hm & Hh & _ & _)
                      |(Hfb & Hkr & _ & (entry & Hm & Hentry & Hh) & _ & _)].
    + destruct (IH (snd first)) as (Hlen & Ht & Hs & Hrate & Hret & Hres' & Hhist').
      { rewrite Hh. exact Hhist. }
      cbn [List.filter length]. rewrite Hres.
      cbn [Generation._generate_fallback_response Generation.fallback_mode
           Generation.knowledge_retrieved].
      rewrite Hm in Ht, Hs, Hrate, Hret.
      split; [rewrite Hlen; reflexivity|].
      split; [exact Ht|]. split; [exact Hs|]. split; [exact Hrate|].
      split; [exact Hret|].
      split; [constructor; [discriminate|exact Hres']|exact Hhist'].
    + destruct (IH (snd first)) as (Hlen & Ht & Hs & Hrate & Hret & Hres' & Hhist').
      { rewrite Hh. apply add_to_history_forall; [exact Hhist|].
        intros h Hk. rewrite Hk, Hentry. reflexivity. }
      cbn [List.filter length]. rewrite Hfb. cbn [length].
      rewrite Hm in Ht, Hs, Hrate, Hret.
      unfold Metrics._update_response_metrics in Ht, Hs, Hrate, Hret.
      cbn [Metrics.knowledge_retrieved Metrics.success Py.get
           Metrics.total_responses_generated Metrics.successful_responses
           Metrics.knowledge_retrieval_success_rate
           Metrics.successful_knowledge_retrievals] in Ht, Hs, Hrate, Hret.
      split; [rewrite Hlen; reflexivity|].
      split; [rewrite Ht; lia|]. split; [rewrite Hs; lia|].
      split; [exact Hrate|]. split; [exact Hret|].
      split; [constructor; [rewrite Hkr; discriminate|exact Hres']|exact Hhist'].
Qed.

(** X27. However many responses the agent generates, it never records a
    knowledge retrieval: the thinking step reports no tool use, so every
    result and every history entry says that no knowledge was used, the
    retrieval rate stays 0 and its counter is never created. Only
    generated responses are counted, each as a success; a fallback
    leaves the response metrics untouched. *)
Theorem knowledge_retrieval_never_recorded
    (extract : string -> string)
    (prompt : RiskScorer.mention -> option Generation.brand_context -> string)
    (cfg : Approval.Settings) (agent_id : string)
    (now : Q)
    (requests : list Generation.request) :
  let r := Generation.serve extract prompt cfg agent_id
             (Generation.new_agent now) requests in
  let generated :=
    List.filter (fun res => match Generation.fallback_mode res with
                            | None => true
                            | Some _ => false
                            end) (fst r) in
  length (fst r) = length requests
  /\ Metrics.total_responses_generated (Generation.response_metrics (snd r))
     = length generated
  /\ Metrics.successful_responses (Generation.response_metrics (snd r))
     = length generated
  /\ Metrics.knowledge_retrieval_success_rate (Generation.response_metrics (snd r)) = 0
  /\ Metrics.successful_knowledge_retrievals (Generation.response_metrics (snd r)) = None
  /\ List.Forall (fun res => Generation.knowledge_retrieved res <> Some true) (fst r)
  /\ List.Forall (fun h => ResponseAgent.knowledge_used h = false)
                 (Generation.response_history (snd r)).
Proof.
  intros r generated.
  destruct (serve_invariant extract prompt cfg agent_id requests
              (Generation.new_agent now) (List.Forall_nil _))
    as (Hlen & Ht & Hs & Hrate & Hret & Hres & Hhist).
  fold r in Hlen, Ht, Hs, Hrate, Hret, Hres, Hhist.
  fold generated in Ht, Hs.
  repeat split; assumption.
Qed.

Lemma quality_average_lower (quality_scores : gmap string Q)
    (responses : list Pipeline.response_result) :
  (forall r, In r responses -> 0.5 <= Py.get (Pipeline.quality_score r) 0.5) ->
  exists average,
    Pipeline._quality_assessment_node quality_scores responses !! "average"
    = Some average
    /\ 0.5 <= average.
Proof.
  intros Hall.
  destruct (quality_fold responses quality_scores 0 0%nat)
    as (m & total & Heq & Htotal).
  unfold Pipeline._quality_assessment_node. rewrite Heq.
  cbn [Nat.add].
  destruct (0 <? length responses)%nat eqn:Hpos.
  - exists (total / inject_Z (Z.of_nat (length responses))).
    split; [apply lookup_insert_eq|].
    apply Nat.ltb_lt in Hpos.
    assert (Hn : 0 < inject_Z (Z.of_nat (length responses))).
    { change 0 with (inject_Z 0). rewrite <- Zlt_Qlt. lia. }
    pose proof (history_total_lower
                  (map (fun r => Py.get (Pipeline.quality_score r) 0.5) responses) 0.5)
      as Hlow.
    rewrite length_map in Hlow.
    assert (0.5 * inject_Z (Z.of_nat (length responses))
            <= Metrics.history_total
                 (map (fun r => Py.get (Pipeline.quality_score r) 0.5) responses)).
    { apply Hlow. intros x Hx. apply in_map_iff in Hx.
      destruct Hx as (r & <- & Hr). apply Hall, Hr. }
    apply Qle_shift_div_l; [exact Hn|]. lra.
  - exists 0.5. split; [apply lookup_insert_eq|]. lra.
Qed.

Lemma serve_all_failed
    (extract : string -> string)
    (prompt : RiskScorer.mention -> option Generation.brand_context -> string)
    (cfg : Approval.Settings) (agent_id : string)
    (requests : list Generation.request) (self : Generation.agent_state) :
  (forall q, In q requests ->
     exists ainvoke e,
       Generation.llm q = Some ainvoke
       /\ ainvoke (prompt (Generation.request_mention q) (Generation.request_context q))
          = Py.Raise e) ->
  let r := Generation.serve extract prompt cfg agent_id self requests in
  fst r = map (fun q => Generation._generate_fallback_response
                          (Generation.request_mention q) (Generation.request_context q))
              requests
  /\ Generation.response_metrics (snd r) = Generation.response_metrics self
  /\ Generation.response_history (snd r) = Generation.response_history self
  /\ BaseAgent.failed_actions (Generation.metrics (snd r))
     = (BaseAgent.failed_actions (Generation.metrics self) + length requests)%nat.
Proof.
  revert self. induction requests as [|q requests IH]; intros self Hfail r.
  - subst r. cbn. rewrite Nat.add_0_r. repeat split.
  - subst r. rewrite serve_cons. cbn [fst snd map length].
    pose proof (generate_cases extract prompt cfg agent_id self
                  (Generation.llm q) (Generation.request_mention q)
                  (Generation.request_id q) (Generation.request_context q)
                  (Generation.request_readings q)) as Hcase.
    cbv zeta in Hcase.
    set (first := Generation.generate_intelligent_response extract prompt cfg agent_id
                    self (Generation.llm q) (Generation.request_mention q)
                    (Generation.request_id q) (Generation.request_context q)
                    (Generation.request_readings q)) in *.
    destruct Hcase as [(Hres & Hm & Hh & _ & Hfailed)|(_ & _ & _ & _ & _ & Hok)].
    + destruct (IH (snd first)) as (Hrest & Hm' & Hh' & Hf').
      { intros q' Hq'. apply Hfail. right. exact Hq'. }
      split; [rewrite Hres, Hrest; reflexivity|].
      split; [rewrite Hm', Hm; reflexivity|].
      split; [rewrite Hh', Hh; reflexivity|].
      rewrite Hf', Hfailed. lia.
    + exfalso. destruct (Hfail q (or_introl eq_refl)) as (ainvoke & e & Hllm & Hraise).
      exact (Hok ainvoke e Hllm Hraise).
Qed.

Lemma undecided_responses_filtered (f : Pipeline.decision_dict -> bool)
    (responses : list Pipeline.response_result) :
  f Pipeline.no_decision = false ->
  List.Forall (fun r => Pipeline.approval_decision r = None) responses ->
  List.filter (fun r => f (Py.get (Pipeline.approval_decision r) Pipeline.no_decision))
              responses = []
  /\ List.filter f
       (map (fun r => Py.get (Pipeline.approval_decision r) Pipeline.no_decision)
            responses) = [].
Proof.
  intros Hf. induction 1 as [|r responses Hr Hall [IH1 IH2]]; [split; reflexivity|].
  cbn [List.filter map]. rewrite Hr. cbn [Py.get]. rewrite Hf.
  split; [exact IH1|exact IH2].
Qed.

(** X28. When the model fails, the agent answers with a template, and that
    fallback carries no approval decision. A workflow whose responses
    all come from failed generations therefore counts nothing as
    auto-approved and nothing as requiring review, is routed to
    "auto_approve", and then neither publishes the fallbacks nor queues
    them for human review. The failures are counted by the agent's
    metrics but not by its response metrics. *)
Theorem failed_generations_bypass_review
    (extract : string -> string)
    (prompt : RiskScorer.mention -> option Generation.brand_context -> string)
    (cfg : Approval.Settings) (agent_id : string)
    (self : Generation.agent_state) (requests : list Generation.request) :
  (forall q, In q requests ->
     exists ainvoke e,
       Generation.llm q = Some ainvoke
       /\ ainvoke (prompt (Generation.request_mention q) (Generation.request_context q))
          = Py.Raise e) ->
  let r := Generation.serve extract prompt cfg agent_id self requests in
  let responses := map Generation.as_response_result (fst r) in
  let decided := Pipeline._approval_decision_node [] responses in
  length (fst r) = length requests
  /\ List.Forall (fun res => Generation.result_success res = true
                             /\ Generation.fallback_mode res = Some true
                             /\ Generation.approval_decision res = None) (fst r)
  /\ Generation.response_metrics (snd r) = Generation.response_metrics self
  /\ BaseAgent.failed_actions (Generation.metrics (snd r))
     = (BaseAgent.failed_actions (Generation.metrics self) + length requests)%nat
  /\ Pipeline.auto_approved (snd decided) = 0%nat
  /\ Pipeline.requires_review (snd decided) = 0%nat
  /\ Pipeline._route_approval_decision
       (Pipeline._quality_assessment_node ∅ responses) (Some (snd decided))
     = "auto_approve"
  /\ Pipeline._auto_publish_node responses = []
  /\ Pipeline._human_review_node responses = [].
Proof.
  intros Hfail r responses decided.
  destruct (serve_all_failed extract prompt cfg agent_id requests self Hfail)
    as (Hres & Hm & _ & Hfailed).
  fold r in Hres, Hm, Hfailed.
  assert (Hshape : List.Forall
                     (fun res => Generation.result_success res = true
                                 /\ Generation.fallback_mode res = Some true
                                 /\ Generation.approval_decision res = None) (fst r)).
  { rewrite Hres. apply List.Forall_forall. intros res Hin.
    apply in_map_iff in Hin. destruct Hin as (q & <- & _). repeat split. }
  assert (Hundecided : List.Forall (fun x => Pipeline.approval_decision x = None)
                                   responses).
  { subst responses. apply List.Forall_forall. intros x Hx.
    apply in_map_iff in Hx. destruct Hx as (res & <- & Hin).
    destruct (proj1 (List.Forall_forall _ _) Hshape res Hin) as (_ & _ & Hnone).
    unfold Generation.as_response_result. cbn [Pipeline.approval_decision].
    rewrite Hnone. reflexivity. }
  assert (Hscores : forall x, In x responses ->
                      0.5 <= Py.get (Pipeline.quality_score x) 0.5).
  { subst responses. intros x Hx. apply in_map_iff in Hx.
    destruct Hx as (res & <- & Hin). rewrite Hres in Hin.
    apply in_map_iff in Hin. destruct Hin as (q & <- & _).
    cbn. lra. }
  destruct (undecided_responses_filtered Pipeline.is_auto_approved responses
              eq_refl Hundecided) as (Hpub & Hauto).
  destruct (undecided_responses_filtered Pipeline.needs_review responses
              eq_refl Hundecided) as (Hrev & Hreview).
  assert (Hdecided : Pipeline.auto_approved (snd decided) = 0%nat
                     /\ Pipeline.requires_review (snd decided) = 0%nat).
  { subst decided. unfold Pipeline._approval_decision_node.
    cbn [snd Pipeline.auto_approved Pipeline.requires_review app].
    rewrite Hauto, Hreview. split; reflexivity. }
  destruct Hdecided as (Ha & Hr).
  split; [rewrite Hres; apply length_map|].
  split; [exact Hshape|]. split; [exact Hm|]. split; [exact Hfailed|].
  split; [exact Ha|]. split; [exact Hr|].
  split.
  { destruct (quality_average_lower ∅ responses Hscores) as (average & Hlook & Hge).
    unfold Pipeline._route_approval_decision. rewrite Hlook. cbn [Py.get].
    destruct (Py.Qltb average 0.5) eqn:Hlt.
    - apply Qltb_lt in Hlt. lra.
    - rewrite Ha, Hr. reflexivity. }
  split; [exact Hpub|exact Hrev].
Qed.

Lemma failed_generations_bypass_review_witness :
  let r := Generation.serve (fun text => text) (fun _ _ => "Reply to the customer")
             Approval.settings "response_generator" (Generation.new_agent 0)
             [Samples.unreachable_model] in
  Pipeline._human_review_node (map Generation.as_response_result (fst r)) = []
  /\ length (fst r) = 1%nat.
Proof.
  intros r.
  destruct (failed_generations_bypass_review
              (fun text => text) (fun _ _ => "Reply to the customer")
              Approval.settings "response_generator" (Generation.new_agent 0)
              [Samples.unreachable_model])
    as (Hlen & _ & _ & _ & _ & _ & _ & _ & Hreview).
  - intros q [<-|[]]. eexists _, _. split; reflexivity.
  - split; [exact Hreview|exact Hlen].
Defined.

(** ** The sentiment summary of the workflow *)

Lemma count_label_partition (sentiments : list string) :
  (Pipeline.count_label "positive" sentiments
   + Pipeline.count_label "negative" sentiments
   + Pipeline.count_label "neutral" sentiments
   + length (List.filter
               (fun s => negb (String.eqb "positive" s || String.eqb "negative" s
                               || String.eqb "neutral" s)) sentiments))%nat
  = length sentiments.
Proof.
  unfold Pipeline.count_label.
  induction sentiments as [|s sentiments IH]; [reflexivity|].
  cbn [List.filter].
  destruct (String.eqb "positive" s) eqn:Hp.
  - apply String.eqb_eq in Hp. subst s.
    change (String.eqb "negative" "positive") with false.
    change (String.eqb "neutral" "positive") with false.
    cbn [orb negb length]. lia.
  - destruct (String.eqb "negative" s) eqn:Hn.
    + apply String.eqb_eq in Hn. subst s.
      change (String.eqb "neutral" "negative") with false.
      cbn [orb negb length]. lia.
    + destruct (String.eqb "neutral" s) eqn:Hu; cbn [orb negb length]; lia.
Qed.

Lemma filter_none_iff {A} (f : A -> bool) (l : list A) :
  length (List.filter f l) = 0%nat <-> (forall x, In x l -> f x = false).
Proof.
  induction l as [|a l IH]; cbn [List.filter].
  - split; [intros _ x []|reflexivity].
  - destruct (f a) eqn:Ha; cbn [length].
    + split; [discriminate|]. intros H. specialize (H a (or_introl eq_refl)).
      congruence.
    + rewrite IH. split.
      * intros H x [<-|Hx]; [exact Ha|apply H, Hx].
      * intros H x Hx. apply H. right. exact Hx.
Qed.

Lemma negative_engaging_le (results : list Pipeline.analysis_result) :
  (length (List.filter Pipeline.negative_and_engaging results)
   <= Pipeline.count_label "negative"
        (map (fun r => Py.get (Pipeline.sentiment r) "neutral") results))%nat.
Proof.
  unfold Pipeline.count_label.
  induction results as [|r results IH]; [cbn; lia|].
  cbn [List.filter map]. unfold Pipeline.negative_and_engaging at 1.
  rewrite (String.eqb_sym (Py.get (Pipeline.sentiment r) "neutral") "negative").
  destruct (String.eqb "negative" (Py.get (Pipeline.sentiment r) "neutral"));
    cbn [andb].
  - destruct (Py.get (Pipeline.likes r) 0 >? 50)%Z; cbn [length]; lia.
  - exact IH.
Qed.

(** X29. [_summarize_sentiment_analysis] returns an empty summary exactly
    for an empty batch. Otherwise the three ratios lie in [0, 1] and add
    up to at most 1, reaching 1 exactly when every result is labelled
    positive, negative or neutral (a missing label counts as neutral):
    any other label is left out of all three. The crisis count never
    exceeds the batch and the high-engagement count never exceeds the
    negative results. *)
Theorem summary_ratios (results : list Pipeline.analysis_result) :
  let sentiments := map (fun r => Py.get (Pipeline.sentiment r) "neutral") results in
  match Pipeline._summarize_sentiment_analysis results with
  | None => results = []
  | Some d =>
      results <> []
      /\ Pipeline.total_analyzed d = length results
      /\ 0 <= Pipeline.positive_ratio d /\ 0 <= Pipeline.negative_ratio d
      /\ 0 <= Pipeline.neutral_ratio d
      /\ Pipeline.positive_ratio d + Pipeline.negative_ratio d
         + Pipeline.neutral_ratio d <= 1
      /\ (Pipeline.positive_ratio d + Pipeline.negative_ratio d
          + Pipeline.neutral_ratio d == 1
          <-> forall s, In s sentiments ->
                s = "positive" \/ s = "negative" \/ s = "neutral")
      /\ (Pipeline.crisis_keywords d <= Z.of_nat (length results))%Z
      /\ (Pipeline.high_engagement_negative d
          <= Z.of_nat (Pipeline.count_label "negative" sentiments))%Z
  end.
Proof.
  intros sentiments.
  assert (Hcases :
            (results = [] /\ Pipeline._summarize_sentiment_analysis results = None)
            \/ (results <> []
                /\ Pipeline._summarize_sentiment_analysis results
                   = Some {| Pipeline.total_analyzed := length sentiments;
                             Pipeline.positive_ratio :=
                               Pipeline.ratio (Pipeline.count_label "positive" sentiments)
                                              (length sentiments);
                             Pipeline.negative_ratio :=
                               Pipeline.ratio (Pipeline.count_label "negative" sentiments)
                                              (length sentiments);
                             Pipeline.neutral_ratio :=
                               Pipeline.ratio (Pipeline.count_label "neutral" sentiments)
                                              (length sentiments);
                             Pipeline.crisis_keywords :=
                               Z.of_nat (length (List.filter Pipeline.mentions_crisis
                                                             results));
                             Pipeline.high_engagement_negative :=
                               Z.of_nat (length (List.filter
                                                   Pipeline.negative_and_engaging
                                                   results)) |})).
  { subst sentiments. destruct results as [|r0 results0].
    - left. split; reflexivity.
    - right. split; [discriminate|reflexivity]. }
  destruct Hcases as [[Hnil Hs]|[Hne Hs]]; [rewrite Hs; exact Hnil|].
  rewrite Hs.
  cbn [Pipeline.total_analyzed Pipeline.positive_ratio Pipeline.negative_ratio
       Pipeline.neutral_ratio Pipeline.crisis_keywords
       Pipeline.high_engagement_negative].
  assert (Hlen : length sentiments = length results)
    by (subst sentiments; apply length_map).
  pose proof (count_label_partition sentiments) as Hpart.
  set (other := length (List.filter _ sentiments)) in Hpart.
  set (p := Pipeline.count_label "positive" sentiments) in *.
  set (n := Pipeline.count_label "negative" sentiments) in *.
  set (u := Pipeline.count_label "neutral" sentiments) in *.
  assert (Hpos : (0 < length sentiments)%nat).
  { rewrite Hlen. destruct results; [congruence|cbn [length]; lia]. }
  assert (Ht : 0 < inject_Z (Z.of_nat (length sentiments))).
  { change 0 with (inject_Z 0). rewrite <- Zlt_Qlt. lia. }
  assert (Hratio : forall k, Pipeline.ratio k (length sentiments)
                             == inject_Z (Z.of_nat k)
                                / inject_Z (Z.of_nat (length sentiments))).
  { intros k. unfold Pipeline.ratio.
    replace (0 <? length sentiments)%nat with true
      by (symmetry; apply Nat.ltb_lt; exact Hpos).
    reflexivity. }
  assert (Hsum : Pipeline.ratio p (length sentiments)
                 + Pipeline.ratio n (length sentiments)
                 + Pipeline.ratio u (length sentiments)
                 == inject_Z (Z.of_nat (p + n + u))
                    / inject_Z (Z.of_nat (length sentiments))).
  { rewrite !Hratio, !Nat2Z.inj_add, !inject_Z_plus. field. lra. }
  split; [exact Hne|]. split; [exact Hlen|].
  split; [apply ratio_range; lia|]. split; [apply ratio_range; lia|].
  split; [apply ratio_range; lia|].
  split.
  { rewrite Hsum. apply Qle_shift_div_r; [exact Ht|].
    rewrite Qmult_1_l, <- Zle_Qle. lia. }
  split.
  { rewrite Hsum. split.
    - intros Hone.
      assert (Heq : inject_Z (Z.of_nat (p + n + u))
                    == inject_Z (Z.of_nat (length sentiments))).
      { rewrite <- (Qmult_1_l (inject_Z (Z.of_nat (length sentiments)))).
        rewrite <- Hone. field. lra. }
      rewrite inject_Z_injective in Heq.
      assert (Hother : other = 0%nat) by lia.
      subst other. rewrite filter_none_iff in Hother.
      intros s Hin. specialize (Hother s Hin).
      apply negb_false_iff in Hother.
      apply orb_true_iff in Hother. destruct Hother as [Hother|Hu].
      + apply orb_true_iff in Hother. destruct Hother as [Hp|Hn].
        * left. symmetry. apply String.eqb_eq. exact Hp.
        * right. left. symmetry. apply String.eqb_eq. exact Hn.
      + right. right. symmetry. apply String.eqb_eq. exact Hu.
    - intros Hall.
      assert (Hother : other = 0%nat).
      { subst other. apply filter_none_iff. intros s Hin.
        destruct (Hall s Hin) as [-> | [-> | ->]]; reflexivity. }
      assert (Heq : (p + n + u)%nat = length sentiments) by lia.
      rewrite Heq. field. lra. }
  split.
  { apply Nat2Z.inj_le. apply List.filter_length_le. }
  apply Nat2Z.inj_le. subst n sentiments. apply negative_engaging_le.
Qed.
